(** * pymavlink DFReader: APM DataFlash log reader

    A shallow embedding of [pymavlink/DFReader.py] (Python 2) and the
    properties of its schema registry, its two physical decoders and its
    timestamp reconstruction.

    Conventions of the embedding:
    - a Python object is a record, a [dict] with string keys a [gmap], a
      [dict] keyed by arbitrary values an association list compared with
      Python equality, a [list] a [list];
    - Python values are the universal type [value]; a Python [float] is an
      exact rational ([Q]): rounding, infinities and NaN are outside the
      model, integers are unbounded ([Z], Python 2 [int]/[long]);
    - a function that can raise returns an [outcome]; a method that also
      mutates [self] is a function [S -> outcome A * S], the state after a
      raise being the state reached when the exception left the method;
    - attribute access [m.X] on a message reads the field dictionary [_d],
      which [__dict__.update(self._d)] copies into the instance; column
      names that collide with the attributes of [DFMessage] itself
      ([fmt], [_d], [_fieldnames], [_timestamp]) are outside the model;
    - builtins of Python and functions of [mavutil] whose code is not part
      of the reader are operations of the classes [PyRuntime] and
      [Mavutil]; every theorem holds for all their implementations. *)

From Stdlib Require Import ZArith QArith Qround String Ascii List Lia Lqa Bool.
From stdpp Require Import base option gmap strings list sorting.

Close Scope Q_scope.
Local Open Scope string_scope.
Local Open Scope list_scope.

(** ** Exceptions and outcomes *)

Inductive exn : Type :=
| TypeError
| KeyError
| IndexError
| ValueError
| AttributeError
| UnboundLocalError
| ZeroDivisionError
| StructError
| Exception (msg : string).

Inductive outcome (A : Type) : Type :=
| Ok (a : A)
| Raise (e : exn).
Arguments Ok {A} a.
Arguments Raise {A} e.

#[global] Instance outcome_ret : MRet outcome := fun A a => Ok a.
#[global] Instance outcome_bind : MBind outcome := fun A B f x =>
  match x with
  | Ok a => f a
  | Raise e => Raise e
  end.

#[global] Instance outcome_fmap : FMap outcome := fun A B f x =>
  match x with
  | Ok a => Ok (f a)
  | Raise e => Raise e
  end.

Definition is_ok {A} (x : outcome A) : bool :=
  match x with Ok _ => true | Raise _ => false end.

(** [l[i]] on a list, for a non-negative index. *)
Definition index {A} (l : list A) (i : nat) : outcome A :=
  match l !! i with
  | Some a => Ok a
  | None => Raise IndexError
  end.

(** Monadic left fold: a [for] loop whose body can raise. *)
Fixpoint foldM {A B} (f : B -> A -> outcome B) (l : list A) (b : B) : outcome B :=
  match l with
  | [] => Ok b
  | a :: l' => b' ← f b a; foldM f l' b'
  end.

(** ** Byte strings *)

Definition ord (c : ascii) : Z := Z.of_nat (nat_of_ascii c).

Definition NUL : ascii := ascii_of_nat 0.

(** [str.find("\0")] followed by the slice [str[:idx]]. *)
Fixpoint null_term (str : string) : string :=
  match str with
  | EmptyString => EmptyString
  | String c rest => if Ascii.eqb c NUL then EmptyString else String c (null_term rest)
  end.

(** [s.rstrip(chars)]: drop the trailing characters that satisfy [p]. *)
Fixpoint rstrip_with (p : ascii -> bool) (s : string) : string :=
  match s with
  | EmptyString => EmptyString
  | String c rest =>
      match rstrip_with p rest with
      | EmptyString => if p c then EmptyString else String c EmptyString
      | r => String c r
      end
  end.

(** The whitespace of [str.rstrip()]: space, tab, newline, vertical tab,
    form feed, carriage return. *)
Definition is_space (c : ascii) : bool :=
  let n := nat_of_ascii c in
  (n =? 32)%nat || ((9 <=? n)%nat && (n <=? 13)%nat).

Definition rstrip (s : string) : string := rstrip_with is_space s.

Definition rstrip_nul (s : string) : string := rstrip_with (Ascii.eqb NUL) s.

(** [s.split(sep)] for a non-empty separator.  [skip] counts the
    characters of a separator occurrence still to be passed over, [cur]
    is the piece being collected. *)
Fixpoint split_aux (sep s : string) (skip : nat) (cur : string) : list string :=
  match s with
  | EmptyString => [cur]
  | String c rest =>
      match skip with
      | S k => split_aux sep rest k cur
      | O =>
          if String.prefix sep s
          then cur :: split_aux sep rest (String.length sep - 1) EmptyString
          else split_aux sep rest O (cur ++ String c EmptyString)
      end
  end.

Definition split (sep s : string) : list string := split_aux sep s O EmptyString.

Definition startswith (s p : string) : bool := String.prefix p s.

Definition upper_char (c : ascii) : ascii :=
  let n := nat_of_ascii c in
  if ((97 <=? n)%nat && (n <=? 122)%nat) then ascii_of_nat (n - 32) else c.

Fixpoint upper (s : string) : string :=
  match s with
  | EmptyString => EmptyString
  | String c rest => String (upper_char c) (upper rest)
  end.

Fixpoint str_repeat (s : string) (n : nat) : string :=
  match n with
  | O => EmptyString
  | S k => s ++ str_repeat s k
  end.

(** Byte-wise lexicographic order of [str]. *)
Fixpoint str_ltb (a b : string) : bool :=
  match a, b with
  | _, EmptyString => false
  | EmptyString, String _ _ => true
  | String c a', String d b' =>
      let x := nat_of_ascii c in
      let y := nat_of_ascii d in
      if (x <? y)%nat then true
      else if (y <? x)%nat then false
      else str_ltb a' b'
  end.

(** [s[i:j]] with Python's handling of negative and out-of-range bounds. *)
Definition slice_bound (n i : Z) : nat :=
  let i' := if (i <? 0)%Z then (i + n)%Z else i in
  Z.to_nat (Z.min n (Z.max 0 i')).

Definition str_slice (s : string) (i j : Z) : string :=
  let n := Z.of_nat (String.length s) in
  let a := slice_bound n i in
  let b := slice_bound n j in
  String.substring a (b - a) s.

(** ** Python values *)

Inductive value : Type :=
| VNone
| VInt (z : Z)
| VFloat (q : Q)
| VStr (s : string).

(** Truth value of an object. *)
Definition truthy (v : value) : bool :=
  match v with
  | VNone => false
  | VInt z => negb (z =? 0)%Z
  | VFloat q => negb (Qeq_bool q 0)
  | VStr s => negb (String.eqb s EmptyString)
  end.

Definition is_none (v : value) : bool :=
  match v with VNone => true | _ => false end.

Definition py_add (a b : value) : outcome value :=
  match a, b with
  | VInt x, VInt y => Ok (VInt (x + y))
  | VInt x, VFloat y => Ok (VFloat (inject_Z x + y))
  | VFloat x, VInt y => Ok (VFloat (x + inject_Z y))
  | VFloat x, VFloat y => Ok (VFloat (x + y))
  | VStr x, VStr y => Ok (VStr (x ++ y))
  | _, _ => Raise TypeError
  end.

Definition py_sub (a b : value) : outcome value :=
  match a, b with
  | VInt x, VInt y => Ok (VInt (x - y))
  | VInt x, VFloat y => Ok (VFloat (inject_Z x - y))
  | VFloat x, VInt y => Ok (VFloat (x - inject_Z y))
  | VFloat x, VFloat y => Ok (VFloat (x - y))
  | _, _ => Raise TypeError
  end.

Definition py_mul (a b : value) : outcome value :=
  match a, b with
  | VInt x, VInt y => Ok (VInt (x * y))
  | VInt x, VFloat y => Ok (VFloat (inject_Z x * y))
  | VFloat x, VInt y => Ok (VFloat (x * inject_Z y))
  | VFloat x, VFloat y => Ok (VFloat (x * y))
  | VStr s, VInt n => Ok (VStr (str_repeat s (Z.to_nat n)))
  | VInt n, VStr s => Ok (VStr (str_repeat s (Z.to_nat n)))
  | _, _ => Raise TypeError
  end.

(** Classic division of Python 2: floor division on two integers. *)
Definition py_div (a b : value) : outcome value :=
  match a, b with
  | VInt x, VInt y =>
      if (y =? 0)%Z then Raise ZeroDivisionError else Ok (VInt (x / y))
  | VInt x, VFloat y =>
      if Qeq_bool y 0 then Raise ZeroDivisionError else Ok (VFloat (inject_Z x / y))
  | VFloat x, VInt y =>
      if (y =? 0)%Z then Raise ZeroDivisionError else Ok (VFloat (x / inject_Z y))
  | VFloat x, VFloat y =>
      if Qeq_bool y 0 then Raise ZeroDivisionError else Ok (VFloat (x / y))
  | _, _ => Raise TypeError
  end.

Definition Qlt_bool (x y : Q) : bool := negb (Qle_bool y x).

(** The default ordering of Python 2: [None] below every number, every
    number below every [str]; numbers by value, [str] byte-wise. *)
Definition py_lt (a b : value) : bool :=
  match a, b with
  | VNone, VNone => false
  | VNone, _ => true
  | _, VNone => false
  | VInt x, VInt y => (x <? y)%Z
  | VInt x, VFloat y => Qlt_bool (inject_Z x) y
  | VFloat x, VInt y => Qlt_bool x (inject_Z y)
  | VFloat x, VFloat y => Qlt_bool x y
  | (VInt _ | VFloat _), VStr _ => true
  | VStr _, (VInt _ | VFloat _) => false
  | VStr x, VStr y => str_ltb x y
  end.


(** Python equality [a == b], as used for dictionary keys. *)
Definition py_eq (a b : value) : bool :=
  match a, b with
  | VNone, VNone => true
  | VInt x, VInt y => (x =? y)%Z
  | VInt x, VFloat y => Qeq_bool (inject_Z x) y
  | VFloat x, VInt y => Qeq_bool x (inject_Z y)
  | VFloat x, VFloat y => Qeq_bool x y
  | VStr x, VStr y => String.eqb x y
  | _, _ => false
  end.

(** A [dict] whose keys are arbitrary values. *)
Definition vdict (V : Type) : Type := list (value * V).

Fixpoint vdict_get {V} (d : vdict V) (k : value) : option V :=
  match d with
  | [] => None
  | (k', v) :: d' => if py_eq k' k then Some v else vdict_get d' k
  end.

Definition vdict_mem {V} (d : vdict V) (k : value) : bool :=
  match vdict_get d k with Some _ => true | None => false end.

Fixpoint vdict_set {V} (d : vdict V) (k : value) (v : V) : vdict V :=
  match d with
  | [] => [(k, v)]
  | (k', v') :: d' =>
      if py_eq k' k then (k', v) :: d' else (k', v') :: vdict_set d' k v
  end.

(** ** Builtins and collaborators outside the reader *)

Class PyRuntime : Type := {
  (** [int(s)] on a [str]; [None] stands for [ValueError] *)
  int_of_str : string -> option Z;
  (** [float(s)] on a [str]; [None] stands for [ValueError] *)
  float_of_str : string -> option Q;
  (** [str(n)] on a number *)
  str_of_int : Z -> string;
  str_of_float : Q -> string;
  (** [struct.unpack(fmt, data)]; [None] stands for [struct.error] *)
  struct_unpack : string -> string -> option (list value)
}.

Class Mavutil : Type := {
  mode_string_apm : value -> outcome value;
  mode_string_acm : value -> outcome value
}.

(** The type constructors [int], [float], [str] stored in the codec table. *)
Inductive pytype : Type := TInt | TFloat | TStr.

Definition pytype_eqb (a b : pytype) : bool :=
  match a, b with
  | TInt, TInt | TFloat, TFloat | TStr, TStr => true
  | _, _ => false
  end.

Definition Qtruncate (q : Q) : Z :=
  if Qle_bool 0 q then Qfloor q else Qceiling q.

Section Convert.
Context `{PyRuntime}.

(** The call [t(v)] of a type constructor on a value. *)
Definition convert (t : pytype) (v : value) : outcome value :=
  match t, v with
  | TInt, VInt z => Ok (VInt z)
  | TInt, VFloat q => Ok (VInt (Qtruncate q))
  | TInt, VStr s =>
      match int_of_str s with
      | Some z => Ok (VInt z)
      | None => Raise ValueError
      end
  | TInt, VNone => Raise TypeError
  | TFloat, VInt z => Ok (VFloat (inject_Z z))
  | TFloat, VFloat q => Ok (VFloat q)
  | TFloat, VStr s =>
      match float_of_str s with
      | Some q => Ok (VFloat q)
      | None => Raise ValueError
      end
  | TFloat, VNone => Raise TypeError
  | TStr, VStr s => Ok (VStr s)
  | TStr, VInt z => Ok (VStr (str_of_int z))
  | TStr, VFloat q => Ok (VStr (str_of_float q))
  | TStr, VNone => Ok (VStr "None")
  end.
End Convert.

(** ** Field codec and layout descriptors *)

(** The table [FORMAT_TO_STRUCT]: struct code, multiplier, type. *)
Definition FORMAT_TO_STRUCT (c : ascii) : option (string * option Q * pytype) :=
  match c with
  | "b"%char => Some ("b", None, TInt)
  | "B"%char => Some ("B", None, TInt)
  | "h"%char => Some ("h", None, TInt)
  | "H"%char => Some ("H", None, TInt)
  | "i"%char => Some ("i", None, TInt)
  | "I"%char => Some ("I", None, TInt)
  | "f"%char => Some ("f", None, TFloat)
  | "n"%char => Some ("4s", None, TStr)
  | "N"%char => Some ("16s", None, TStr)
  | "Z"%char => Some ("64s", None, TStr)
  | "c"%char => Some ("h", Some (1 # 100)%Q, TFloat)
  | "C"%char => Some ("H", Some (1 # 100)%Q, TFloat)
  | "e"%char => Some ("i", Some (1 # 100)%Q, TFloat)
  | "E"%char => Some ("I", Some (1 # 100)%Q, TFloat)
  | "L"%char => Some ("i", Some (1 # 10000000)%Q, TFloat)
  | "M"%char => Some ("b", None, TInt)
  | "q"%char => Some ("q", None, TInt)
  | "Q"%char => Some ("Q", None, TInt)
  | _ => None
  end.

Record DFFormat : Type := mkDFFormat {
  name : string;
  len : value;
  format : string;
  columns : list string;
  msg_struct : string;
  msg_types : list pytype;
  msg_mults : list (option Q)
}.

(** The loop [for c in format] of [DFFormat.__init__]; [acc] holds
    [msg_struct], [msg_mults] and [msg_types] built so far. *)
Fixpoint scan_format (mname : string) (fmt : string)
    (acc : string * list (option Q) * list pytype)
    : outcome (string * list (option Q) * list pytype) :=
  match fmt with
  | EmptyString => Ok acc
  | String c rest =>
      if (ord c =? 0)%Z then Ok acc
      else
        match FORMAT_TO_STRUCT c with
        | Some (s, mul, ty) =>
            let '(st, mults, types) := acc in
            scan_format mname rest ((st ++ s)%string, mults ++ [mul], types ++ [ty])
        | None =>
            Raise (Exception ("Unsupported format char: '" ++ String c EmptyString
                              ++ "' in message " ++ mname)%string)
        end
  end.

(** [DFFormat(name, len, format, columns)] *)
Definition DFFormat_init (nm : string) (ln : value) (fm : string) (cols : string)
    : outcome DFFormat :=
  '(st, mults, types) ← scan_format nm fm ("<", [], []);
  Ok {| name := nm; len := ln; format := fm; columns := split "," cols;
        msg_struct := st; msg_types := types; msg_mults := mults |}.

(** ** Decoded records *)

Record DFMessage : Type := mkDFMessage {
  fmt : DFFormat;
  _d : gmap string value;
  _fieldnames : list string;
  (** the attribute [_timestamp]; [None] while it has not been assigned *)
  _timestamp : option value
}.

Definition contains (x : string) (l : list string) : bool :=
  existsb (String.eqb x) l.

(** [s[i]] on a [str] *)
Definition str_index (s : string) (i : nat) : outcome ascii :=
  match String.get i s with
  | Some c => Ok c
  | None => Raise IndexError
  end.

(** [null_term] applied to an arbitrary object: only [str] has [find]. *)
Definition null_term_v (v : value) : outcome string :=
  match v with
  | VStr s => Ok (null_term s)
  | _ => Raise AttributeError
  end.

Section DFMessage.
Context `{PyRuntime}.

(** One round of the loop of [DFMessage.__init__].  Every assignment of
    the round writes [self._d[name]]; [v] is the value held there. *)
Definition init_field (f : DFFormat) (elements : list value)
    (apply_multiplier : bool) (d : gmap string value) (i : nat)
    : outcome (gmap string value) :=
  mul ← index (msg_mults f) i;
  nm ← index (columns f) i;
  v ← index elements i;
  c ← str_index (format f) i;
  ty ← index (msg_types f) i;
  v ← (if negb (Ascii.eqb c "M") || apply_multiplier then convert ty v else Ok v);
  v ← (if pytype_eqb ty TStr then VStr <$> null_term_v v else Ok v);
  v ← (match mul with
       | Some k => if apply_multiplier then py_mul v (VFloat k) else Ok v
       | None => Ok v
       end);
  Ok (<[nm := v]> d).

(** [DFMessage(fmt, elements, apply_multiplier)] *)
Definition DFMessage_init (f : DFFormat) (elements : list value)
    (apply_multiplier : bool) : outcome DFMessage :=
  d ← foldM (init_field f elements apply_multiplier)
        (seq 0 (length (columns f))) ∅;
  Ok {| fmt := f; _d := d; _fieldnames := columns f; _timestamp := None |}.
End DFMessage.

Definition add_value (m : DFMessage) (nm : string) (v : value) : DFMessage :=
  {| fmt := fmt m; _d := <[nm := v]> (_d m);
     _fieldnames := _fieldnames m ++ [nm]; _timestamp := _timestamp m |}.

Definition get_type (m : DFMessage) : string := name (fmt m).

(** Attribute access [m.X] *)
Definition getattr (m : DFMessage) (x : string) : outcome value :=
  match _d m !! x with
  | Some v => Ok v
  | None => Raise AttributeError
  end.

Definition set_timestamp (m : DFMessage) (v : value) : DFMessage :=
  {| fmt := fmt m; _d := _d m; _fieldnames := _fieldnames m; _timestamp := Some v |}.

(** ** The reader: state shared by both decoders *)

(** An entry of [self.messages]: the reader itself under ['MAV'], or the
    latest record of a type. *)
Inductive msg_ref : Type :=
| SelfRef
| MsgRef (m : DFMessage).

(** The attributes of a [DFReader] object.  [decoder] groups the
    attributes that only [_parse_next] and the decoder's [_rewind] write:
    the cursor, the schema registry and [percent]. *)
Record DFReader (P : Type) : Type := mkDFReader {
  msg_periods : gmap string value;
  params : vdict value;
  timestamp : value;
  messages : gmap string msg_ref;
  flightmode : value;
  queue : list DFMessage;
  last_gps_time : value;
  decoder : P
}.
Arguments mkDFReader {P}.
Arguments msg_periods {P}.
Arguments params {P}.
Arguments timestamp {P}.
Arguments messages {P}.
Arguments flightmode {P}.
Arguments queue {P}.
Arguments last_gps_time {P}.
Arguments decoder {P}.

(** The methods a concrete reader class supplies. *)
Class Decoder (P : Type) : Type := {
  _parse_next : P -> outcome (option DFMessage) * P;
  _rewind_decoder : P -> P
}.

Section Setters.
Context {P : Type}.

Definition set_queue (q : list DFMessage) (r : DFReader P) : DFReader P :=
  mkDFReader (msg_periods r) (params r) (timestamp r) (messages r)
    (flightmode r) q (last_gps_time r) (decoder r).

Definition set_last_gps_time (t : value) (r : DFReader P) : DFReader P :=
  mkDFReader (msg_periods r) (params r) (timestamp r) (messages r)
    (flightmode r) (queue r) t (decoder r).

Definition set_msg_periods (mp : gmap string value) (r : DFReader P) : DFReader P :=
  mkDFReader mp (params r) (timestamp r) (messages r)
    (flightmode r) (queue r) (last_gps_time r) (decoder r).

Definition set_decoder (p : P) (r : DFReader P) : DFReader P :=
  mkDFReader (msg_periods r) (params r) (timestamp r) (messages r)
    (flightmode r) (queue r) (last_gps_time r) p.

Definition set_messages (ms : gmap string msg_ref) (r : DFReader P) : DFReader P :=
  mkDFReader (msg_periods r) (params r) (timestamp r) ms
    (flightmode r) (queue r) (last_gps_time r) (decoder r).

Definition set_params (ps : vdict value) (r : DFReader P) : DFReader P :=
  mkDFReader (msg_periods r) ps (timestamp r) (messages r)
    (flightmode r) (queue r) (last_gps_time r) (decoder r).

Definition set_flightmode (fm : value) (r : DFReader P) : DFReader P :=
  mkDFReader (msg_periods r) (params r) (timestamp r) (messages r)
    fm (queue r) (last_gps_time r) (decoder r).
End Setters.

(** [DFReader._rewind]; the decoder part is reset by the subclass. *)
Definition _rewind {P} `{Decoder P} (r : DFReader P) : DFReader P :=
  {| msg_periods := msg_periods r;
     params := [];
     timestamp := VInt 0;
     messages := {[ "MAV" := SelfRef ]};
     flightmode := VStr "UNKNOWN";
     queue := [];
     last_gps_time := VNone;
     decoder := _rewind_decoder (decoder r) |}.

(** [DFReader.__init__] followed by the [_rewind] that ends the
    constructor of either subclass. *)
Definition DFReader_new {P} `{Decoder P} (p : P) : DFReader P :=
  _rewind {| msg_periods := ∅; params := []; timestamp := VInt 0;
             messages := ∅; flightmode := VNone; queue := [];
             last_gps_time := VNone; decoder := p |}.

(** ** GPS time *)

Definition GPS_epoch : Z := 86400 * (10 * 365 + (1980 - 1969) / 4 + 1 + 6 - 2).

(** [DFReader._get_gps_time] *)
Definition _get_gps_time (gps : DFMessage) : outcome value :=
  if contains "T" (_fieldnames gps) then
    t ← getattr gps "T"; py_mul t (VFloat (1 # 1000))
  else
    time ← (if contains "Time" (_fieldnames gps)
            then t ← getattr gps "Time"; py_mul t (VFloat (1 # 1000))
            else Ok VNone);
    time ← (if contains "TimeMS" (_fieldnames gps)
            then t ← getattr gps "TimeMS"; py_mul t (VFloat (1 # 1000))
            else Ok time);
    if contains "Week" (_fieldnames gps) then
      w ← getattr gps "Week";
      a ← py_mul (VInt (86400 * 7)) w;
      b ← py_add (VInt GPS_epoch) a;
      c ← py_add b time;
      py_sub c (VInt 15)
    else Ok time.

(** ** Queue fill *)

(** The key of [queue.sort]: [x._timestamp]. *)
Definition sort_key (m : DFMessage) : value :=
  match _timestamp m with
  | Some v => v
  | None => VNone
  end.

(** [list.sort(reverse=True, key=...)]: descending by key, records with
    equal keys keep their order. *)
Fixpoint insert_desc (x : DFMessage) (l : list DFMessage) : list DFMessage :=
  match l with
  | [] => [x]
  | y :: l' =>
      if py_lt (sort_key x) (sort_key y) then y :: insert_desc x l' else x :: l
  end.

Definition sort_desc (l : list DFMessage) : list DFMessage :=
  foldr insert_desc [] l.

Definition has_timestamp (m : DFMessage) : bool :=
  match _timestamp m with Some _ => true | None => false end.

(** The loop [while len(queue) and queue.pop().get_type() != 'GPS'] on
    the reversed queue: records are removed from the end up to and
    including the last one of type GPS. *)
Fixpoint drop_through_GPS (rq : list DFMessage) : list DFMessage :=
  match rq with
  | [] => []
  | m :: rest => if String.eqb (get_type m) "GPS" then rest else drop_through_GPS rest
  end.

Definition pop_through_GPS (q : list DFMessage) : list DFMessage :=
  rev (drop_through_GPS (rev q)).

(** [counts[k]] *)
Definition counts_get (counts : gmap string Z) (k : option string) : outcome Z :=
  match k with
  | Some t =>
      match counts !! t with
      | Some n => Ok n
      | None => Raise KeyError
      end
  | None => Raise KeyError
  end.

(** What the body of the loop [for i in self.queue] carries from one
    record to the next. *)
Record fill_acc : Type := mkFillAcc {
  acc_periods : gmap string value;
  acc_countdown : gmap string Z
}.

(** The body of [for i in self.queue]: returns the record as the round
    leaves it, also when the round raises. *)
Definition assign_timestamp (gps_time gps_time_delta : value)
    (counts : gmap string Z) (a : fill_acc) (i : DFMessage)
    : outcome unit * DFMessage * fill_acc :=
  let i_type := get_type i in
  let interpolate (i : DFMessage) :=
    match counts_get counts (Some i_type) with
    | Raise e => (Raise e, i, a)
    | Ok c =>
        match py_div gps_time_delta (VInt c) with
        | Raise e => (Raise e, i, a)
        | Ok p =>
            let a1 := mkFillAcc (<[i_type := p]> (acc_periods a)) (acc_countdown a) in
            match counts_get (acc_countdown a) (Some i_type) with
            | Raise e => (Raise e, i, a1)
            | Ok cd =>
                match (x ← py_mul p (VInt cd);
                       y ← py_sub gps_time x;
                       h ← py_mul p (VFloat (1 # 2));
                       py_add y h) with
                | Raise e => (Raise e, i, a1)
                | Ok ts =>
                    (Ok tt, set_timestamp i ts,
                     mkFillAcc (acc_periods a1) (<[i_type := (cd - 1)%Z]> (acc_countdown a)))
                end
            end
        end
    end in
  let own_time (i : DFMessage) :=
    if contains "T" (_fieldnames i) then
      match getattr i "T" with
      | Raise e => (Raise e, i, a)
      | Ok t => (Ok tt, set_timestamp i t, a)
      end
    else interpolate i in
  if String.eqb i_type "GPS" || String.eqb i_type "GPS2" then
    match _get_gps_time i with
    | Raise e => (Raise e, i, a)
    | Ok t =>
        let i1 := set_timestamp i t in
        if truthy t then (Ok tt, i1, a) else own_time i1
    end
  else own_time i.

(** The whole [for] loop: the queue with the records visited so far
    updated in place. *)
Fixpoint assign_timestamps (gps_time gps_time_delta : value)
    (counts : gmap string Z) (a : fill_acc) (q : list DFMessage)
    : outcome unit * list DFMessage * fill_acc :=
  match q with
  | [] => (Ok tt, [], a)
  | i :: rest =>
      match assign_timestamp gps_time gps_time_delta counts a i with
      | (Raise e, i', a') => (Raise e, i' :: rest, a')
      | (Ok _, i', a') =>
          let '(o, rest', a'') := assign_timestamps gps_time gps_time_delta counts a' rest in
          (o, i' :: rest', a'')
      end
  end.

(** [m is None] for the result of [_parse_next] *)
Definition m_is_none (m : option DFMessage) : bool :=
  match m with
  | None => true
  | Some _ => false
  end.

(** How one round of [while True] ends. *)
Inductive ctl : Type :=
| Continue
| Break
| Return (v : value).

Section DFReader.
Context {P : Type} `{Decoder P}.

(** The block under [if gps_time is not None or m is None]. *)
Definition flush (gps_time : value) (m_type : option string)
    (counts : gmap string Z) (r : DFReader P) : outcome ctl * DFReader P :=
  match (d ← py_sub gps_time (last_gps_time r);
         c ← counts_get counts m_type;
         py_mul d (VInt c)) with
  | Raise e => (Raise e, r)
  | Ok gps_time_delta =>
      let r := set_last_gps_time gps_time r in
      let '(o, q, a) :=
        assign_timestamps gps_time gps_time_delta counts
          (mkFillAcc (msg_periods r) counts) (queue r) in
      let r := set_queue q (set_msg_periods (acc_periods a) r) in
      match o with
      | Raise e => (Raise e, r)
      | Ok _ =>
          if forallb has_timestamp (queue r)
          then (Ok Break, set_queue (sort_desc (queue r)) r)
          else (Raise AttributeError, r)
      end
  end.

(** One round of the loop [while True] of [_fill_msg_queue]. *)
Definition fill_round (counts : gmap string Z) (r : DFReader P)
    : outcome ctl * gmap string Z * DFReader P :=
  let '(om, p) := _parse_next (decoder r) in
  let r := set_decoder p r in
  match om with
  | Raise e => (Raise e, counts, r)
  | Ok m =>
      let '(m_type, counts, r) :=
        match m with
        | Some m' =>
            let t := get_type m' in
            (Some t, <[t := (default 0%Z (counts !! t) + 1)%Z]> counts,
             set_queue (queue r ++ [m']) r)
        | None => (None, counts, set_queue (pop_through_GPS (queue r)) r)
        end in
      if (length (queue r) =? 0)%nat then (Ok (Return (VInt 0)), counts, r)
      else
        let proceed (gps_time : value) :=
          if negb (is_none gps_time) || m_is_none m
          then let '(o, r') := flush gps_time m_type counts r in (o, counts, r')
          else (Ok Continue, counts, r) in
        match m with
        | Some m' =>
            if String.eqb (get_type m') "GPS" then
              match _get_gps_time m' with
              | Raise e => (Raise e, counts, r)
              | Ok t =>
                  if truthy t then
                    if is_none (last_gps_time r)
                    then (Ok Continue, counts, set_last_gps_time t r)
                    else proceed t
                  else proceed VNone
              end
            else proceed VNone
        | None => proceed VNone
        end
  end.

(** The loop [while True]; [fuel] bounds the number of rounds. *)
Fixpoint fill_loop (fuel : nat) (counts : gmap string Z) (r : DFReader P)
    : option (outcome value * DFReader P) :=
  match fuel with
  | O => None
  | S n =>
      match fill_round counts r with
      | (Raise e, _, r') => Some (Raise e, r')
      | (Ok Continue, counts', r') => fill_loop n counts' r'
      | (Ok Break, _, r') => Some (Ok (VInt (Z.of_nat (length (queue r')))), r')
      | (Ok (Return v), _, r') => Some (Ok v, r')
      end
  end.

(** [DFReader._fill_msg_queue] *)
Definition _fill_msg_queue (fuel : nat) (r : DFReader P)
    : option (outcome value * DFReader P) :=
  if negb (length (queue r) =? 0)%nat then Some (Ok VNone, r)
  else fill_loop fuel ∅ r.
End DFReader.

(** [list.pop()]: the last element and the list without it. *)
Definition pop {A} (l : list A) : option (A * list A) :=
  match rev l with
  | [] => None
  | x :: rl => Some (x, rev rl)
  end.

Section Session.
Context {P : Type} `{Decoder P} `{Mavutil}.

(** [DFReader._update_state] for a record that is not [None]. *)
Definition _update_state (m : DFMessage) (r : DFReader P) : outcome unit * DFReader P :=
  let type := get_type m in
  let r := set_messages (<[type := MsgRef m]> (messages r)) r in
  let '(o, r) :=
    if String.eqb type "PARM" then
      match (v ← getattr m "Value"; k ← getattr m "Name"; Ok (k, v)) with
      | Raise e => (Raise e, r)
      | Ok (k, v) => (Ok tt, set_params (vdict_set (params r) k v) r)
      end
    else (Ok tt, r) in
  match o with
  | Raise e => (Raise e, r)
  | Ok _ =>
      if String.eqb type "MODE" then
        match getattr m "Mode" with
        | Raise e => (Raise e, r)
        | Ok (VStr s) => (Ok tt, set_flightmode (VStr (upper s)) r)
        | Ok mode =>
            let looked_up :=
              if contains "ModeNum" (_fieldnames m)
              then (n ← getattr m "ModeNum"; mode_string_apm n)
              else mode_string_acm mode in
            match looked_up with
            | Raise e => (Raise e, r)
            | Ok fm => (Ok tt, set_flightmode fm r)
            end
        end
      else (Ok tt, r)
  end.

(** [DFReader.recv_msg] *)
Definition recv_msg (fuel : nat) (r : DFReader P)
    : option (outcome (option DFMessage) * DFReader P) :=
  filled ← (if (length (queue r) =? 0)%nat
            then _fill_msg_queue fuel r
            else Some (Ok VNone, r));
  match filled with
  | (Raise e, r) => Some (Raise e, r)
  | (Ok _, r) =>
      match pop (queue r) with
      | None => Some (Ok None, r)
      | Some (m, q) =>
          match _update_state m (set_queue q r) with
          | (Raise e, r) => Some (Raise e, r)
          | (Ok _, r) => Some (Ok (Some m), r)
          end
      end
  end.
End Session.

(** ** Binary decoder *)

Definition hex_digit (n : Z) : string :=
  String.substring (Z.to_nat n) 1 "0123456789abcdef".

(** ["%02x" % n] for a byte value *)
Definition hex2 (n : Z) : string :=
  (hex_digit (n / 16) ++ hex_digit (n mod 16))%string.

(** A slice [s[a:b]]: the bounds have to be integers. *)
Definition py_slice (s : string) (a b : value) : outcome string :=
  match a, b with
  | VInt i, VInt j => Ok (str_slice s i j)
  | _, _ => Raise TypeError
  end.

Module DFReader_binary.

Record t : Type := mk {
  data : string;
  HEAD1 : Z;
  HEAD2 : Z;
  formats : vdict DFFormat;
  offset : value;
  remaining : value;
  percent : value
}.

Definition strlen (s : string) : value := VInt (Z.of_nat (String.length s)).

(** The entry [formats] starts with: the layout of FMT itself. *)
Definition bootstrap : outcome DFFormat :=
  DFFormat_init "FMT" (VInt 89) "BBnNZ" "Type,Length,Name,Format,Columns".

(** The decoder part of [DFReader_binary._rewind]. *)
Definition rewind (p : t) : t :=
  mk (data p) (HEAD1 p) (HEAD2 p) (formats p) (VInt 0) (strlen (data p)) (VInt 0).

(** The decoder part of [DFReader_binary.__init__] on the content of
    the file. *)
Definition init (content : string) : outcome t :=
  f ← bootstrap;
  Ok (rewind (mk content 163 149 [(VInt 128, f)] VNone VNone VNone)).

Definition set_offset (off : value) (p : t) : t :=
  mk (data p) (HEAD1 p) (HEAD2 p) (formats p) off (remaining p) (percent p).

Definition set_remaining (rem : value) (p : t) : t :=
  mk (data p) (HEAD1 p) (HEAD2 p) (formats p) (offset p) rem (percent p).

(** [self.offset += n] followed by [self.remaining -= n] *)
Definition advance (n : value) (p : t) : outcome unit * t :=
  match py_add (offset p) n with
  | Raise e => (Raise e, p)
  | Ok off =>
      let p := set_offset off p in
      match py_sub (remaining p) n with
      | Raise e => (Raise e, p)
      | Ok rem => (Ok tt, set_remaining rem p)
      end
  end.

Definition set_formats (fs : vdict DFFormat) (p : t) : t :=
  mk (data p) (HEAD1 p) (HEAD2 p) fs (offset p) (remaining p) (percent p).

Definition set_percent (pc : value) (p : t) : t :=
  mk (data p) (HEAD1 p) (HEAD2 p) (formats p) (offset p) (remaining p) pc.

(** The statement that registers a layout when an FMT record names a
    type identifier not yet in [formats]. *)
Definition register (f : DFFormat) (elements : list value) (p : t) : outcome unit * t :=
  if String.eqb (null_term (name f)) "FMT" then
    match index elements 0 with
    | Raise e => (Raise e, p)
    | Ok key =>
        if negb (vdict_mem (formats p) key) then
          match (e2 ← index elements 2; nm ← null_term_v e2;
                 ln ← index elements 1;
                 e3 ← index elements 3; fm ← null_term_v e3;
                 e4 ← index elements 4; cols ← null_term_v e4;
                 DFFormat_init nm ln fm cols) with
          | Raise e => (Raise e, p)
          | Ok f' => (Ok tt, set_formats (vdict_set (formats p) key f') p)
          end
        else (Ok tt, p)
    end
  else (Ok tt, p).

(** The first statements of [_parse_next]: the type identifier in the
    header at the cursor, [None] when fewer than three bytes are left
    or the two marker bytes are not there. *)
Definition read_header (p : t) : outcome (option Z) :=
  avail ← py_sub (strlen (data p)) (offset p);
  if py_lt avail (VInt 3) then Ok None
  else
    stop ← py_add (offset p) (VInt 3);
    hdr ← py_slice (data p) (offset p) stop;
    h0 ← str_index hdr 0;
    if negb (ord h0 =? HEAD1 p)%Z then Ok None
    else
      h1 ← str_index hdr 1;
      if negb (ord h1 =? HEAD2 p)%Z then Ok None
      else h2 ← str_index hdr 2; Ok (Some (ord h2)).

Section Parse.
Context `{PyRuntime}.

(** The body of a record of layout [f] at the cursor, unpacked:
    [fmt.len-3] and the list [elements]; [None] when the log ends
    inside the record. *)
Definition read_elements (f : DFFormat) (p : t) : outcome (option (value * list value)) :=
  body_len ← py_sub (len f) (VInt 3);
  if py_lt (remaining p) body_len then Ok None
  else
    stop ← py_add (offset p) body_len;
    body ← py_slice (data p) (offset p) stop;
    match struct_unpack (msg_struct f) body with
    | None => Raise StructError
    | Some elements => Ok (Some (body_len, elements))
    end.

(** [DFReader_binary._parse_next], after the header has been found
    and the cursor moved past it. *)
Definition parse_body (msg_type : Z) (p : t) : outcome (option DFMessage) * t :=
  match vdict_get (formats p) (VInt msg_type) with
  | None =>
      (Raise (Exception ("Unknown message type " ++ hex2 msg_type)%string), p)
  | Some f =>
      match read_elements f p with
      | Raise e => (Raise e, p)
      | Ok None => (Ok None, p)
      | Ok (Some (body_len, elements)) =>
          match register f elements p with
          | (Raise e, p) => (Raise e, p)
          | (Ok _, p) =>
              match advance body_len p with
              | (Raise e, p) => (Raise e, p)
              | (Ok _, p) =>
                  match DFMessage_init f elements true with
                  | Raise e => (Raise e, p)
                  | Ok m =>
                      match (x ← py_div (offset p)
                                   (VFloat (inject_Z (Z.of_nat (String.length (data p)))));
                             py_mul (VFloat 100) x) with
                      | Raise e => (Raise e, p)
                      | Ok pc => (Ok (Some m), set_percent pc p)
                      end
                  end
              end
          end
      end
  end.

(** [DFReader_binary._parse_next] *)
Definition parse_next (p : t) : outcome (option DFMessage) * t :=
  match read_header p with
  | Raise e => (Raise e, p)
  | Ok None => (Ok None, p)
  | Ok (Some msg_type) =>
      match advance (VInt 3) p with
      | (Raise e, p) => (Raise e, p)
      | (Ok _, p) => parse_body msg_type p
      end
  end.

#[global] Instance decoder : Decoder t :=
  {| _parse_next := parse_next; _rewind_decoder := rewind |}.
End Parse.

End DFReader_binary.

(** ** Text decoder *)

Module DFReader_text.

Record t : Type := mk {
  lines : list string;
  line : nat;
  formats : gmap string DFFormat;
  percent : value
}.

Definition bootstrap : outcome DFFormat :=
  DFFormat_init "FMT" (VInt 89) "BBnNZ" "Type,Length,Name,Format,Columns".

(** The loop of [_rewind]: the index of the first line that starts
    with ["FMT, "], or the number of lines. *)
Fixpoint find_fmt (ls : list string) (ln : nat) : nat :=
  match ls with
  | [] => ln
  | s :: rest => if startswith s "FMT, " then ln else find_fmt rest (S ln)
  end.

(** The decoder part of [DFReader_text._rewind]. *)
Definition rewind (p : t) : t :=
  mk (lines p) (find_fmt (lines p) 0) (formats p) (VInt 0).

(** The decoder part of [DFReader_text.__init__] on the lines of the
    file. *)
Definition init (ls : list string) : outcome t :=
  f ← bootstrap;
  Ok (rewind (mk ls 0 {[ "FMT" := f ]} VNone)).

Definition set_line (ln : nat) (p : t) : t :=
  mk (lines p) ln (formats p) (percent p).

Definition set_formats (fs : gmap string DFFormat) (p : t) : t :=
  mk (lines p) (line p) fs (percent p).

Definition set_percent (pc : value) (p : t) : t :=
  mk (lines p) (line p) (formats p) pc.

(** The loop [while self.line < len(self.lines)] of [_parse_next] on
    the lines from the cursor on: the value of [elements] when the loop
    is left ([None] while it is unbound) and the cursor. *)
Fixpoint scan (ls : list string) (ln : nat) (elements : option (list string))
    : option (list string) * nat :=
  match ls with
  | [] => (elements, ln)
  | s :: rest =>
      let e := split ", " (rstrip s) in
      if (2 <=? length e)%nat then (Some e, S ln) else scan rest (S ln) (Some e)
  end.

(** "cope with empty structures" *)
Definition fix_empty (elements : list string) : list string :=
  if (length elements =? 5)%nat && String.eqb (List.last elements EmptyString) ","
  then removelast elements ++ [EmptyString; EmptyString]
  else elements.

Section Parse.
Context `{PyRuntime}.

(** The statement that registers the layout an FMT line declares. *)
Definition register (f : DFFormat) (elements : list string) (p : t) : outcome unit * t :=
  if String.eqb (rstrip_nul (name f)) "FMT" then
    match (e2 ← index elements 2;
           e1 ← index elements 1; ln ← convert TInt (VStr e1);
           e3 ← index elements 3;
           e4 ← index elements 4;
           f' ← DFFormat_init e2 ln e3 e4;
           Ok (e2, f')) with
    | Raise e => (Raise e, p)
    | Ok (e2, f') => (Ok tt, set_formats (<[e2 := f']> (formats p)) p)
    end
  else (Ok tt, p).

(** [DFReader_text._parse_next] *)
Definition parse_next (p : t) : outcome (option DFMessage) * t :=
  let '(found, ln) := scan (drop (line p) (lines p)) (line p) None in
  let p := set_line ln p in
  match found with
  | None => (Raise UnboundLocalError, p)
  | Some elements =>
      let elements := fix_empty elements in
      match (x ← py_div (VInt (Z.of_nat (line p)))
                   (VFloat (inject_Z (Z.of_nat (length (lines p)))));
             py_mul (VFloat 100) x) with
      | Raise e => (Raise e, p)
      | Ok pc =>
          let p := set_percent pc p in
          if (length (lines p) <=? line p)%nat then (Ok None, p)
          else
            match index elements 0 with
            | Raise e => (Raise e, p)
            | Ok msg_type =>
                match formats p !! msg_type with
                | None => (Ok None, p)
                | Some f =>
                    if (length elements <? String.length (format f) + 1)%nat
                    then (Ok None, p)
                    else
                      let elements := tail elements in
                      match register f elements p with
                      | (Raise e, p) => (Raise e, p)
                      | (Ok _, p) =>
                          match DFMessage_init f (VStr <$> elements) false with
                          | Raise e => (Raise e, p)
                          | Ok m =>
                              (Ok (Some (add_value m "line" (VInt (Z.of_nat (line p))))), p)
                          end
                      end
                end
            end
      end
  end.

#[global] Instance decoder : Decoder t :=
  {| _parse_next := parse_next; _rewind_decoder := rewind |}.
End Parse.

End DFReader_text.

(** ** A runtime to evaluate the readers on concrete logs

    Decimal [int] and [float] literals and the struct codes of one and two
    bytes and of text; enough for the logs used as examples below. *)

Module SampleRuntime.

Definition digit (c : ascii) : option Z :=
  let n := nat_of_ascii c in
  if ((48 <=? n)%nat && (n <=? 57)%nat) then Some (Z.of_nat (n - 48)) else None.

Fixpoint digits (s : string) (acc : Z) : option Z :=
  match s with
  | EmptyString => Some acc
  | String c rest =>
      match digit c with
      | Some d => digits rest (10 * acc + d)%Z
      | None => None
      end
  end.

Definition parse_int (s : string) : option Z :=
  match s with
  | EmptyString => None
  | String "-"%char rest =>
      match rest with
      | EmptyString => None
      | _ => Z.opp <$> digits rest 0
      end
  | _ => digits s 0
  end.

Definition pow10 (n : nat) : positive := Pos.pow 10 (Pos.of_nat n).

Definition parse_float (s : string) : option Q :=
  match split "." s with
  | [i] => inject_Z <$> parse_int i
  | [i; f] =>
      match parse_int i, digits f 0 with
      | Some a, Some b =>
          let frac := match f with
                      | EmptyString => 0%Q
                      | _ => Qmake b (pow10 (String.length f))
                      end in
          Some (if String.prefix "-" i then (inject_Z a - frac)%Q else (inject_Z a + frac)%Q)
      | _, _ => None
      end
  | _ => None
  end.

Definition byte_at (s : string) (i : nat) : Z :=
  match String.get i s with
  | Some c => ord c
  | None => 0%Z
  end.

(** Little-endian decoding of the codes [B], [b], [H], [h], [4s], [16s]
    and [64s]; [t] is the format after the byte-order mark. *)
Fixpoint unpack_codes (fuel : nat) (t : string) (body : string) : option (list value) :=
  match fuel with
  | O => None
  | S k =>
      let take (n : nat) (dec : string -> value) (t' : string) :=
        if (String.length body <? n)%nat then None
        else (dec (String.substring 0 n body) ::.)
               <$> unpack_codes k t' (String.substring n (String.length body - n) body) in
      match t with
      | EmptyString => if (String.length body =? 0)%nat then Some [] else None
      | String "B"%char t' => take 1%nat (fun b => VInt (byte_at b 0)) t'
      | String "b"%char t' =>
          take 1%nat (fun b => let x := byte_at b 0 in
                               VInt (if (x <? 128)%Z then x else x - 256)%Z) t'
      | String "H"%char t' =>
          take 2%nat (fun b => VInt (byte_at b 0 + 256 * byte_at b 1)%Z) t'
      | String "h"%char t' =>
          take 2%nat (fun b => let x := (byte_at b 0 + 256 * byte_at b 1)%Z in
                               VInt (if (x <? 32768)%Z then x else x - 65536)%Z) t'
      | String "4"%char (String "s"%char t') => take 4%nat VStr t'
      | String "1"%char (String "6"%char (String "s"%char t')) => take 16%nat VStr t'
      | String "6"%char (String "4"%char (String "s"%char t')) => take 64%nat VStr t'
      | _ => None
      end
  end.

Definition unpack (fm body : string) : option (list value) :=
  match fm with
  | String "<"%char t => unpack_codes (S (String.length t)) t body
  | _ => None
  end.

#[global] Instance runtime : PyRuntime :=
  {| int_of_str := parse_int;
     float_of_str := parse_float;
     str_of_int := fun _ => EmptyString;
     str_of_float := fun _ => EmptyString;
     struct_unpack := unpack |}.

#[global] Instance mavutil : Mavutil :=
  {| mode_string_apm := fun _ => Ok (VStr "UNKNOWN");
     mode_string_acm := fun _ => Ok (VStr "UNKNOWN") |}.

End SampleRuntime.

(** ** Vocabulary of the statements *)

(** The rational a number stands for. *)
Definition as_Q (v : value) : option Q :=
  match v with
  | VInt z => Some (inject_Z z)
  | VFloat q => Some q
  | _ => None
  end.

(** The attribute [x] of [m] exists and holds the number [q]. *)
Definition numeric_field (m : DFMessage) (x : string) (q : Q) : Prop :=
  exists v, getattr m x = Ok v /\ as_Q v = Some q.

(** The millisecond field [_get_gps_time] ends up using: [TimeMS] is
    read after [Time] and replaces it. *)
Definition time_ms_field (gps : DFMessage) : string :=
  if contains "TimeMS" (_fieldnames gps) then "TimeMS" else "Time".

(** The claim that a line of an unregistered type is skipped: the call
    at such a line returns the record the next line decodes to. *)
Definition text_skips_unregistered `{PyRuntime} (p : DFReader_text.t) : Prop :=
  forall s t m p',
    DFReader_text.lines p !! DFReader_text.line p = Some s ->
    head (split ", " (rstrip s)) = Some t ->
    DFReader_text.formats p !! t = None ->
    DFReader_text.parse_next (DFReader_text.set_line (S (DFReader_text.line p)) p)
      = (Ok (Some m), p') ->
    fst (DFReader_text.parse_next p) = Ok (Some m).

(** The value [_parse_next] stores in [percent] at cursor [ln] of [n]
    lines. *)
Definition text_percent (ln n : nat) : value :=
  VFloat (100 * (inject_Z (Z.of_nat ln) / inject_Z (Z.of_nat n))).

(** *** Sample logs *)

Definition newline : string := String (ascii_of_nat 10) EmptyString.

Definition text_log (ls : list string) : list string :=
  map (fun s => (s ++ newline)%string) ls.

(** A reader on the lines of a text log, as the constructor leaves it. *)
Definition text_reader (ls : list string) : option (DFReader DFReader_text.t) :=
  match @DFReader_text.init (text_log ls) with
  | Ok p => Some (@DFReader_new _ (@DFReader_text.decoder SampleRuntime.runtime) p)
  | Raise _ => None
  end.

(** The decoder state after [n] calls of [_parse_next]. *)
Fixpoint text_after (n : nat) (p : DFReader_text.t) : DFReader_text.t :=
  match n with
  | O => p
  | S k => text_after k (snd (@DFReader_text.parse_next SampleRuntime.runtime p))
  end.

Definition text_decoder_of (ls : list string) : DFReader_text.t :=
  match @DFReader_text.init (text_log ls) with
  | Ok p => p
  | Raise _ => DFReader_text.mk [] 0 ∅ VNone
  end.

(** A log whose fifth line has a type no FMT line declared. *)
Definition log_unknown_type : list string :=
  [ "FMT, 128, 89, FMT, BBnNZ, Type,Length,Name,Format,Columns";
    "FMT, 130, 10, GPS, I, T";
    "FMT, 131, 10, ATT, cc, Roll,Pitch";
    "GPS, 10000";
    "XYZ, 1, 2";
    "ATT, 3, 4";
    "GPS, 20000";
    "ATT, 5, 6" ].

(** A log that declares ATT twice, with different layouts. *)
Definition log_redeclared : list string :=
  [ "FMT, 128, 89, FMT, BBnNZ, Type,Length,Name,Format,Columns";
    "FMT, 131, 10, ATT, cc, Roll,Pitch";
    "FMT, 131, 10, ATT, c, Roll";
    "ATT, 3";
    "ATT, 5" ].

(** What it means for the record the next round of the batching loop
    reads to be treated as a time anchor: the first anchor after a rewind
    seeds [last_gps_time]; a later one ends the batch. *)
Definition acts_as_anchor {P} `{Decoder P} (counts : gmap string Z) (r : DFReader P) : Prop :=
  if is_none (last_gps_time r)
  then truthy (last_gps_time (snd (fill_round counts r))) = true
  else fst (fst (fill_round counts r)) <> Ok Continue.

(** The state of the batching loop after [n] rounds. *)
Fixpoint rounds {P} `{Decoder P} (n : nat) (counts : gmap string Z) (r : DFReader P)
    : gmap string Z * DFReader P :=
  match n with
  | O => (counts, r)
  | S k => let '(_, counts', r') := fill_round counts r in rounds k counts' r'
  end.

Definition text_reader_of (ls : list string) : DFReader DFReader_text.t :=
  @DFReader_new _ (@DFReader_text.decoder SampleRuntime.runtime) (text_decoder_of ls).

(** The reader after [n] calls of [recv_msg]. *)
Fixpoint text_received (n : nat) (r : DFReader DFReader_text.t) : DFReader DFReader_text.t :=
  match n with
  | O => r
  | S k =>
      match @recv_msg _ (@DFReader_text.decoder SampleRuntime.runtime)
              SampleRuntime.mavutil (S (length (DFReader_text.lines (decoder r)))) r with
      | Some (_, r') => text_received k r'
      | None => r
      end
  end.

(** A log that ends after one GPS fix and one further record. *)
Definition log_one_anchor : list string :=
  [ "FMT, 128, 89, FMT, BBnNZ, Type,Length,Name,Format,Columns";
    "FMT, 130, 10, GPS, I, T";
    "FMT, 131, 10, ATT, cc, Roll,Pitch";
    "GPS, 10000";
    "ATT, 1, 2";
    "ATT, 3, 4" ].

(** A log with fixes of a second receiver. *)
Definition log_gps2 : list string :=
  [ "FMT, 128, 89, FMT, BBnNZ, Type,Length,Name,Format,Columns";
    "FMT, 130, 10, GPS, I, T";
    "FMT, 132, 10, GPS2, I, T";
    "FMT, 131, 10, ATT, cc, Roll,Pitch";
    "GPS2, 10000";
    "ATT, 1, 2";
    "GPS2, 20000";
    "GPS, 21000";
    "ATT, 3, 4";
    "GPS, 31000";
    "ATT, 5, 6" ].

(** Two GPS fixes, at 10 s and 20 s, around two ATT records. *)
Definition log_first_batch : list string :=
  [ "FMT, 128, 89, FMT, BBnNZ, Type,Length,Name,Format,Columns";
    "FMT, 130, 10, GPS, I, T";
    "FMT, 131, 10, ATT, cc, Roll,Pitch";
    "GPS, 10000";
    "ATT, 1, 2";
    "ATT, 3, 4";
    "GPS, 20000";
    "ATT, 5, 6" ].

(** The same two fixes after an earlier fix at 5 s has closed the first
    batch together with the fix at 10 s. *)
Definition log_later_batch : list string :=
  [ "FMT, 128, 89, FMT, BBnNZ, Type,Length,Name,Format,Columns";
    "FMT, 130, 10, GPS, I, T";
    "FMT, 131, 10, ATT, cc, Roll,Pitch";
    "GPS, 5000";
    "GPS, 10000";
    "ATT, 1, 2";
    "ATT, 3, 4";
    "GPS, 20000";
    "ATT, 5, 6" ].

(** The timestamps of the records of type [ty] in a queue, in the order
    of the queue. *)
Definition timestamps_of (ty : string) (q : list DFMessage) : list (option value) :=
  _timestamp <$> filter (fun m => get_type m = ty) q.

(** The scale factor the codec table gives a format code. *)
Definition scale_of (c : ascii) : option Q :=
  match FORMAT_TO_STRUCT c with
  | Some (_, k, _) => k
  | None => None
  end.

(** A descriptor whose derived attributes are those [DFFormat.__init__]
    computes from its name and format. *)
Definition wf_format (f : DFFormat) : Prop :=
  scan_format (name f) (format f) ("<", [], []) = Ok (msg_struct f, msg_mults f, msg_types f).

(** The value a round of the loop of [DFMessage.__init__] leaves in
    [self._d[name]]. *)
Definition field_value `{PyRuntime} (f : DFFormat) (elements : list value)
    (apply_multiplier : bool) (i : nat) : outcome value :=
  mul ← index (msg_mults f) i;
  v ← index elements i;
  c ← str_index (format f) i;
  ty ← index (msg_types f) i;
  v ← (if negb (Ascii.eqb c "M") || apply_multiplier then convert ty v else Ok v);
  v ← (if pytype_eqb ty TStr then VStr <$> null_term_v v else Ok v);
  match mul with
  | Some k => if apply_multiplier then py_mul v (VFloat k) else Ok v
  | None => Ok v
  end.

(** The tokens of the line a call of the text [_parse_next] decodes,
    after the type name: the line before the cursor the call leaves. *)
Definition text_fields (p' : DFReader_text.t) : list string :=
  match DFReader_text.lines p' !! (DFReader_text.line p' - 1)%nat with
  | Some s => tail (DFReader_text.fix_empty (split ", " (rstrip s)))
  | None => []
  end.

Definition text_registry_wf (p : DFReader_text.t) : Prop :=
  forall k f, DFReader_text.formats p !! k = Some f -> wf_format f.

Definition binary_registry_wf (p : DFReader_binary.t) : Prop :=
  forall k f, vdict_get (DFReader_binary.formats p) k = Some f -> wf_format f.

(** The type identifier of the record at the cursor of a binary log. *)
Definition record_type (p : DFReader_binary.t) : option Z :=
  match DFReader_binary.read_header p with
  | Ok (Some t) => Some t
  | _ => None
  end.

(** The unpacked fields of the record at the cursor of a binary log. *)
Definition record_fields `{PyRuntime} (p : DFReader_binary.t) : option (list value) :=
  t ← record_type p;
  f ← vdict_get (DFReader_binary.formats p) (VInt t);
  match DFReader_binary.read_elements f (snd (DFReader_binary.advance (VInt 3) p)) with
  | Ok (Some (_, elements)) => Some elements
  | _ => None
  end.

(** [later p p']: the decoder state [p'] is reached from [p] by calls of
    [_parse_next]. *)
Definition later `{PyRuntime} : relation DFReader_binary.t :=
  rtc (fun p p' => p' = snd (DFReader_binary.parse_next p)).

(** *** A sample binary log *)

Definition bytes (l : list nat) : string := string_of_list_ascii (map ascii_of_nat l).

Definition padded (n : nat) (s : string) : string :=
  (s ++ string_of_list_ascii (repeat NUL (n - String.length s)))%string.

(** An FMT record: header, type, length, name, format, column names. *)
Definition fmt_record (ty ln : nat) (nm fm cols : string) : string :=
  (bytes [163; 149; 128; ty; ln] ++ padded 4 nm ++ padded 16 fm ++ padded 64 cols)%string.

(** FMT declares itself and ATT (type 129, two centi-degree fields);
    two ATT records follow: (1.00, 2.00) and (3.00, -1.00). *)
Definition binary_log : string :=
  (fmt_record 128 89 "FMT" "BBnNZ" "Type,Length,Name,Format,Columns"
   ++ fmt_record 129 7 "ATT" "cc" "Roll,Pitch"
   ++ bytes [163; 149; 129; 100; 0; 200; 0]
   ++ bytes [163; 149; 129; 44; 1; 156; 255])%string.

Definition binary_decoder_of (content : string) : DFReader_binary.t :=
  match DFReader_binary.init content with
  | Ok p => p
  | Raise _ => DFReader_binary.mk content 163 149 [] VNone VNone VNone
  end.

Fixpoint binary_after (n : nat) (p : DFReader_binary.t) : DFReader_binary.t :=
  match n with
  | O => p
  | S k => binary_after k (snd (@DFReader_binary.parse_next SampleRuntime.runtime p))
  end.

(** The built-in layout of the schema-declaration type FMT. *)
Definition FMT_layout : DFFormat :=
  {| name := "FMT"; len := VInt 89; format := "BBnNZ";
     columns := ["Type"; "Length"; "Name"; "Format"; "Columns"];
     msg_struct := "<BB4s16s64s";
     msg_types := [TInt; TInt; TStr; TStr; TStr];
     msg_mults := [None; None; None; None; None] |}.
(** The first token of the line a call of the text [_parse_next]
    decodes, [msg_type = elements[0]]: the type name of the line before
    the cursor the call leaves. *)
Definition text_type (p' : DFReader_text.t) : option string :=
  match DFReader_text.lines p' !! (DFReader_text.line p' - 1)%nat with
  | Some s => head (DFReader_text.fix_empty (split ", " (rstrip s)))
  | None => None
  end.

(** [text_later p p']: the state [p'] of the text decoder is reached
    from [p] by calls of [_parse_next]. *)
Definition text_later `{PyRuntime} : relation DFReader_text.t :=
  rtc (fun p p' => p' = snd (DFReader_text.parse_next p)).

(** The claim C8 read on the text decoder: when the call at [p] decodes
    an FMT line that declares the columns [cols] for the new type [nm],
    every line of type [nm] decoded later gives a record whose field
    names are exactly the names in [cols]. *)
Definition text_columns_roundtrip `{PyRuntime} (p : DFReader_text.t) : Prop :=
  forall d p1 nm cols,
    DFReader_text.parse_next p = (Ok (Some d), p1) ->
    rstrip_nul (name (fmt d)) = "FMT" ->
    text_fields p1 !! 2%nat = Some nm ->
    text_fields p1 !! 4%nat = Some cols ->
    DFReader_text.formats p !! nm = None ->
    is_Some (DFReader_text.formats p1 !! nm) ->
    forall p2 p3 m,
      text_later p1 p2 ->
      DFReader_text.parse_next p2 = (Ok (Some m), p3) ->
      text_type p3 = Some nm ->
      _fieldnames m = split "," cols.


(** The order the queue is sorted in: no element is below a later one. *)
Definition not_below (a b : DFMessage) : Prop :=
  py_lt (sort_key a) (sort_key b) = false.


(** [parses p ms p']: successive calls of [_parse_next] from the decoder
    state [p] return the records [ms] and leave the state [p']. *)
Fixpoint parses {P} `{Decoder P} (p : P) (ms : list DFMessage) (p' : P) : Prop :=
  match ms with
  | [] => p = p'
  | m :: rest => exists p1, _parse_next p = (Ok (Some m), p1) /\ parses p1 rest p'
  end.

(** [counts] after the records [xs] have been read. *)
Definition count_one (x : DFMessage) (counts : gmap string Z) : gmap string Z :=
  <[get_type x := (default 0%Z (counts !! get_type x) + 1)%Z]> counts.

Definition count_all (xs : list DFMessage) (counts : gmap string Z) : gmap string Z :=
  foldl (fun c x => count_one x c) counts xs.

(** The period the closing anchor at [T1] gives a type with [k] records in
    the batch when the last anchor was at [T0] and the batch holds [c]
    GPS records: [(T1 - T0) * c / k]. *)
Definition period (T0 T1 : Q) (c : Z) (k : nat) : Q :=
  ((T1 - T0) * inject_Z c / inject_Z (Z.of_nat k))%Q.

(** The timestamp of record [j] (from 0) of [k] records of one type:
    [gps_time - period * countdown + period * 0.5] with the countdown at
    [k - j]. *)
Definition slot_time (T0 T1 : Q) (c : Z) (k j : nat) : Q :=
  (T1 - period T0 T1 c k * inject_Z (Z.of_nat k - Z.of_nat j)
   + period T0 T1 c k * (1 # 2))%Q.

(** The spacing and the first timestamp the claim C1 states. *)
Definition claimed_spacing (T0 T1 : Q) (k : nat) : Q :=
  ((T1 - T0) / inject_Z (Z.of_nat k))%Q.

Definition claimed_first (T0 T1 : Q) (k : nat) : Q :=
  (T0 + (T1 - T0) / (2 * inject_Z (Z.of_nat k)))%Q.

(** The timestamp of a record as a rational, 0 when it is no number. *)
Definition timestamp_Q (m : DFMessage) : Q :=
  match _timestamp m with
  | Some v => default 0%Q (as_Q v)
  | None => 0%Q
  end.

(** *** Records and states of the sample logs *)

Definition no_record : DFMessage := mkDFMessage FMT_layout ∅ [] None.

(** The record the next call of the text [_parse_next] returns. *)
Definition text_record_at (p : DFReader_text.t) : DFMessage :=
  match fst (@DFReader_text.parse_next SampleRuntime.runtime p) with
  | Ok (Some m) => m
  | _ => no_record
  end.

Definition binary_record_at (p : DFReader_binary.t) : DFMessage :=
  match fst (@DFReader_binary.parse_next SampleRuntime.runtime p) with
  | Ok (Some m) => m
  | _ => no_record
  end.

(** The reader after a call of [_fill_msg_queue]. *)
Definition text_filled (fuel : nat) (r : DFReader DFReader_text.t) : DFReader DFReader_text.t :=
  match @_fill_msg_queue _ (@DFReader_text.decoder SampleRuntime.runtime) fuel r with
  | Some (_, r') => r'
  | None => r
  end.

(** A GPS fix with week number and milliseconds of the week. *)
Definition log_gps_week : list string :=
  [ "FMT, 128, 89, FMT, BBnNZ, Type,Length,Name,Format,Columns";
    "FMT, 130, 10, GPS, IH, TimeMS,Week";
    "GPS, 1000, 1800";
    "GPS, 2000, 1800" ].

(** The records the next [n] calls of the text [_parse_next] return. *)
Fixpoint text_records (n : nat) (p : DFReader_text.t) : list DFMessage :=
  match n with
  | O => []
  | S k =>
      match @DFReader_text.parse_next SampleRuntime.runtime p with
      | (Ok (Some m), p') => m :: text_records k p'
      | (_, p') => text_records k p'
      end
  end.

(** ** More of the reader *)

(** [DFReader.param]: [self.params[name]] is read only after the test
    [name in self.params] has succeeded. *)
Definition param {P} (r : DFReader P) (nm : value) (dflt : value) : value :=
  if negb (vdict_mem (params r) nm) then dflt
  else match vdict_get (params r) nm with
       | Some v => v
       | None => dflt
       end.

(** The argument [type] of [recv_match]: [None], a string or a list of
    strings. *)
Inductive type_filter : Type :=
| AnyType
| OneType (s : string)
| TypeList (l : list string).

(** [mavutil.evaluate_condition(condition, self.messages)] *)
Class ConditionEvaluator : Type := {
  evaluate_condition : value -> gmap string msg_ref -> outcome bool
}.

(** The list [type] stands for after [if type is not None and not
    isinstance(type, list): type = [type]]. *)
Definition type_list (ty : type_filter) : option (list string) :=
  match ty with
  | AnyType => None
  | OneType s => Some [s]
  | TypeList l => Some l
  end.

Section Matching.
Context {P : Type} `{Decoder P} `{Mavutil} `{ConditionEvaluator}.

(** [DFReader.recv_match]; [fuel] bounds the rounds of its loop and
  [fill_fuel] those of the queue fill inside each [recv_msg]. *)
Fixpoint recv_match (fuel fill_fuel : nat) (condition : value) (ty : type_filter)
  (r : DFReader P) : option (outcome (option DFMessage) * DFReader P) :=
match fuel with
| O => None
| S k =>
    match recv_msg fill_fuel r with
    | None => None
    | Some (Raise e, r') => Some (Raise e, r')
    | Some (Ok None, r') => Some (Ok None, r')
    | Some (Ok (Some m), r') =>
        let skip :=
          match type_list ty with
          | Some l => negb (contains (get_type m) l)
          | None => false
          end in
        if skip then recv_match k fill_fuel condition ty r'
        else
          match evaluate_condition condition (messages r') with
          | Raise e => Some (Raise e, r')
          | Ok false => recv_match k fill_fuel condition ty r'
          | Ok true => Some (Ok (Some m), r')
          end
    end
end.

(** [DFReader.check_condition] *)
Definition check_condition (condition : value) (r : DFReader P) : outcome bool :=
evaluate_condition condition (messages r).
End Matching.

(** [DFReader_is_text_log] on the content of the file: [f.read(8000)]
    and [find('FMT, ') != -1]. *)
Definition DFReader_is_text_log (content : string) : bool :=
  match String.index 0 "FMT, " (String.substring 0 (8 * 1000) content) with
  | Some _ => true
  | None => false
  end.

(** [str(v)] as the format [%s] applies it. *)
Definition py_str `{PyRuntime} (v : value) : string :=
  match v with
  | VNone => "None"
  | VInt z => str_of_int z
  | VFloat q => str_of_float q
  | VStr s => s
  end.

(** [s[:-2]] *)
Definition drop_last2 (s : string) : string :=
  str_slice s 0 (-2).

(** [DFMessage.__str__] *)
Definition DFMessage_str `{PyRuntime} (m : DFMessage) : outcome string :=
  ret ← foldM (fun (ret : string) (c : string) =>
                 match _d m !! c with
                 | Some v => Ok (ret ++ c ++ " : " ++ py_str v ++ ", ")%string
                 | None => Raise KeyError
                 end)
              (_fieldnames m) (get_type m ++ " {")%string;
  Ok (drop_last2 ret ++ "}")%string.

(** *** Vocabulary of the further statements *)

(** The characters of a string. *)
Definition chars (s : string) : list ascii := list_ascii_of_string s.

(** A record without its timestamp. *)
Definition erase_timestamp (m : DFMessage) : DFMessage :=
  mkDFMessage (fmt m) (_d m) (_fieldnames m) None.

(** A condition evaluator for the examples: every condition holds. *)
Definition always_true : ConditionEvaluator :=
  {| evaluate_condition := fun _ _ => Ok true |}.

(** *** Further sample logs *)

(** A binary log whose second record has a type no FMT record declared. *)
Definition binary_log_unknown : string :=
  (fmt_record 128 89 "FMT" "BBnNZ" "Type,Length,Name,Format,Columns"
   ++ bytes [163; 149; 7; 1; 2; 3])%string.

(** The sample binary log cut inside its last record. *)
Definition binary_log_truncated : string :=
  (fmt_record 128 89 "FMT" "BBnNZ" "Type,Length,Name,Format,Columns"
   ++ fmt_record 129 7 "ATT" "cc" "Roll,Pitch"
   ++ bytes [163; 149; 129; 100; 0])%string.

(** A binary log with two stray bytes where a header should be. *)
Definition binary_log_garbage : string :=
  (fmt_record 128 89 "FMT" "BBnNZ" "Type,Length,Name,Format,Columns"
   ++ bytes [0; 0; 163; 149; 128])%string.

(** A text log with a parameter and a mode record. *)
Definition log_session : list string :=
  [ "FMT, 128, 89, FMT, BBnNZ, Type,Length,Name,Format,Columns";
    "FMT, 129, 23, PARM, Nf, Name,Value";
    "FMT, 130, 10, GPS, I, T";
    "FMT, 131, 10, MODE, N, Mode";
    "GPS, 10000";
    "PARM, X, 3.5";
    "MODE, auto";
    "GPS, 20000";
    "GPS, 30000" ].

(** A text log that starts with two lines that are no records. *)
Definition log_preamble : list string :=
  [ "";
    "ArduCopter V3.1";
    "FMT, 128, 89, FMT, BBnNZ, Type,Length,Name,Format,Columns";
    "FMT, 130, 10, GPS, I, T";
    "GPS, 10000" ].

(** A text log whose first GPS record has the time zero. *)
Definition log_zero_fix : list string :=
  [ "FMT, 128, 89, FMT, BBnNZ, Type,Length,Name,Format,Columns";
    "FMT, 130, 10, GPS, I, T";
    "GPS, 0";
    "GPS, 10000";
    "GPS, 20000" ].

(** The record the next call of [recv_msg] returns on a text log, and
    the one [recv_match] returns for a type. *)
Definition text_recv_record (r : DFReader DFReader_text.t) : DFMessage :=
  match @recv_msg _ (@DFReader_text.decoder SampleRuntime.runtime)
          SampleRuntime.mavutil (S (length (DFReader_text.lines (decoder r)))) r with
  | Some (Ok (Some m), _) => m
  | _ => no_record
  end.

Definition text_match (ty : type_filter) (r : DFReader DFReader_text.t)
    : DFMessage * DFReader DFReader_text.t :=
  match @recv_match _ (@DFReader_text.decoder SampleRuntime.runtime)
          SampleRuntime.mavutil always_true
          (S (length (DFReader_text.lines (decoder r))))
          (S (length (DFReader_text.lines (decoder r)))) VNone ty r with
  | Some (Ok (Some m), r') => (m, r')
  | _ => (no_record, r)
  end.

(** A text log whose GPS records carry a week number and no time of
    the week. *)
Definition log_week_only : list string :=
  [ "FMT, 128, 89, FMT, BBnNZ, Type,Length,Name,Format,Columns";
    "FMT, 130, 10, GPS, H, Week";
    "GPS, 1800";
    "GPS, 1800" ].

(** ** Outcomes *)

Lemma bind_Ok {A B} (a : A) (f : A -> outcome B) : (Ok a ≫= f) = f a.
Proof. reflexivity. Qed.

Lemma bind_Raise {A B} (e : exn) (f : A -> outcome B) : (Raise e ≫= f) = Raise e.
Proof. reflexivity. Qed.

Lemma bind_Ok_inv {A B} (x : outcome A) (f : A -> outcome B) (b : B) :
  (x ≫= f) = Ok b -> exists a, x = Ok a /\ f a = Ok b.
Proof. destruct x as [a|e]; [eauto | discriminate]. Qed.

(** ** GPS time *)

Lemma py_mul_num v q k :
  as_Q v = Some q -> exists r, py_mul v (VFloat k) = Ok (VFloat r) /\ (r == q * k)%Q.
Proof.
  destruct v; simpl; intros [= <-]; eexists; split; reflexivity.
Qed.

Lemma GPS_epoch_value : GPS_epoch = 315964800%Z.
Proof. reflexivity. Qed.

Lemma week_arith (w : value) (qw t : Q) :
  as_Q w = Some qw ->
  exists r, (a ← py_mul (VInt (86400 * 7)) w;
             b ← py_add (VInt GPS_epoch) a;
             c ← py_add b (VFloat t);
             py_sub c (VInt 15)) = Ok (VFloat r) /\
    (r == 315964800 + 604800 * qw + t - 15)%Q.
Proof.
  destruct w; intros [= <-]; cbn -[Z.mul Z.add GPS_epoch]; eexists; (split; [reflexivity|]).
  - rewrite GPS_epoch_value, !inject_Z_plus, !inject_Z_mult.
    change (inject_Z (86400 * 7)) with 604800%Q. change (inject_Z 15) with 15%Q.
    change (inject_Z 315964800) with 315964800%Q. ring.
  - rewrite GPS_epoch_value.
    change (inject_Z (86400 * 7)) with 604800%Q. change (inject_Z 15) with 15%Q.
    change (inject_Z 315964800) with 315964800%Q. ring.
Qed.

Lemma gps_time_T (gps : DFMessage) q :
  contains "T" (_fieldnames gps) = true -> numeric_field gps "T" q ->
  exists r, _get_gps_time gps = Ok (VFloat r) /\ (r == q * (1 # 1000))%Q.
Proof.
  intros HT (v & Hv & Hq). unfold _get_gps_time. rewrite HT, Hv, bind_Ok.
  apply py_mul_num; done.
Qed.

Lemma gps_time_week (gps : DFMessage) qw qms :
  contains "T" (_fieldnames gps) = false ->
  contains "Week" (_fieldnames gps) = true ->
  contains "Time" (_fieldnames gps) || contains "TimeMS" (_fieldnames gps) = true ->
  (contains "Time" (_fieldnames gps) = true -> exists q, numeric_field gps "Time" q) ->
  numeric_field gps (time_ms_field gps) qms ->
  numeric_field gps "Week" qw ->
  exists r, _get_gps_time gps = Ok (VFloat r) /\
    (r == 315964800 + 604800 * qw + (1 # 1000) * qms - 15)%Q.
Proof.
  intros HT HW Hany HTime (vms & Hms & Hqms) (vw & Hw & Hqw).
  unfold _get_gps_time, time_ms_field in *. rewrite HT, HW.
  assert (Hfin : forall t, (t == qms * (1 # 1000))%Q ->
     exists r0, (w ← getattr gps "Week"; a ← py_mul (VInt (86400 * 7)) w;
             b ← py_add (VInt GPS_epoch) a;
             c ← py_add b (VFloat t);
             py_sub c (VInt 15)) = Ok (VFloat r0) /\
       (r0 == 315964800 + 604800 * qw + (1 # 1000) * qms - 15)%Q).
  { intros t Ht. rewrite Hw, bind_Ok.
    destruct (week_arith vw qw t Hqw) as (r0 & -> & Hr0). eexists; split; [reflexivity|].
    rewrite Hr0, Ht. ring. }
  destruct (contains "Time" (_fieldnames gps)) eqn:E1.
  - destruct (HTime eq_refl) as (q1 & v1 & Hv1 & Hq1). rewrite Hv1, bind_Ok.
    destruct (py_mul_num v1 q1 (1 # 1000) Hq1) as (r1 & -> & Hr1). rewrite bind_Ok.
    destruct (contains "TimeMS" (_fieldnames gps)) eqn:E2.
    + rewrite Hms, bind_Ok. destruct (py_mul_num vms qms (1 # 1000) Hqms) as (r2 & -> & Hr2).
      rewrite bind_Ok. apply Hfin, Hr2.
    + rewrite bind_Ok. apply Hfin. rewrite Hr1. rewrite Hms in Hv1. injection Hv1 as ->.
      rewrite Hqms in Hq1. injection Hq1 as ->. reflexivity.
  - simpl in Hany. rewrite Hany in *. rewrite !bind_Ok, Hms, bind_Ok.
    destruct (py_mul_num vms qms (1 # 1000) Hqms) as (r2 & -> & Hr2).
    rewrite bind_Ok. apply Hfin, Hr2.
Qed.

(** C7: the epoch constant is 315964800; a GPS record without [T] but
    with [Week] and a millisecond field ([TimeMS], else [Time]) has time
    [GPS_epoch + 604800 * Week + 0.001 * time_ms - 15]; a record with [T]
    has time [T * 0.001], whatever its other fields are. *)
Theorem gps_time_derivation (gps : DFMessage) :
  GPS_epoch = (86400 * (10 * 365 + (1980 - 1969) / 4 + 1 + 6 - 2))%Z /\
  GPS_epoch = 315964800%Z /\
  (forall qw qms,
     contains "T" (_fieldnames gps) = false ->
     contains "Week" (_fieldnames gps) = true ->
     contains "Time" (_fieldnames gps) || contains "TimeMS" (_fieldnames gps) = true ->
     (contains "Time" (_fieldnames gps) = true -> exists q, numeric_field gps "Time" q) ->
     numeric_field gps (time_ms_field gps) qms ->
     numeric_field gps "Week" qw ->
     exists r, _get_gps_time gps = Ok (VFloat r) /\
       (r == inject_Z GPS_epoch + 604800 * qw + (1 # 1000) * qms - 15)%Q) /\
  (forall q,
     contains "T" (_fieldnames gps) = true ->
     numeric_field gps "T" q ->
     exists r, _get_gps_time gps = Ok (VFloat r) /\ (r == q * (1 # 1000))%Q).
Proof.
  split; [reflexivity|]. split; [reflexivity|]. split.
  - intros. rewrite GPS_epoch_value. change (inject_Z 315964800) with 315964800%Q.
    by apply gps_time_week.
  - intros. by apply gps_time_T.
Qed.

(** ** Text decoder *)

Section TextDecoder.
Context `{PyRuntime}.
Import DFReader_text.

Lemma Qeq_bool_inject_pos (n : nat) :
  (0 < n)%nat -> Qeq_bool (inject_Z (Z.of_nat n)) 0 = false.
Proof.
  intros Hn. destruct (Qeq_bool _ _) eqn:E; [|done].
  apply Qeq_bool_eq in E. unfold Qeq in E. simpl in E. lia.
Qed.

Lemma text_percent_ok (ln n : nat) :
  (0 < n)%nat ->
  (x ← py_div (VInt (Z.of_nat ln)) (VFloat (inject_Z (Z.of_nat n)));
   py_mul (VFloat 100) x) = Ok (text_percent ln n).
Proof.
  intros Hn. unfold py_div. rewrite Qeq_bool_inject_pos by done. reflexivity.
Qed.

Lemma scan_Some ls ln e found ln' :
  scan ls ln (Some e) = (found, ln') -> is_Some found.
Proof.
  revert ln e. induction ls as [|s rest IH]; intros ln e; cbn [scan].
  - intros [= <- _]. eauto.
  - cbn zeta. destruct (Nat.leb _ _); [intros [= <- _]; eauto | apply IH].
Qed.

Lemma scan_nonempty s rest ln found ln' :
  scan (s :: rest) ln None = (found, ln') -> is_Some found.
Proof.
  cbn [scan]. cbn zeta. destruct (Nat.leb _ _); [intros [= <- _]; eauto | apply scan_Some].
Qed.

Lemma scan_bounds ls ln e found ln' :
  scan ls ln e = (found, ln') -> (ln <= ln' <= ln + length ls)%nat.
Proof.
  revert ln e. induction ls as [|s rest IH]; intros ln e; cbn [scan length].
  - intros [= _ <-]. lia.
  - cbn zeta. destruct (Nat.leb _ _); [intros [= _ <-]; lia | intros Hs; apply IH in Hs; lia].
Qed.

(** A call moves the cursor to where the scanning loop leaves it and
    does not touch the lines. *)
Lemma parse_next_cursor (p : t) :
  line (snd (parse_next p)) = snd (scan (drop (line p) (lines p)) (line p) None) /\
  lines (snd (parse_next p)) = lines p.
Proof.
  unfold parse_next, register. destruct (scan _ _ _) as [found ln].
  repeat (case_match; simplify_eq; simpl; try done).
Qed.

(** C10: a call of [_parse_next] that reads the last line of the file
    returns [None], whatever that line holds: the cursor is compared
    with the number of lines after it has moved past the line. *)
Theorem text_last_line_never_returned (p : t) :
  (line p < length (lines p))%nat ->
  line (snd (parse_next p)) = length (lines p) ->
  fst (parse_next p) = Ok None.
Proof.
  intros Hlt Hend. destruct (parse_next_cursor p) as [Hcur _].
  rewrite Hend in Hcur. unfold parse_next.
  destruct (drop (line p) (lines p)) as [|s rest] eqn:Hdrop.
  { apply (f_equal length) in Hdrop. rewrite length_drop in Hdrop. simpl in Hdrop. lia. }
  destruct (scan (s :: rest) (line p) None) as [found ln] eqn:Hs.
  destruct (scan_nonempty _ _ _ _ _ Hs) as [els ->].
  simpl in Hcur. subst ln. cbn beta iota zeta.
  change (lines (set_line _ p)) with (lines p).
  change (line (set_line (length (lines p)) p)) with (length (lines p)).
  rewrite text_percent_ok by lia.
  change (lines (set_percent _ _)) with (lines p).
  change (line (set_percent _ (set_line (length (lines p)) p))) with (length (lines p)).
  rewrite Nat.leb_refl. reflexivity.
Qed.

(** C6, as the code has it: at a line of at least two tokens whose
    first token is not a registered type, [_parse_next] returns [None],
    the value that also signals the end of the stream; the cursor has
    moved past that line only and the registry is unchanged. *)
Theorem text_unregistered_type_returns_None (p : t) (s : string) :
  lines p !! line p = Some s ->
  (2 <= length (split ", " (rstrip s)))%nat ->
  (forall ty, head (fix_empty (split ", " (rstrip s))) = Some ty -> formats p !! ty = None) ->
  parse_next p =
    (Ok None,
     set_percent (text_percent (S (line p)) (length (lines p))) (set_line (S (line p)) p)).
Proof.
  intros Hs Hlen Hty. unfold parse_next.
  assert (Hlt : (line p < length (lines p))%nat) by (apply lookup_lt_Some in Hs; done).
  rewrite (drop_S _ _ _ Hs). cbn [scan]. cbn zeta.
  apply Nat.leb_le in Hlen. rewrite Hlen. cbn beta iota zeta.
  change (lines (set_line _ p)) with (lines p).
  change (line (set_line (S (line p)) p)) with (S (line p)).
  rewrite text_percent_ok by lia.
  change (lines (set_percent _ _)) with (lines p).
  change (line (set_percent _ (set_line (S (line p)) p))) with (S (line p)).
  destruct (length (lines p) <=? S (line p))%nat; [done|].
  unfold index. destruct (fix_empty _) as [|ty els] eqn:Hels.
  { exfalso. unfold fix_empty in Hels. apply Nat.leb_le in Hlen.
    destruct (_ && _); [by destruct (removelast _) |].
    rewrite Hels in Hlen. simpl in Hlen. lia. }
  simpl. change (formats (set_percent _ (set_line _ p))) with (formats p).
  rewrite (Hty ty eq_refl). done.
Qed.

(** The text decoder never removes a registry entry. *)
Lemma text_registry_never_removes (p : t) (k : string) :
  is_Some (formats p !! k) -> is_Some (formats (snd (parse_next p)) !! k).
Proof.
  intros Hk. unfold parse_next, register. destruct (scan _ _ _) as [found ln].
  repeat (case_match; simplify_eq; simpl; try done).
  all: rewrite lookup_insert; case_match; eauto.
Qed.
End TextDecoder.

Lemma text_last_line_never_returned_witness :
  fst (@DFReader_text.parse_next SampleRuntime.runtime
         (text_after 7 (text_decoder_of log_unknown_type))) = Ok None.
Proof.
  apply (@text_last_line_never_returned SampleRuntime.runtime).
  - vm_compute. lia.
  - vm_compute. reflexivity.
Defined.

Lemma text_unregistered_type_returns_None_witness :
  @DFReader_text.parse_next SampleRuntime.runtime
    (text_after 4 (text_decoder_of log_unknown_type)) =
  (Ok None,
   DFReader_text.set_percent (text_percent 5 8)
     (DFReader_text.set_line 5 (text_after 4 (text_decoder_of log_unknown_type)))).
Proof.
  apply (@text_unregistered_type_returns_None SampleRuntime.runtime
           (text_after 4 (text_decoder_of log_unknown_type))
           ("XYZ, 1, 2" ++ newline)%string).
  - vm_compute. reflexivity.
  - vm_compute. lia.
  - vm_compute. intros ty [= <-]. reflexivity.
Defined.

(** C6, as the claim states it, fails: at the line [XYZ, 1, 2] the call
    returns [None] although the next line decodes to an ATT record. *)
Lemma text_unregistered_type_not_skipped :
  ~ @text_skips_unregistered SampleRuntime.runtime
      (text_after 4 (text_decoder_of log_unknown_type)).
Proof.
  intros Hc.
  assert (E : exists m p', @DFReader_text.parse_next SampleRuntime.runtime
              (DFReader_text.set_line
                 (S (DFReader_text.line (text_after 4 (text_decoder_of log_unknown_type))))
                 (text_after 4 (text_decoder_of log_unknown_type))) = (Ok (Some m), p')).
  { do 2 eexists. vm_compute. reflexivity. }
  destruct E as (m & p' & E).
  assert (Hn : fst (@DFReader_text.parse_next SampleRuntime.runtime
                      (text_after 4 (text_decoder_of log_unknown_type))) = Ok None).
  { vm_compute. reflexivity. }
  rewrite (Hc ("XYZ, 1, 2" ++ newline)%string "XYZ" m p') in Hn.
  - discriminate Hn.
  - vm_compute. reflexivity.
  - vm_compute. reflexivity.
  - vm_compute. reflexivity.
  - exact E.
Qed.

(** C5 on the text decoder: the second declaration of ATT replaces the
    layout the first one registered. *)
Lemma text_redeclaration_replaces_entry :
  columns <$> (DFReader_text.formats (text_after 2 (text_decoder_of log_redeclared)) !! "ATT")
    = Some ["Roll"; "Pitch"] /\
  columns <$> (DFReader_text.formats
                 (snd (@DFReader_text.parse_next SampleRuntime.runtime
                         (text_after 2 (text_decoder_of log_redeclared)))) !! "ATT")
    = Some ["Roll"] /\
  is_ok (fst (@DFReader_text.parse_next SampleRuntime.runtime
                (text_after 2 (text_decoder_of log_redeclared)))) = true.
Proof. vm_compute. repeat split; reflexivity. Qed.

(** ** The batching loop *)

Ltac reader_simpl :=
  cbn [queue last_gps_time decoder msg_periods params messages flightmode timestamp
       set_queue set_last_gps_time set_decoder set_msg_periods set_messages
       set_params set_flightmode].

Section Batching.
Context {P : Type} `{Decoder P}.

(** C2: when [_parse_next] reports the end of the log and records are
    left in the queue after the trailing ones have been popped, the
    round raises [TypeError]: [gps_time] is [None] in
    [gps_time - self.last_gps_time].  The records popped include the
    last GPS record itself. *)
Theorem fill_round_end_of_log_raises (counts : gmap string Z) (r : DFReader P) (p' : P) :
  _parse_next (decoder r) = (Ok None, p') ->
  pop_through_GPS (queue r) <> [] ->
  fill_round counts r =
    (Raise TypeError, counts, set_queue (pop_through_GPS (queue r)) (set_decoder p' r)).
Proof.
  intros Hp Hq. unfold fill_round. rewrite Hp. cbn beta iota zeta.
  reader_simpl.
  destruct (pop_through_GPS (queue r)) as [|m q] eqn:E; [done|].
  reflexivity.
Qed.

(** Without a record left, the round returns 0. *)
Lemma fill_round_end_of_log_empty (counts : gmap string Z) (r : DFReader P) (p' : P) :
  _parse_next (decoder r) = (Ok None, p') ->
  pop_through_GPS (queue r) = [] ->
  fill_round counts r = (Ok (Return (VInt 0)), counts, set_queue [] (set_decoder p' r)).
Proof.
  intros Hp Hq. unfold fill_round. rewrite Hp. cbn beta iota zeta.
  reader_simpl. rewrite Hq. reflexivity.
Qed.

(** A record of any type but GPS only joins the batch. *)
Lemma fill_round_other_type (counts : gmap string Z) (r : DFReader P) (m : DFMessage) (p' : P) :
  _parse_next (decoder r) = (Ok (Some m), p') ->
  get_type m <> "GPS" ->
  fill_round counts r =
    (Ok Continue,
     <[get_type m := (default 0%Z (counts !! get_type m) + 1)%Z]> counts,
     set_queue (queue r ++ [m]) (set_decoder p' r)).
Proof.
  intros Hp Hty. unfold fill_round. rewrite Hp. cbn beta iota zeta.
  reader_simpl.
  rewrite length_app, Nat.add_comm. cbn [length Nat.add Nat.eqb].
  apply String.eqb_neq in Hty. rewrite Hty. reflexivity.
Qed.

(** A GPS record with a derivable, non-zero time is an anchor. *)
Lemma fill_round_GPS_anchor (counts : gmap string Z) (r : DFReader P) (m : DFMessage)
    (p' : P) (t : value) :
  _parse_next (decoder r) = (Ok (Some m), p') ->
  get_type m = "GPS" ->
  _get_gps_time m = Ok t ->
  truthy t = true ->
  acts_as_anchor counts r.
Proof.
  intros Hp Hty Ht Htr. unfold acts_as_anchor, fill_round. rewrite Hp. cbn beta iota zeta.
  reader_simpl.
  rewrite length_app, Nat.add_comm. cbn [length Nat.add Nat.eqb].
  rewrite Hty. cbn [String.eqb Ascii.eqb Bool.eqb]. cbn beta iota. rewrite Ht, Htr.
  reader_simpl.
  destruct (is_none (last_gps_time r)) eqn:E.
  - simpl. done.
  - assert (Hn : negb (is_none t) = true) by (by destruct t).
    rewrite Hn. cbn [orb]. destruct (flush _ _ _ _) as [o r'] eqn:Hf.
    cbn [fst]. unfold flush in Hf. repeat case_match; simplify_eq; done.
Qed.

(** In the pass over the queue, a record of type GPS or GPS2 with a
    derivable, non-zero time keeps that time as its timestamp. *)
Lemma assign_timestamp_own_gps_time (gt gtd : value) (counts : gmap string Z)
    (a : fill_acc) (i : DFMessage) (t : value) :
  get_type i = "GPS" \/ get_type i = "GPS2" ->
  _get_gps_time i = Ok t ->
  truthy t = true ->
  assign_timestamp gt gtd counts a i = (Ok tt, set_timestamp i t, a).
Proof.
  intros Hty Ht Htr. unfold assign_timestamp.
  assert (Hb : String.eqb (get_type i) "GPS" || String.eqb (get_type i) "GPS2" = true).
  { destruct Hty as [-> | ->]; reflexivity. }
  rewrite Hb, Ht, Htr. reflexivity.
Qed.

(** C3, as the code has it: a GPS2 record is not an anchor.  The round
    that reads it appends it to the batch and goes on reading, with
    [last_gps_time] unchanged; when a GPS anchor later closes the batch,
    the GPS2 record is stamped with its own derived time. *)
Theorem GPS2_joins_batch (counts : gmap string Z) (r : DFReader P) (m : DFMessage)
    (p' : P) (t : value) :
  _parse_next (decoder r) = (Ok (Some m), p') ->
  get_type m = "GPS2" ->
  _get_gps_time m = Ok t ->
  truthy t = true ->
  fill_round counts r =
    (Ok Continue,
     <[get_type m := (default 0%Z (counts !! get_type m) + 1)%Z]> counts,
     set_queue (queue r ++ [m]) (set_decoder p' r)) /\
  last_gps_time (snd (fill_round counts r)) = last_gps_time r /\
  (forall gt gtd cs a, assign_timestamp gt gtd cs a m = (Ok tt, set_timestamp m t, a)).
Proof.
  intros Hp Hty Ht Htr.
  assert (Hne : get_type m <> "GPS") by (rewrite Hty; discriminate).
  rewrite (fill_round_other_type counts r m p' Hp Hne).
  split; [done|]. split; [done|].
  intros. apply assign_timestamp_own_gps_time; auto.
Qed.
End Batching.

Lemma fill_round_end_of_log_raises_witness :
  fst (fst (fill_round (fst (rounds 5 ∅ (text_reader_of log_one_anchor)))
                       (snd (rounds 5 ∅ (text_reader_of log_one_anchor)))))
  = Raise TypeError.
Proof.
  erewrite (fill_round_end_of_log_raises
              (fst (rounds 5 ∅ (text_reader_of log_one_anchor)))
              (snd (rounds 5 ∅ (text_reader_of log_one_anchor)))).
  - reflexivity.
  - vm_compute. reflexivity.
  - vm_compute. discriminate.
Defined.

(** The log [log_one_anchor] ends after a GPS fix and an ATT record: the
    first call of [recv_msg] raises, and what is left in the queue are
    the three FMT records, without timestamps. *)
Lemma recv_msg_one_anchor_raises :
  exists r,
    @recv_msg _ (@DFReader_text.decoder SampleRuntime.runtime) SampleRuntime.mavutil
      10 (text_reader_of log_one_anchor) = Some (Raise TypeError, r) /\
    get_type <$> queue r = ["FMT"; "FMT"; "FMT"] /\
    _timestamp <$> queue r = [None; None; None].
Proof. eexists. split; [vm_compute; reflexivity|]. split; reflexivity. Qed.

(** C3, as the claim states it, fails: after the four FMT lines of
    [log_gps2] the next record is a GPS2 fix at 10 s, no anchor has been
    seen, and the round that reads the fix does not seed
    [last_gps_time]. *)
Lemma GPS2_is_not_an_anchor :
  (exists m p' t,
     _parse_next (decoder (snd (rounds 4 ∅ (text_reader_of log_gps2)))) = (Ok (Some m), p') /\
     get_type m = "GPS2" /\ _get_gps_time m = Ok t /\ truthy t = true) /\
  last_gps_time (snd (rounds 4 ∅ (text_reader_of log_gps2))) = VNone /\
  ~ acts_as_anchor (fst (rounds 4 ∅ (text_reader_of log_gps2)))
                   (snd (rounds 4 ∅ (text_reader_of log_gps2))).
Proof.
  split; [|split].
  - do 3 eexists. split; [vm_compute; reflexivity|]. split; [reflexivity|].
    split; [vm_compute; reflexivity | reflexivity].
  - vm_compute. reflexivity.
  - vm_compute. discriminate.
Qed.

Lemma GPS2_joins_batch_witness :
  fst (fst (fill_round (fst (rounds 4 ∅ (text_reader_of log_gps2)))
                       (snd (rounds 4 ∅ (text_reader_of log_gps2))))) = Ok Continue /\
  last_gps_time (snd (fill_round (fst (rounds 4 ∅ (text_reader_of log_gps2)))
                                 (snd (rounds 4 ∅ (text_reader_of log_gps2))))) = VNone.
Proof.
  edestruct (GPS2_joins_batch
              (fst (rounds 4 ∅ (text_reader_of log_gps2)))
              (snd (rounds 4 ∅ (text_reader_of log_gps2)))) as (H1 & H2 & _).
  - vm_compute. reflexivity.
  - reflexivity.
  - vm_compute. reflexivity.
  - reflexivity.
  - split; [rewrite H1; reflexivity | rewrite H2; vm_compute; reflexivity].
Defined.

(** ** Layout descriptors and records *)

Lemma scan_format_extends nm fm st mults types st' mults' types' :
  scan_format nm fm (st, mults, types) = Ok (st', mults', types') ->
  exists ms ts, mults' = mults ++ ms /\ types' = types ++ ts.
Proof.
  revert st mults types. induction fm as [|c rest IH]; intros st mults types; cbn [scan_format].
  - intros [= <- <- <-]. exists [], []. by rewrite !app_nil_r.
  - destruct (ord c =? 0)%Z.
    { intros [= <- <- <-]. exists [], []. by rewrite !app_nil_r. }
    destruct (FORMAT_TO_STRUCT c) as [[[s mul] ty]|]; [|discriminate].
    intros Hs. apply IH in Hs as (ms & ts & -> & ->).
    exists (mul :: ms), (ty :: ts). by rewrite <- !app_assoc.
Qed.

(** Entry [i] of the derived lists is the table's row for character [i]
    of the format. *)
Lemma scan_format_codec nm fm st mults types st' mults' types' i :
  scan_format nm fm (st, mults, types) = Ok (st', mults', types') ->
  length mults = length types ->
  (length mults + i < length mults')%nat ->
  exists c s mul ty,
    String.get i fm = Some c /\ FORMAT_TO_STRUCT c = Some (s, mul, ty) /\
    mults' !! (length mults + i)%nat = Some mul /\
    types' !! (length mults + i)%nat = Some ty.
Proof.
  revert st mults types i.
  induction fm as [|c rest IH]; intros st mults types i; cbn [scan_format].
  - intros [= <- <- <-] _ Hi. lia.
  - destruct (ord c =? 0)%Z; [intros [= <- <- <-] _ Hi; lia|].
    destruct (FORMAT_TO_STRUCT c) as [[[s mul] ty]|] eqn:Hc; [|discriminate].
    intros Hs Hlen Hi. destruct i as [|j].
    + exists c, s, mul, ty. split; [done|]. split; [done|].
      apply scan_format_extends in Hs as (ms & ts & -> & ->).
      rewrite Nat.add_0_r. rewrite <- !app_assoc.
      split; [by rewrite lookup_app_r, Nat.sub_diag|].
      rewrite Hlen. by rewrite lookup_app_r, Nat.sub_diag.
    + specialize (IH _ _ _ j Hs). rewrite !length_app in IH. cbn [length] in IH.
      replace (length mults + 1 + j)%nat with (length mults + S j)%nat in IH by lia.
      destruct IH as (c' & s' & mul' & ty' & ? & ? & ? & ?); [lia | lia |].
      exists c', s', mul', ty'. done.
Qed.

Lemma DFFormat_init_fields nm ln fm cols f :
  DFFormat_init nm ln fm cols = Ok f ->
  wf_format f /\ name f = nm /\ len f = ln /\ format f = fm /\ columns f = split "," cols.
Proof.
  unfold DFFormat_init, wf_format. intros Hf.
  apply bind_Ok_inv in Hf as ([[st mults] types] & Hs & [= <-]). done.
Qed.

Lemma wf_format_codec f i mul :
  wf_format f ->
  msg_mults f !! i = Some mul ->
  exists c s ty,
    String.get i (format f) = Some c /\ FORMAT_TO_STRUCT c = Some (s, mul, ty) /\
    msg_types f !! i = Some ty.
Proof.
  intros Hwf Hi.
  destruct (scan_format_codec _ _ _ _ _ _ _ _ i Hwf eq_refl) as (c & s & mul' & ty & ? & ? & Hm & ?).
  { apply lookup_lt_Some in Hi. simpl. lia. }
  simpl in Hm. exists c, s, ty. by simplify_eq.
Qed.

(** Only [c], [C], [e], [E] and [L] carry a scale factor; their type is
    [float]. *)
Lemma scale_of_Some c k :
  scale_of c = Some k ->
  (exists s, FORMAT_TO_STRUCT c = Some (s, Some k, TFloat)) /\
  Ascii.eqb c "M" = false /\
  c ∈ ["c"; "C"; "e"; "E"; "L"]%char.
Proof.
  unfold scale_of.
  destruct c as [[] [] [] [] [] [] [] []]; cbn; intros Hk; try discriminate;
    injection Hk as <-; (split; [eauto|]); (split; [done|]); set_solver.
Qed.

Lemma scale_of_codes c :
  c ∈ ["c"; "C"; "e"; "E"; "L"]%char -> is_Some (scale_of c).
Proof.
  rewrite !elem_of_cons, elem_of_nil. intros [->|[->|[->|[->|[->|[]]]]]]; cbn; eauto.
Qed.

Section Records.
Context `{PyRuntime}.

Lemma init_field_value f elements b d i nm :
  columns f !! i = Some nm ->
  init_field f elements b d i = (v ← field_value f elements b i; Ok (<[nm := v]> d)).
Proof.
  intros Hnm. unfold init_field, field_value.
  replace (index (columns f) i) with (Ok nm) by (unfold index; by rewrite Hnm).
  destruct (index (msg_mults f) i); [|done].
  rewrite !bind_Ok. destruct (index elements i); [|done]. rewrite !bind_Ok.
  destruct (str_index (format f) i); [|done]. rewrite !bind_Ok.
  destruct (index (msg_types f) i); [|done]. rewrite !bind_Ok.
  destruct (if negb _ || b then _ else _); [|done]. rewrite !bind_Ok.
  destruct (if pytype_eqb _ _ then _ else _); [|done]. rewrite !bind_Ok.
  reflexivity.
Qed.

Lemma foldM_app {A B} (g : B -> A -> outcome B) l1 l2 b :
  foldM g (l1 ++ l2) b = (b' ← foldM g l1 b; foldM g l2 b').
Proof.
  revert b. induction l1 as [|a l1 IH]; intros b; [done|].
  cbn [foldM app]. destruct (g b a); [apply IH | done].
Qed.

(** Rounds for other columns leave the entry of [col] alone. *)
Lemma foldM_init_field_other f elements b col l d d' :
  (forall j, j ∈ l -> columns f !! j <> Some col) ->
  (forall j, j ∈ l -> is_Some (columns f !! j)) ->
  foldM (init_field f elements b) l d = Ok d' ->
  d' !! col = d !! col.
Proof.
  revert d. induction l as [|j l IH]; intros d Hne Hin; cbn [foldM].
  - by intros [= <-].
  - intros Hf. apply bind_Ok_inv in Hf as (d1 & H1 & Hf).
    destruct (Hin j) as [nm Hnm]; [set_solver|].
    rewrite (init_field_value _ _ _ _ _ _ Hnm) in H1.
    apply bind_Ok_inv in H1 as (v & _ & [= <-]).
    rewrite (IH _ ltac:(set_solver) ltac:(set_solver) Hf).
    apply lookup_insert_ne. intros ->. by apply (Hne j); [set_solver|].
Qed.

(** The entry of a column is what its last round computed. *)
Lemma DFMessage_init_field f elements b m i col :
  DFMessage_init f elements b = Ok m ->
  columns f !! i = Some col ->
  (forall j, (i < j)%nat -> columns f !! j <> Some col) ->
  exists v, field_value f elements b i = Ok v /\ _d m !! col = Some v.
Proof.
  intros Hm Hcol Hlast. unfold DFMessage_init in Hm.
  apply bind_Ok_inv in Hm as (d & Hd & [= <-]). cbn [_d].
  pose proof (lookup_lt_Some _ _ _ Hcol) as Hi.
  replace (seq 0 (length (columns f)))
    with (seq 0 i ++ i :: seq (S i) (length (columns f) - S i)) in Hd.
  2:{ change (i :: seq (S i) ?n) with (seq i (S n)).
      rewrite <- seq_app. f_equal. lia. }
  rewrite foldM_app in Hd. apply bind_Ok_inv in Hd as (d0 & _ & Hd).
  cbn [foldM] in Hd. apply bind_Ok_inv in Hd as (d1 & H1 & Hd).
  rewrite (init_field_value _ _ _ _ _ _ Hcol) in H1.
  apply bind_Ok_inv in H1 as (v & Hv & [= <-]).
  exists v. split; [done|].
  erewrite (foldM_init_field_other _ _ _ col); [| | |exact Hd].
  - apply lookup_insert_eq.
  - intros j Hj. apply elem_of_seq in Hj. apply Hlast. lia.
  - intros j Hj. apply elem_of_seq in Hj. apply lookup_lt_is_Some. lia.
Qed.

Lemma DFMessage_init_fieldnames f elements b m :
  DFMessage_init f elements b = Ok m ->
  fmt m = f /\ _fieldnames m = columns f /\ _timestamp m = None.
Proof.
  unfold DFMessage_init. intros Hm.
  apply bind_Ok_inv in Hm as (d & _ & [= <-]). done.
Qed.

(** The value of a field whose code carries a scale factor: the number
    read, times the factor when [apply_multiplier] is set and as it is
    otherwise. *)
Lemma field_value_scaled f elements b i c k v :
  wf_format f ->
  String.get i (format f) = Some c ->
  scale_of c = Some k ->
  field_value f elements b i = Ok v ->
  exists e x, elements !! i = Some e /\ convert TFloat e = Ok (VFloat x) /\
              v = VFloat (if b then (x * k)%Q else x).
Proof.
  intros Hwf Hc Hk Hv. unfold field_value in Hv.
  apply bind_Ok_inv in Hv as (mul & Hmul & Hv).
  unfold index in Hmul. destruct (msg_mults f !! i) as [mul'|] eqn:Hm; [|done].
  injection Hmul as ->.
  destruct (wf_format_codec f i mul Hwf Hm) as (c' & s & ty & Hc' & Htab & Hty).
  rewrite Hc in Hc'. injection Hc' as <-.
  destruct (scale_of_Some c k Hk) as ((s' & Htab') & HM & _).
  rewrite Htab in Htab'. injection Htab' as _ -> ->.
  unfold index in Hv. destruct (elements !! i) as [e|] eqn:He; [|done].
  rewrite Hty in Hv. unfold str_index in Hv. rewrite Hc in Hv.
  rewrite !bind_Ok in Hv. rewrite HM in Hv. cbn [negb orb] in Hv.
  apply bind_Ok_inv in Hv as (v1 & Hv1 & Hv).
  assert (exists x, v1 = VFloat x) as [x ->].
  { destruct e; simpl in Hv1; try discriminate; try (injection Hv1 as <-; eauto).
    destruct (float_of_str s0); [injection Hv1 as <-; eauto | discriminate]. }
  exists e, x. split; [done|]. split; [done|]. cbn [pytype_eqb] in Hv. rewrite bind_Ok in Hv.
  destruct b; simpl in Hv; by injection Hv as <-.
Qed.
End Records.

(** ** Dictionaries keyed by values *)

Lemma vdict_set_get_old {V} (d : vdict V) key x k v :
  vdict_mem d key = false ->
  vdict_get d k = Some v ->
  vdict_get (vdict_set d key x) k = Some v.
Proof.
  unfold vdict_mem. induction d as [|[k0 v0] d IH]; cbn [vdict_get vdict_set]; [done|].
  destruct (py_eq k0 key) eqn:E; [done|]. intros Hmem.
  cbn [vdict_get]. destruct (py_eq k0 k); [done | by apply IH].
Qed.

Lemma vdict_set_get_new {V} (d : vdict V) key x k v :
  vdict_get d k = None ->
  vdict_get (vdict_set d key x) k = Some v ->
  v = x.
Proof.
  induction d as [|[k0 v0] d IH]; cbn [vdict_get vdict_set].
  - intros _. destruct (py_eq key k); [by intros [= <-] | done].
  - destruct (py_eq k0 k) eqn:E; [done|]. intros Hk.
    destruct (py_eq k0 key); cbn [vdict_get]; rewrite E; [by rewrite Hk | by apply IH].
Qed.

(** ** What the decoders return *)

Section TextRecords.
Context `{PyRuntime}.
Import DFReader_text.

Lemma scan_last ls ln e0 e ln' :
  scan ls ln e0 = (Some e, ln') ->
  (ln' = ln /\ e0 = Some e) \/
  ((ln < ln')%nat /\ exists s, ls !! (ln' - 1 - ln)%nat = Some s /\ e = split ", " (rstrip s)).
Proof.
  revert ln e0. induction ls as [|s rest IH]; intros ln e0; cbn [scan].
  - intros [= -> <-]. by left.
  - cbn zeta. destruct (Nat.leb _ _).
    + intros [= <- <-]. right. split; [lia|]. exists s.
      replace (S ln - 1 - ln)%nat with 0%nat by lia. done.
    + intros Hs. pose proof (scan_bounds _ _ _ _ _ Hs) as Hb.
      apply IH in Hs as [[-> [= <-]] | (Hlt & s' & Hs' & ->)]; right.
      * split; [lia|]. exists s. replace (S ln - 1 - ln)%nat with 0%nat by lia. done.
      * split; [lia|]. exists s'. split; [|done].
        replace (ln' - 1 - ln)%nat with (S (ln' - 1 - S ln))%nat by lia. done.
Qed.

(** A record the text decoder returns is [DFMessage(fmt, elements,
    False)] for the registered layout of the line's first token and
    the tokens after it, with the field [line] appended. *)
Lemma text_parse_next_record (p p' : t) (m : DFMessage) :
  parse_next p = (Ok (Some m), p') ->
  exists ty f m0,
    formats p !! ty = Some f /\
    DFMessage_init f (VStr <$> text_fields p') false = Ok m0 /\
    m = add_value m0 "line" (VInt (Z.of_nat (line p'))).
Proof.
  intros Hp. destruct (parse_next_cursor p) as [Hcur Hlines].
  rewrite Hp in Hcur, Hlines. cbn [snd] in Hcur, Hlines.
  unfold parse_next in Hp. destruct (scan _ _ _) as [found ln] eqn:Hs.
  cbn [snd] in Hcur. subst ln.
  destruct found as [els|]; [|done].
  assert (Hf : text_fields p' = tail (fix_empty els)).
  { unfold text_fields. rewrite Hlines.
    apply scan_last in Hs as [[_ [=]] | (Hlt & s & Hs' & ->)].
    rewrite lookup_drop in Hs'.
    replace (line p + (line p' - 1 - line p))%nat with (line p' - 1)%nat in Hs' by lia.
    by rewrite Hs'. }
  cbn beta iota zeta in Hp.
  destruct (_ ≫= _) as [pc|]; [|done].
  destruct (Nat.leb _ _); [done|].
  destruct (index _ 0) as [ty|]; [|done].
  change (formats (set_percent _ (set_line _ p))) with (formats p) in Hp.
  destruct (formats p !! ty) as [f|] eqn:Hty; [|done].
  destruct (Nat.ltb _ _); [done|].
  destruct (register _ _ _) as [[u|] p1] eqn:Hr; [|done].
  destruct (DFMessage_init _ _ _) as [m0|] eqn:Hm; [|done].
  injection Hp as <- <-. exists ty, f, m0. rewrite Hf. done.
Qed.
End TextRecords.

Section BinaryRecords.
Context `{PyRuntime}.
Import DFReader_binary.

Lemma advance_formats n p o p1 :
  advance n p = (o, p1) -> formats p1 = formats p /\ data p1 = data p.
Proof.
  unfold advance. repeat case_match; intros; simplify_eq; done.
Qed.

(** What [register] does to the registry: nothing, or one new entry
    under a key that was absent, built from the raw fields. *)
Lemma register_formats f elements p o p1 :
  register f elements p = (o, p1) ->
  formats p1 = formats p \/
  exists key raw f',
    vdict_mem (formats p) key = false /\
    elements !! 4%nat = Some (VStr raw) /\
    wf_format f' /\ columns f' = split "," (null_term raw) /\
    formats p1 = vdict_set (formats p) key f'.
Proof.
  unfold register. destruct (String.eqb _ _); [|intros [= _ <-]; by left].
  destruct (index elements 0) as [key|]; [|intros [= _ <-]; by left].
  destruct (vdict_mem (formats p) key) eqn:Hmem; [intros [= _ <-]; by left|].
  cbn [negb]. destruct (_ ≫= _) as [f'|] eqn:Hf; [|intros [= _ <-]; by left].
  intros [= _ <-]. right.
  apply bind_Ok_inv in Hf as (e2 & _ & Hf). apply bind_Ok_inv in Hf as (nm & _ & Hf).
  apply bind_Ok_inv in Hf as (ln & _ & Hf). apply bind_Ok_inv in Hf as (e3 & _ & Hf).
  apply bind_Ok_inv in Hf as (fm & _ & Hf). apply bind_Ok_inv in Hf as (e4 & He4 & Hf).
  apply bind_Ok_inv in Hf as (cols & Hcols & Hf).
  destruct e4 as [| | |raw]; try discriminate. injection Hcols as <-.
  apply DFFormat_init_fields in Hf as (Hwf & _ & _ & _ & Hc).
  exists key, raw, f'. unfold index in He4.
  destruct (elements !! 4%nat); [|done]. by injection He4 as ->.
Qed.

(** A record the binary decoder returns is [DFMessage(fmt, elements,
    True)] for the layout registered for the type in the header and the
    unpacked fields of the body. *)
Lemma binary_parse_next_record (p p' : t) (m : DFMessage) :
  parse_next p = (Ok (Some m), p') ->
  exists ty f elements,
    record_type p = Some ty /\
    vdict_get (formats p) (VInt ty) = Some f /\
    record_fields p = Some elements /\
    DFMessage_init f elements true = Ok m.
Proof.
  unfold parse_next, record_fields, record_type.
  destruct (read_header p) as [[ty|]|]; [|done..].
  destruct (advance (VInt 3) p) as [[u|] p1] eqn:Ha; [|done].
  apply advance_formats in Ha as [Hfs _]. cbn [snd].
  unfold parse_body. rewrite Hfs.
  destruct (vdict_get (formats p) (VInt ty)) as [f|] eqn:Hf; [|done].
  destruct (read_elements f p1) as [[[body_len elements]|]|] eqn:He; [|done..].
  destruct (register _ _ _) as [[u1|] p2]; [|done].
  destruct (advance body_len p2) as [[u2|] p3]; [|done].
  destruct (DFMessage_init _ _ _) as [m0|] eqn:Hm; [|done].
  destruct (_ ≫= _); [|done].
  intros [= <- <-]. exists ty, f, elements.
  split; [done|]. split; [done|]. split; [|done].
  cbn [mbind option_bind]. rewrite Hf. cbn [mbind option_bind]. by rewrite He.
Qed.

(** How a call changes the registry. *)
Lemma binary_parse_next_formats (p : t) :
  formats (snd (parse_next p)) = formats p \/
  exists key raw f' elements,
    record_fields p = Some elements /\
    elements !! 4%nat = Some (VStr raw) /\
    vdict_mem (formats p) key = false /\
    wf_format f' /\ columns f' = split "," (null_term raw) /\
    formats (snd (parse_next p)) = vdict_set (formats p) key f'.
Proof.
  unfold parse_next, record_fields, record_type.
  destruct (read_header p) as [[ty|]|]; [|by left..].
  destruct (advance (VInt 3) p) as [[u|] p1] eqn:Ha;
    apply advance_formats in Ha as [Hfs _]; [|by left].
  cbn [snd]. unfold parse_body. rewrite Hfs.
  destruct (vdict_get (formats p) (VInt ty)) as [f|] eqn:Hf; [|by left].
  destruct (read_elements f p1) as [[[body_len elements]|]|] eqn:He; [|by left..].
  assert (Hrf : (Some ty ≫= (fun t0 : Z =>
            vdict_get (formats p) (VInt t0) ≫= (fun f0 : DFFormat =>
              match read_elements f0 p1 with
              | Ok (Some (_, elements0)) => Some elements0
              | _ => None
              end))) = Some elements).
  { cbn [mbind option_bind]. rewrite Hf. cbn [mbind option_bind]. by rewrite He. }
  destruct (register f elements p1) as [o p2] eqn:Hr.
  apply register_formats in Hr. rewrite Hfs in Hr.
  rewrite Hrf.
  assert (Hgoal : forall p3, formats p3 = formats p2 ->
    formats p3 = formats p \/
    exists key raw f' elements0,
      Some elements = Some elements0 /\
      elements0 !! 4%nat = Some (VStr raw) /\
      vdict_mem (formats p) key = false /\
      wf_format f' /\ columns f' = split "," (null_term raw) /\
      formats p3 = vdict_set (formats p) key f').
  { intros p3 H3. destruct Hr as [Hr|(key & raw & f' & ? & ? & ? & ? & Hr)].
    - left. congruence.
    - right. exists key, raw, f', elements. rewrite H3, Hr. done. }
  destruct o as [u1|]; [|by apply Hgoal].
  destruct (advance body_len p2) as [[u2|] p3] eqn:Ha2;
    apply advance_formats in Ha2 as [Hfs2 _]; [|by apply Hgoal].
  destruct (DFMessage_init _ _ _); [|by apply Hgoal].
  destruct (py_div _ _ ≫= _); apply Hgoal; cbn [snd set_percent formats]; done.
Qed.

(** C5 on the binary decoder: a call of [_parse_next] keeps every
    entry of the registry as it is. *)
Lemma binary_registry_entries_kept (p : t) (k : value) (f : DFFormat) :
  vdict_get (formats p) k = Some f ->
  vdict_get (formats (snd (parse_next p))) k = Some f.
Proof.
  intros Hk.
  destruct (binary_parse_next_formats p) as [-> | (key & raw & f' & els & _ & _ & Hmem & _ & _ & ->)];
    [done|].
  by apply vdict_set_get_old.
Qed.

Lemma binary_registry_entries_kept_later (p p' : t) (k : value) (f : DFFormat) :
  later p p' ->
  vdict_get (formats p) k = Some f ->
  vdict_get (formats p') k = Some f.
Proof.
  induction 1 as [|p p1 p2 -> _ IH]; [done|].
  intros Hk. by apply IH, binary_registry_entries_kept.
Qed.

Lemma binary_registry_wf_kept (p : t) :
  binary_registry_wf p -> binary_registry_wf (snd (parse_next p)).
Proof.
  intros Hwf k f.
  destruct (binary_parse_next_formats p) as [-> | (key & raw & f' & els & _ & _ & Hmem & Hf' & _ & ->)];
    [apply Hwf|].
  intros Hk. destruct (vdict_get (formats p) k) as [f0|] eqn:Hold.
  - rewrite (vdict_set_get_old _ key f' k f0 Hmem Hold) in Hk.
    injection Hk as <-. by apply (Hwf k).
  - by rewrite (vdict_set_get_new _ _ _ _ _ Hold Hk).
Qed.

Lemma binary_init_registry_wf (content : string) (p : t) :
  init content = Ok p -> binary_registry_wf p.
Proof.
  unfold init. intros Hp. apply bind_Ok_inv in Hp as (f & Hf & [= <-]).
  apply DFFormat_init_fields in Hf as (Hwf & _).
  intros k f0. cbn [formats rewind vdict_get].
  destruct (py_eq _ _); [by intros [= <-] | done].
Qed.
End BinaryRecords.

Section TextRegistry.
Context `{PyRuntime}.
Import DFReader_text.

Lemma text_init_registry_wf (ls : list string) (p : t) :
  init ls = Ok p -> text_registry_wf p.
Proof.
  unfold init. intros Hp. apply bind_Ok_inv in Hp as (f & Hf & [= <-]).
  apply DFFormat_init_fields in Hf as (Hwf & _).
  intros k f0. cbn [formats rewind]. intros Hk.
  apply lookup_singleton_Some in Hk as [_ <-]. done.
Qed.

Lemma text_register_formats f els (p p1 : t) o :
  register f els p = (o, p1) ->
  formats p1 = formats p \/
  exists k f', wf_format f' /\ formats p1 = <[k := f']> (formats p).
Proof.
  unfold register. destruct (String.eqb _ _); [|intros [= _ <-]; by left].
  destruct (_ ≫= _) as [[e2 f']|] eqn:Hf; [|intros [= _ <-]; by left].
  intros [= _ <-]. right. exists e2, f'. split; [|done].
  apply bind_Ok_inv in Hf as (e2' & _ & Hf). apply bind_Ok_inv in Hf as (e1 & _ & Hf).
  apply bind_Ok_inv in Hf as (ln & _ & Hf). apply bind_Ok_inv in Hf as (e3 & _ & Hf).
  apply bind_Ok_inv in Hf as (e4 & _ & Hf). apply bind_Ok_inv in Hf as (f0 & Hf0 & Hf).
  injection Hf as _ <-. by apply DFFormat_init_fields in Hf0 as (Hwf & _).
Qed.

Lemma text_parse_next_formats (p : t) :
  formats (snd (parse_next p)) = formats p \/
  exists k f', wf_format f' /\ formats (snd (parse_next p)) = <[k := f']> (formats p).
Proof.
  unfold parse_next. destruct (scan _ _ _) as [found ln].
  destruct found as [els|]; [|by left]. cbn beta iota zeta.
  destruct (py_div _ _ ≫= _) as [pc|]; [|by left].
  destruct (Nat.leb _ _); [by left|].
  destruct (index _ 0) as [ty|]; [|by left].
  destruct (formats _ !! ty) as [f|]; [|by left].
  destruct (Nat.ltb _ _); [by left|].
  destruct (register _ _ _) as [o p1] eqn:Hr.
  apply text_register_formats in Hr. cbn [formats set_percent set_line] in Hr.
  destruct o as [u|]; [|done].
  destruct (DFMessage_init _ _ _); done.
Qed.

Lemma text_registry_wf_kept (p : t) :
  text_registry_wf p -> text_registry_wf (snd (parse_next p)).
Proof.
  intros Hwf k f.
  destruct (text_parse_next_formats p) as [-> | (k' & f' & Hf' & ->)]; [apply Hwf|].
  rewrite lookup_insert. case_match; [by intros [= <-] | apply Hwf].
Qed.
End TextRegistry.

(** ** Scaling of fixed-point fields *)

(** C4: a field whose format code carries a scale factor ([c], [C],
    [e], [E], [L]) holds, in a record of the text decoder, the number the
    token of the line denotes, not multiplied; in a record of the binary
    decoder, the number unpacked from the body times the factor of the
    code. *)
Theorem fixed_point_scaling `{PyRuntime} :
  (forall (p p' : DFReader_text.t) (m : DFMessage) (i : nat) (c : ascii) (k : Q) (col : string),
     DFReader_text.parse_next p = (Ok (Some m), p') ->
     text_registry_wf p ->
     String.get i (format (fmt m)) = Some c ->
     scale_of c = Some k ->
     columns (fmt m) !! i = Some col ->
     (forall j, (i < j)%nat -> columns (fmt m) !! j <> Some col) ->
     col <> "line" ->
     exists s x,
       text_fields p' !! i = Some s /\ float_of_str s = Some x /\
       _d m !! col = Some (VFloat x)) /\
  (forall (p p' : DFReader_binary.t) (m : DFMessage) (i : nat) (c : ascii) (k : Q) (col : string),
     DFReader_binary.parse_next p = (Ok (Some m), p') ->
     binary_registry_wf p ->
     String.get i (format (fmt m)) = Some c ->
     scale_of c = Some k ->
     columns (fmt m) !! i = Some col ->
     (forall j, (i < j)%nat -> columns (fmt m) !! j <> Some col) ->
     exists elements e x,
       record_fields p = Some elements /\ elements !! i = Some e /\
       convert TFloat e = Ok (VFloat x) /\
       _d m !! col = Some (VFloat (x * k))).
Proof.
  split.
  - intros p p' m i c k col Hp Hwf Hc Hk Hcol Hlast Hline.
    apply text_parse_next_record in Hp as (ty & f & m0 & Hf & Hm0 & ->).
    destruct (DFMessage_init_fieldnames _ _ _ _ Hm0) as (Hfmt & _ & _).
    cbn [fmt add_value] in Hc, Hcol, Hlast. rewrite Hfmt in Hc, Hcol, Hlast.
    destruct (DFMessage_init_field _ _ _ _ _ _ Hm0 Hcol Hlast) as (v & Hv & Hd).
    destruct (field_value_scaled _ _ _ _ _ _ _ (Hwf _ _ Hf) Hc Hk Hv) as (e & x & He & Hx & ->).
    rewrite list_lookup_fmap in He.
    destruct (text_fields p' !! i) as [s|] eqn:Hs; [|done].
    injection He as <-. exists s, x. split; [done|].
    cbn [convert] in Hx. destruct (float_of_str s) as [x'|]; [|done].
    injection Hx as ->. split; [done|].
    cbn [_d add_value]. rewrite lookup_insert_ne by done. exact Hd.
  - intros p p' m i c k col Hp Hwf Hc Hk Hcol Hlast.
    apply binary_parse_next_record in Hp as (ty & f & elements & _ & Hf & Hrf & Hm).
    destruct (DFMessage_init_fieldnames _ _ _ _ Hm) as (Hfmt & _ & _).
    rewrite Hfmt in Hc, Hcol, Hlast.
    destruct (DFMessage_init_field _ _ _ _ _ _ Hm Hcol Hlast) as (v & Hv & Hd).
    destruct (field_value_scaled _ _ _ _ _ _ _ (Hwf _ _ Hf) Hc Hk Hv) as (e & x & He & Hx & ->).
    exists elements, e, x. done.
Qed.

(** ** Declared column names *)

Section Columns.
Context `{PyRuntime}.
Import DFReader_binary.

(** A layout that a call adds to the registry has the column names of
    the fifth unpacked field of the record at the cursor, and every
    record of the new type decoded later has them as field names. *)
Lemma binary_registered_columns (p : t) (ty : Z) (f' : DFFormat) :
  vdict_get (formats p) (VInt ty) = None ->
  vdict_get (formats (snd (parse_next p))) (VInt ty) = Some f' ->
  exists elements raw,
    record_fields p = Some elements /\ elements !! 4%nat = Some (VStr raw) /\
    columns f' = split "," (null_term raw) /\
    forall p2 p3 m,
      later (snd (parse_next p)) p2 ->
      parse_next p2 = (Ok (Some m), p3) ->
      record_type p2 = Some ty ->
      _fieldnames m = split "," (null_term raw).
Proof.
  intros Hold Hnew.
  destruct (binary_parse_next_formats p)
    as [Hsame | (key & raw & f'' & els & Hrf & Hraw & Hmem & _ & Hcols & Hset)].
  { rewrite Hsame, Hold in Hnew. discriminate Hnew. }
  assert (f' = f'') as ->.
  { rewrite Hset in Hnew. by apply (vdict_set_get_new _ _ _ _ _ Hold Hnew). }
  exists els, raw. split; [done|]. split; [done|]. split; [done|].
  intros p2 p3 m Hlater Hp2 Hty.
  pose proof (binary_registry_entries_kept_later _ _ _ _ Hlater Hnew) as Hk.
  apply binary_parse_next_record in Hp2 as (ty2 & f & els2 & Hty2 & Hf & _ & Hm).
  rewrite Hty in Hty2. injection Hty2 as <-. rewrite Hk in Hf. injection Hf as <-.
  destruct (DFMessage_init_fieldnames _ _ _ _ Hm) as (_ & -> & _). done.
Qed.

(** The field [Columns] of a decoded FMT record is the fifth unpacked
    field, cut at the first NUL. *)
Lemma FMT_record_columns (elements : list value) (d : DFMessage) (raw cols : string) :
  elements !! 4%nat = Some (VStr raw) ->
  DFMessage_init FMT_layout elements true = Ok d ->
  getattr d "Columns" = Ok (VStr cols) ->
  cols = null_term raw.
Proof.
  intros Hraw Hd Hc.
  destruct (DFMessage_init_field FMT_layout elements true d 4 "Columns" Hd eq_refl)
    as (v & Hv & Hlook).
  { intros j Hj. destruct j as [|[|[|[|[|j]]]]]; try lia; done. }
  unfold getattr in Hc. rewrite Hlook in Hc. injection Hc as ->.
  unfold field_value in Hv.
  apply bind_Ok_inv in Hv as (mul & Hmul & Hv). injection Hmul as <-.
  apply bind_Ok_inv in Hv as (e & He & Hv).
  unfold index in He. rewrite Hraw in He. injection He as <-.
  apply bind_Ok_inv in Hv as (c & Hc & Hv). injection Hc as <-.
  apply bind_Ok_inv in Hv as (ty & Hty & Hv). injection Hty as <-.
  apply bind_Ok_inv in Hv as (v1 & Hv1 & Hv).
  apply bind_Ok_inv in Hv as (v2 & Hv2 & Hv).
  cbn in Hv1. injection Hv1 as <-. cbn in Hv2. injection Hv2 as <-.
  by injection Hv as ->.
Qed.

(** In the binary decoder: when the decoding of a schema-declaration
    record [d] adds the type [ty] to the registry, every record of type
    [ty] decoded later has as field names the comma-separated names in
    the field [Columns] of [d], in that order. *)
Lemma binary_columns_roundtrip (p p1 : t) (d : DFMessage) (ty : Z) (cols : string) :
  parse_next p = (Ok (Some d), p1) ->
  fmt d = FMT_layout ->
  getattr d "Columns" = Ok (VStr cols) ->
  vdict_get (formats p) (VInt ty) = None ->
  is_Some (vdict_get (formats p1) (VInt ty)) ->
  forall p2 p3 m,
    later p1 p2 ->
    parse_next p2 = (Ok (Some m), p3) ->
    record_type p2 = Some ty ->
    _fieldnames m = split "," cols.
Proof.
  intros Hp Hfmt Hcols Hold [f' Hnew] p2 p3 m Hlater Hp2 Hty.
  assert (Hp1 : p1 = snd (parse_next p)) by (by rewrite Hp).
  subst p1.
  destruct (binary_registered_columns p ty f' Hold Hnew)
    as (els & raw & Hrf & Hraw & _ & Hnames).
  rewrite (Hnames p2 p3 m Hlater Hp2 Hty). f_equal.
  apply binary_parse_next_record in Hp as (ty0 & f & els0 & _ & _ & Hrf0 & Hd).
  rewrite Hrf in Hrf0. injection Hrf0 as <-.
  destruct (DFMessage_init_fieldnames _ _ _ _ Hd) as (Hf & _ & _).
  rewrite Hfmt in Hf. subst f.
  by rewrite (FMT_record_columns els d raw cols Hraw Hd Hcols).
Qed.
End Columns.

(** A record of the text decoder has the declared column names followed
    by the computed field [line]. *)
Lemma text_record_fieldnames `{PyRuntime} (p p' : DFReader_text.t) (m : DFMessage) :
  DFReader_text.parse_next p = (Ok (Some m), p') ->
  _fieldnames m = columns (fmt m) ++ ["line"].
Proof.
  intros Hp. apply text_parse_next_record in Hp as (ty & f & m0 & _ & Hm0 & ->).
  destruct (DFMessage_init_fieldnames _ _ _ _ Hm0) as (Hf & Hn & _).
  cbn [_fieldnames add_value fmt]. by rewrite Hn, Hf.
Qed.

Section TextColumns.
Context `{PyRuntime}.
Import DFReader_text.

(** What the statement under [if name == 'FMT'] does to the registry
    when it completes: the entry under the third token is the layout
    with the columns of the fifth. *)
Lemma text_register_entry f els (p p1 : t) :
  register f els p = (Ok tt, p1) ->
  (rstrip_nul (name f) = "FMT" ->
   exists nm cols f',
     els !! 2%nat = Some nm /\ els !! 4%nat = Some cols /\
     columns f' = split "," cols /\ formats p1 = <[nm := f']> (formats p)) /\
  (rstrip_nul (name f) <> "FMT" -> formats p1 = formats p).
Proof.
  unfold register. destruct (String.eqb _ _) eqn:E.
  - destruct (_ ≫= _) as [[e2 f']|] eqn:Hf; [|intros Hr; discriminate Hr].
    intros [= <-]. split; [intros _ | intros Hne; by apply String.eqb_eq in E].
    apply bind_Ok_inv in Hf as (e2' & He2 & Hf). apply bind_Ok_inv in Hf as (e1 & _ & Hf).
    apply bind_Ok_inv in Hf as (ln & _ & Hf). apply bind_Ok_inv in Hf as (e3 & _ & Hf).
    apply bind_Ok_inv in Hf as (e4 & He4 & Hf). apply bind_Ok_inv in Hf as (f0 & Hf0 & Hf).
    injection Hf as -> ->. apply DFFormat_init_fields in Hf0 as (_ & _ & _ & _ & Hcols).
    exists e2, e4, f'. unfold index in He2, He4.
    destruct (els !! 2%nat) as [x2|]; [|discriminate He2]. injection He2 as ->.
    destruct (els !! 4%nat) as [x4|]; [|discriminate He4]. injection He4 as ->.
    done.
  - intros [= <-]. split; [|done]. intros Hn. apply String.eqb_neq in E. done.
Qed.

(** A record the text decoder returns is decoded with the layout
    registered under the first token of its line; when that layout is
    the schema declaration's, the call has registered the layout its
    line declares. *)
Lemma text_parse_next_typed (p p' : t) (m : DFMessage) :
  parse_next p = (Ok (Some m), p') ->
  exists ty,
    text_type p' = Some ty /\ formats p !! ty = Some (fmt m) /\
    (rstrip_nul (name (fmt m)) = "FMT" ->
     exists nm cols f',
       text_fields p' !! 2%nat = Some nm /\ text_fields p' !! 4%nat = Some cols /\
       columns f' = split "," cols /\ formats p' = <[nm := f']> (formats p)) /\
    (rstrip_nul (name (fmt m)) <> "FMT" -> formats p' = formats p).
Proof.
  intros Hp. destruct (parse_next_cursor p) as [Hcur Hlines].
  rewrite Hp in Hcur, Hlines. cbn [snd] in Hcur, Hlines.
  unfold parse_next in Hp. destruct (scan _ _ _) as [found ln] eqn:Hs.
  cbn [snd] in Hcur. subst ln.
  destruct found as [els|]; [|done].
  assert (Hline : lines p' !! (line p' - 1)%nat = Some
            (default EmptyString (lines p' !! (line p' - 1)%nat)) /\
          els = split ", " (rstrip (default EmptyString (lines p' !! (line p' - 1)%nat)))).
  { rewrite Hlines.
    apply scan_last in Hs as [[_ [=]] | (Hlt & s & Hs' & ->)].
    rewrite lookup_drop in Hs'.
    replace (line p + (line p' - 1 - line p))%nat with (line p' - 1)%nat in Hs' by lia.
    by rewrite Hs'. }
  destruct Hline as [Hl Hels].
  assert (Hf : text_fields p' = tail (fix_empty els)).
  { unfold text_fields. rewrite Hl. by rewrite Hels. }
  assert (Ht : text_type p' = head (fix_empty els)).
  { unfold text_type. rewrite Hl. by rewrite Hels. }
  clear Hl Hels.
  cbn beta iota zeta in Hp.
  destruct (_ ≫= _) as [pc|]; [|done].
  destruct (Nat.leb _ _); [done|].
  destruct (index _ 0) as [ty|] eqn:Hty0; [|done].
  change (formats (set_percent _ (set_line _ p))) with (formats p) in Hp.
  destruct (formats p !! ty) as [f|] eqn:Hty; [|done].
  destruct (Nat.ltb _ _); [done|].
  destruct (register _ _ _) as [[[]|] p1] eqn:Hr; [|done].
  destruct (DFMessage_init _ _ _) as [m0|] eqn:Hm; [|done].
  injection Hp as <- <-.
  destruct (DFMessage_init_fieldnames _ _ _ _ Hm) as (Hfmt & _ & _).
  cbn [fmt add_value]. rewrite Hfmt. exists ty. split.
  { rewrite Ht. unfold index in Hty0. destruct (fix_empty els) as [|x l]; [discriminate Hty0|].
    cbn in Hty0. by injection Hty0 as ->. }
  split; [done|].
  apply text_register_entry in Hr as [Hfmt_reg Hother].
  cbn [formats set_percent set_line] in Hfmt_reg, Hother.
  rewrite Hf. split; [exact Hfmt_reg | exact Hother].
Qed.

(** In the text decoder: a record of the declared type, decoded while
    the declaration is the registered one, has the declared column
    names followed by [line]. *)
Lemma text_columns_with_line (p p1 : t) (d : DFMessage) (nm cols : string) :
  parse_next p = (Ok (Some d), p1) ->
  rstrip_nul (name (fmt d)) = "FMT" ->
  text_fields p1 !! 2%nat = Some nm ->
  text_fields p1 !! 4%nat = Some cols ->
  forall p2 p3 m,
    parse_next p2 = (Ok (Some m), p3) ->
    text_type p3 = Some nm ->
    formats p2 !! nm = formats p1 !! nm ->
    _fieldnames m = split "," cols ++ ["line"].
Proof.
  intros Hp Hfmt Hnm Hcols p2 p3 m Hp2 Hty Hkept.
  apply text_parse_next_typed in Hp as (_ & _ & _ & Hreg & _).
  destruct (Hreg Hfmt) as (nm' & cols' & f' & Hnm' & Hcols' & Hcolumns & Hset).
  rewrite Hnm in Hnm'. injection Hnm' as <-. rewrite Hcols in Hcols'. injection Hcols' as <-.
  rewrite (text_record_fieldnames p2 p3 m Hp2).
  apply text_parse_next_typed in Hp2 as (ty2 & Hty2 & Hf2 & _).
  rewrite Hty in Hty2. injection Hty2 as <-.
  rewrite Hkept, Hset, lookup_insert_eq in Hf2. injection Hf2 as <-.
  by rewrite Hcolumns.
Qed.
End TextColumns.

(** C8, as the code has it.  In the binary decoder, when the decoding of
    a schema-declaration record [d] adds the type [ty] to the registry,
    every record of type [ty] decoded later has as field names exactly
    the comma-separated names in the field [Columns] of [d], in that
    order.  In the text decoder, a line whose first token is the name
    [nm] an FMT line declared, decoded while that declaration is the
    entry under [nm], gives a record whose field names are the declared
    names, in that order, followed by the computed field [line]. *)
Theorem declared_columns_roundtrip `{PyRuntime} :
  (forall (p p1 : DFReader_binary.t) (d : DFMessage) (ty : Z) (cols : string),
     DFReader_binary.parse_next p = (Ok (Some d), p1) ->
     fmt d = FMT_layout ->
     getattr d "Columns" = Ok (VStr cols) ->
     vdict_get (DFReader_binary.formats p) (VInt ty) = None ->
     is_Some (vdict_get (DFReader_binary.formats p1) (VInt ty)) ->
     forall p2 p3 m,
       later p1 p2 ->
       DFReader_binary.parse_next p2 = (Ok (Some m), p3) ->
       record_type p2 = Some ty ->
       _fieldnames m = split "," cols) /\
  (forall (p p1 : DFReader_text.t) (d : DFMessage) (nm cols : string),
     DFReader_text.parse_next p = (Ok (Some d), p1) ->
     rstrip_nul (name (fmt d)) = "FMT" ->
     text_fields p1 !! 2%nat = Some nm ->
     text_fields p1 !! 4%nat = Some cols ->
     forall p2 p3 m,
       DFReader_text.parse_next p2 = (Ok (Some m), p3) ->
       text_type p3 = Some nm ->
       DFReader_text.formats p2 !! nm = DFReader_text.formats p1 !! nm ->
       _fieldnames m = split "," cols ++ ["line"]).
Proof.
  split.
  - intros p p1 d ty cols. apply binary_columns_roundtrip.
  - intros p p1 d nm cols. apply text_columns_with_line.
Qed.

(** ** The order of timestamps *)

Lemma Zltb_Qlt_bool (x y : Z) : (x <? y)%Z = Qlt_bool (inject_Z x) (inject_Z y).
Proof.
  unfold Qlt_bool. destruct (Z.ltb_spec x y) as [Hlt|Hge].
  - destruct (Qle_bool _ _) eqn:E; [|done].
    apply Qle_bool_iff in E. rewrite <- Zle_Qle in E. lia.
  - rewrite Zle_Qle in Hge. apply Qle_bool_iff in Hge. by rewrite Hge.
Qed.

Lemma Qlt_bool_asym (a b : Q) : Qlt_bool a b = true -> Qlt_bool b a = false.
Proof.
  unfold Qlt_bool. destruct (Qle_bool b a) eqn:E1; [done|]. intros _.
  destruct (Qle_bool a b) eqn:E2; [done|]. exfalso.
  assert (~ (b <= a)%Q) as H1 by (rewrite <- Qle_bool_iff; congruence).
  assert (~ (a <= b)%Q) as H2 by (rewrite <- Qle_bool_iff; congruence).
  apply Qnot_le_lt in H1, H2. lra.
Qed.

Lemma Qlt_bool_negtrans (a b c : Q) :
  Qlt_bool a b = false -> Qlt_bool b c = false -> Qlt_bool a c = false.
Proof.
  unfold Qlt_bool. rewrite !negb_false_iff, !Qle_bool_iff. intros. lra.
Qed.

Lemma str_ltb_asym (a b : string) : str_ltb a b = true -> str_ltb b a = false.
Proof.
  revert b. induction a as [|c a IH]; intros [|d b]; cbn [str_ltb]; try done.
  destruct (Nat.ltb_spec (nat_of_ascii c) (nat_of_ascii d)) as [H1|H1];
    destruct (Nat.ltb_spec (nat_of_ascii d) (nat_of_ascii c)) as [H2|H2];
    try done; try lia. apply IH.
Qed.

Lemma str_ltb_negtrans (a b c : string) :
  str_ltb a b = false -> str_ltb b c = false -> str_ltb a c = false.
Proof.
  revert b c. induction a as [|x a IH]; intros [|y b] [|z c]; cbn [str_ltb]; try done.
  destruct (Nat.ltb_spec (nat_of_ascii x) (nat_of_ascii y)) as [H1|H1]; [done|].
  destruct (Nat.ltb_spec (nat_of_ascii y) (nat_of_ascii z)) as [H2|H2]; [done|].
  destruct (Nat.ltb_spec (nat_of_ascii y) (nat_of_ascii x)) as [H3|H3];
    destruct (Nat.ltb_spec (nat_of_ascii z) (nat_of_ascii y)) as [H4|H4];
    destruct (Nat.ltb_spec (nat_of_ascii x) (nat_of_ascii z)) as [H5|H5];
    destruct (Nat.ltb_spec (nat_of_ascii z) (nat_of_ascii x)) as [H6|H6];
    try done; try lia.
  apply IH.
Qed.

(** The ordering of Python 2 on the values of the model is a strict weak
    order. *)
Lemma py_lt_asym (a b : value) : py_lt a b = true -> py_lt b a = false.
Proof.
  destruct a, b; cbn [py_lt]; rewrite ?Zltb_Qlt_bool; try done;
    first [apply Qlt_bool_asym | apply str_ltb_asym].
Qed.

Lemma py_lt_negtrans (a b c : value) :
  py_lt a b = false -> py_lt b c = false -> py_lt a c = false.
Proof.
  destruct a, b, c; cbn [py_lt]; rewrite ?Zltb_Qlt_bool; try done;
    first [apply Qlt_bool_negtrans | apply str_ltb_negtrans].
Qed.

#[local] Instance not_below_trans : Transitive not_below.
Proof. intros a b c Hab Hbc. unfold not_below in *. by eapply py_lt_negtrans. Qed.

(** ** Sorting the queue *)

Lemma insert_desc_elem_of (x y : DFMessage) (l : list DFMessage) :
  y ∈ insert_desc x l <-> y = x \/ y ∈ l.
Proof.
  induction l as [|z l IH]; cbn [insert_desc].
  - rewrite list_elem_of_singleton, elem_of_nil. tauto.
  - destruct (py_lt _ _); rewrite !elem_of_cons, ?IH; tauto.
Qed.

Lemma insert_desc_sorted (x : DFMessage) (l : list DFMessage) :
  StronglySorted not_below l -> StronglySorted not_below (insert_desc x l).
Proof.
  induction 1 as [|y l Hl IH Hy]; cbn [insert_desc].
  - repeat constructor.
  - destruct (py_lt (sort_key x) (sort_key y)) eqn:E.
    + constructor; [done|]. apply Forall_forall. intros z Hz.
      apply insert_desc_elem_of in Hz as [->|Hz].
      * by apply py_lt_asym.
      * by eapply Forall_forall in Hy.
    + constructor; [by constructor|]. constructor; [done|].
      eapply Forall_impl; [exact Hy|]. intros z Hz. by transitivity y.
Qed.

Lemma sort_desc_sorted (l : list DFMessage) : StronglySorted not_below (sort_desc l).
Proof.
  induction l as [|x l IH]; cbn [sort_desc foldr]; [constructor|].
  by apply insert_desc_sorted.
Qed.

Lemma insert_desc_perm (x : DFMessage) (l : list DFMessage) : insert_desc x l ≡ₚ x :: l.
Proof.
  induction l as [|y l IH]; cbn [insert_desc]; [done|].
  destruct (py_lt _ _); [|done]. rewrite IH. apply Permutation_swap.
Qed.

(** Sorting loses and invents no record. *)
Lemma sort_desc_perm (l : list DFMessage) : sort_desc l ≡ₚ l.
Proof.
  induction l as [|x l IH]; cbn [sort_desc foldr]; [done|].
  fold (sort_desc l). by rewrite insert_desc_perm, IH.
Qed.

(** A list whose keys strictly increase is reversed by the sort. *)
Lemma insert_desc_smallest (x : DFMessage) (l : list DFMessage) :
  Forall (fun y => py_lt (sort_key x) (sort_key y) = true) l ->
  insert_desc x l = l ++ [x].
Proof.
  induction 1 as [|y l Hy _ IH]; cbn [insert_desc]; [done|].
  by rewrite Hy, IH.
Qed.

Lemma sort_desc_increasing (l : list DFMessage) :
  StronglySorted (fun a b => py_lt (sort_key a) (sort_key b) = true) l ->
  sort_desc l = rev l.
Proof.
  induction 1 as [|x l _ IH Hx]; [done|].
  cbn [sort_desc foldr rev]. fold (sort_desc l). rewrite IH.
  apply insert_desc_smallest. apply Forall_forall. intros y Hy.
  apply list_elem_of_In in Hy. apply <- in_rev in Hy. apply list_elem_of_In in Hy.
  by eapply Forall_forall in Hx.
Qed.

(** ** Delivery order *)

Section Delivery.
Context {P : Type} `{Decoder P} `{Mavutil}.

(** When the block that closes a batch completes, the loop is left
    with the queue sorted and every record stamped. *)
Lemma flush_sorted gps_time m_type counts (r r' : DFReader P) (c : ctl) :
  flush gps_time m_type counts r = (Ok c, r') ->
  c = Break /\ StronglySorted not_below (queue r') /\
  Forall (fun m => has_timestamp m = true) (queue r').
Proof.
  unfold flush. destruct (_ ≫= _) as [delta|]; [|done].
  destruct (assign_timestamps _ _ _ _ _) as [[o q] a]. reader_simpl.
  destruct o; [|done].
  destruct (forallb has_timestamp q) eqn:Hall; [|done].
  intros [= <- <-]. reader_simpl. split; [done|]. split; [apply sort_desc_sorted|].
  rewrite sort_desc_perm. apply Forall_forall. intros m Hm.
  rewrite forallb_forall in Hall. apply Hall. by apply list_elem_of_In.
Qed.

Lemma fill_round_outcome counts (r r' : DFReader P) counts' (c : ctl) :
  fill_round counts r = (Ok c, counts', r') ->
  match c with
  | Continue => True
  | Break => StronglySorted not_below (queue r') /\
             Forall (fun m => has_timestamp m = true) (queue r')
  | Return v => v = VInt 0 /\ queue r' = []
  end.
Proof.
  unfold fill_round. destruct (_parse_next (decoder r)) as [[m|] p]; [|done].
  assert (Hflush : forall gt mt cs (r0 : DFReader P),
    (let '(o, r1) := flush gt mt cs r0 in (o, cs, r1)) = (Ok c, counts', r') ->
    match c with
    | Continue => True
    | Break => StronglySorted not_below (queue r') /\
               Forall (fun m => has_timestamp m = true) (queue r')
    | Return v => v = VInt 0 /\ queue r' = []
    end).
  { intros gt mt cs r0. destruct (flush gt mt cs r0) as [o r1] eqn:Hf.
    intros [= -> <- <-]. by apply flush_sorted in Hf as (-> & ? & ?). }
  destruct m as [m|]; cbn beta iota zeta; reader_simpl.
  - rewrite length_app, Nat.add_comm. cbn [length Nat.add Nat.eqb].
    destruct (String.eqb (get_type m) "GPS").
    + destruct (_get_gps_time m) as [t|]; [|done].
      destruct (truthy t).
      * destruct (is_none (last_gps_time r)); [by intros [= <- _ _]|].
        destruct (negb (is_none t) || m_is_none (Some m)).
        -- apply Hflush.
        -- by intros [= <- _ _].
      * cbn [is_none negb m_is_none orb]. by intros [= <- _ _].
    + cbn [is_none negb m_is_none orb]. by intros [= <- _ _].
  - destruct (length (pop_through_GPS (queue r)) =? 0)%nat eqn:E.
    + intros [= <- _ <-]. reader_simpl. split; [done|].
      apply Nat.eqb_eq in E. by destruct (pop_through_GPS (queue r)).
    + cbn [is_none negb m_is_none orb]. apply Hflush.
Qed.





End Delivery.

(** ** Interpolation between two anchors *)

Lemma StronglySorted_lookup {A} (R : relation A) (l : list A) :
  (forall i j a b, (i < j)%nat -> l !! i = Some a -> l !! j = Some b -> R a b) ->
  StronglySorted R l.
Proof.
  induction l as [|x l IH]; intros Hl; constructor.
  - apply IH. intros i j a b Hij Ha Hb. by apply (Hl (S i) (S j) a b); [lia|..].
  - apply Forall_forall. intros y Hy. apply list_elem_of_lookup in Hy as [j Hj].
    by apply (Hl 0%nat (S j) x y); [lia|..].
Qed.

Lemma inject_Z_minus (x y : Z) : inject_Z (x - y) = (inject_Z x - inject_Z y)%Q.
Proof. unfold Z.sub, Qminus. by rewrite inject_Z_plus, inject_Z_opp. Qed.

Lemma period_pos (T0 T1 : Q) (k : nat) :
  (T0 < T1)%Q -> (0 < k)%nat -> (0 < period T0 T1 1 k)%Q.
Proof.
  intros HT Hk. unfold period. apply Qlt_shift_div_l.
  - change 0%Q with (inject_Z 0). rewrite <- Zlt_Qlt. lia.
  - change (inject_Z 1) with 1%Q. lra.
Qed.

Lemma slot_time_step (T0 T1 : Q) (c : Z) (k j : nat) :
  (slot_time T0 T1 c k (S j) - slot_time T0 T1 c k j == period T0 T1 c k)%Q.
Proof.
  unfold slot_time. rewrite Nat2Z.inj_succ. unfold Z.succ.
  rewrite !inject_Z_minus, inject_Z_plus. change (inject_Z 1) with 1%Q. ring.
Qed.

Lemma slot_time_lt (T0 T1 : Q) (k i j : nat) :
  (T0 < T1)%Q -> (0 < k)%nat -> (i < j)%nat ->
  (slot_time T0 T1 1 k i < slot_time T0 T1 1 k j)%Q.
Proof.
  intros HT Hk Hij. pose proof (period_pos T0 T1 k HT Hk) as Hp.
  unfold slot_time. rewrite !inject_Z_minus.
  assert (Hq : (inject_Z (Z.of_nat i) < inject_Z (Z.of_nat j))%Q) by (rewrite <- Zlt_Qlt; lia).
  nra.
Qed.

Lemma slot_time_below_anchor (T0 T1 : Q) (k j : nat) :
  (T0 < T1)%Q -> (j < k)%nat -> (slot_time T0 T1 1 k j < T1)%Q.
Proof.
  intros HT Hjk. pose proof (period_pos T0 T1 k HT ltac:(lia)) as Hp.
  unfold slot_time. rewrite !inject_Z_minus.
  assert (Hq : (inject_Z (Z.of_nat j) + 1 <= inject_Z (Z.of_nat k))%Q).
  { change 1%Q with (inject_Z 1). rewrite <- inject_Z_plus, <- Zle_Qle. lia. }
  nra.
Qed.

Lemma slot_time_first (T0 T1 : Q) (k : nat) :
  (0 < k)%nat -> (slot_time T0 T1 1 k 0 == claimed_first T0 T1 k)%Q.
Proof.
  intros Hk. unfold slot_time, claimed_first, period.
  change (Z.of_nat 0) with 0%Z. rewrite Z.sub_0_r. change (inject_Z 1) with 1%Q.
  field. intros Hz. unfold Qeq in Hz. cbn [Qnum Qden inject_Z] in Hz. lia.
Qed.

Lemma period_one (T0 T1 : Q) (k : nat) :
  (period T0 T1 1 k == claimed_spacing T0 T1 k)%Q.
Proof.
  unfold period, claimed_spacing. change (inject_Z 1) with 1%Q.
  by rewrite Qmult_1_r.
Qed.

Section Interpolation.
Context {P : Type} `{Decoder P}.

Lemma set_queue_decoder_id (r : DFReader P) :
  set_queue (queue r ++ []) (set_decoder (decoder r) r) = r.
Proof. destruct r. unfold set_queue, set_decoder. cbn. by rewrite app_nil_r. Qed.

(** Rounds that read records of other types than GPS only collect. *)
Lemma fill_loop_accumulate (xs : list DFMessage) : forall fuel counts (r : DFReader P) p',
  parses (decoder r) xs p' ->
  Forall (fun x => get_type x <> "GPS") xs ->
  fill_loop (length xs + fuel) counts r =
  fill_loop fuel (count_all xs counts) (set_queue (queue r ++ xs) (set_decoder p' r)).
Proof.
  induction xs as [|x xs IH]; intros fuel counts r p' Hp Hty.
  - cbn in Hp. subst p'. by rewrite set_queue_decoder_id.
  - destruct Hp as (p1 & Hx & Hp). apply Forall_cons in Hty as [Hx_ty Hty].
    cbn [length Nat.add fill_loop].
    rewrite (fill_round_other_type counts r x p1 Hx Hx_ty).
    rewrite (IH fuel _ (set_queue (queue r ++ [x]) (set_decoder p1 r)) p' Hp Hty).
    cbn [count_all foldl]. f_equal.
    unfold set_queue, set_decoder. cbn. by rewrite <- app_assoc.
Qed.

Lemma count_all_same_type (tx : string) (xs : list DFMessage) (counts : gmap string Z) :
  Forall (fun x => get_type x = tx) xs ->
  xs <> [] ->
  count_all xs counts =
    <[tx := (default 0%Z (counts !! tx) + Z.of_nat (length xs))%Z]> counts.
Proof.
  intros Hty. revert counts. induction Hty as [|x xs Hx Hxs IH]; intros counts Hne; [done|].
  cbn [count_all foldl]. fold (count_all xs (count_one x counts)).
  unfold count_one at 1. rewrite Hx. destruct xs as [|y xs].
  - cbn. done.
  - rewrite IH by done. rewrite lookup_insert_eq, insert_insert_eq.
    cbn [default]. f_equal. cbn [length]. unfold id.
    generalize (default 0%Z (counts !! tx)). intros z. lia.
Qed.

Lemma assign_timestamps_app gt gtd counts a (l1 l2 : list DFMessage) :
  assign_timestamps gt gtd counts a (l1 ++ l2) =
  match assign_timestamps gt gtd counts a l1 with
  | (Ok _, l1', a') =>
      let '(o, l2', a'') := assign_timestamps gt gtd counts a' l2 in
      (o, l1' ++ l2', a'')
  | (Raise e, l1', a') => (Raise e, l1' ++ l2, a')
  end.
Proof.
  revert a. induction l1 as [|x l1 IH]; intros a; cbn [assign_timestamps app].
  - by destruct (assign_timestamps gt gtd counts a l2) as [[o q] a'].
  - destruct (assign_timestamp gt gtd counts a x) as [[[u|e] x'] a1]; [|done].
    rewrite IH. destruct (assign_timestamps gt gtd counts a1 l1) as [[[u1|e1] l1'] a2]; [|done].
    by destruct (assign_timestamps gt gtd counts a2 l2) as [[o q] a3].
Qed.

(** A record that is no GPS fix and has no field [T] takes the next
    slot of its type. *)
Lemma assign_timestamp_interpolated (T1 delta : Q) (counts : gmap string Z) (a : fill_acc)
    (x : DFMessage) (k cd : Z) :
  get_type x <> "GPS" -> get_type x <> "GPS2" ->
  contains "T" (_fieldnames x) = false ->
  counts !! get_type x = Some k -> k <> 0%Z ->
  acc_countdown a !! get_type x = Some cd ->
  assign_timestamp (VFloat T1) (VFloat delta) counts a x =
    (Ok tt,
     set_timestamp x (VFloat (T1 - delta / inject_Z k * inject_Z cd
                              + delta / inject_Z k * (1 # 2))),
     mkFillAcc (<[get_type x := VFloat (delta / inject_Z k)]> (acc_periods a))
               (<[get_type x := (cd - 1)%Z]> (acc_countdown a))).
Proof.
  intros H1 H2 HT Hk Hk0 Hcd. unfold assign_timestamp.
  apply String.eqb_neq in H1, H2. rewrite H1, H2, HT. cbn [orb].
  unfold counts_get. rewrite Hk. cbn [py_div].
  apply Z.eqb_neq in Hk0. rewrite Hk0. cbn [acc_countdown]. rewrite Hcd.
  reflexivity.
Qed.

Lemma assign_timestamps_run (T1 delta : Q) (counts : gmap string Z) (tx : string) (k : Z)
    (xs : list DFMessage) : forall (a : fill_acc) (cd : Z),
  Forall (fun x => get_type x = tx /\ contains "T" (_fieldnames x) = false) xs ->
  tx <> "GPS" -> tx <> "GPS2" ->
  counts !! tx = Some k -> k <> 0%Z ->
  acc_countdown a !! tx = Some cd ->
  exists a',
    assign_timestamps (VFloat T1) (VFloat delta) counts a xs =
      (Ok tt,
       imap (fun j x => set_timestamp x
               (VFloat (T1 - delta / inject_Z k * inject_Z (cd - Z.of_nat j)
                        + delta / inject_Z k * (1 # 2)))) xs,
       a').
Proof.
  induction xs as [|x xs IH]; intros a cd Hxs H1 H2 Hk Hk0 Hcd.
  - by exists a.
  - apply Forall_cons in Hxs as [[Hx HT] Hxs]. cbn [assign_timestamps].
    rewrite (assign_timestamp_interpolated T1 delta counts a x k cd)
      by (rewrite ?Hx; done).
    edestruct (IH (mkFillAcc (<[get_type x := VFloat (delta / inject_Z k)]> (acc_periods a))
                             (<[get_type x := (cd - 1)%Z]> (acc_countdown a))) (cd - 1)%Z)
      as (a' & ->); try done.
    { cbn [acc_countdown]. rewrite Hx. apply lookup_insert_eq. }
    exists a'. cbn [imap]. do 2 f_equal. apply (f_equal2 cons).
    + change (Z.of_nat 0) with 0%Z. by rewrite Z.sub_0_r.
    + apply imap_ext. intros j y _. cbn [compose].
      replace (cd - 1 - Z.of_nat j)%Z with (cd - Z.of_nat (S j))%Z by lia. done.
Qed.

Lemma parses_app (l1 l2 : list DFMessage) : forall (p p' : P),
  parses p (l1 ++ l2) p' <-> exists pm, parses p l1 pm /\ parses pm l2 p'.
Proof.
  induction l1 as [|x l1 IH]; intros p p'; cbn [parses app].
  - split; [intros Hp; by exists p | by intros (pm & -> & Hp)].
  - split.
    + intros (p1 & Hx & Hp). apply IH in Hp as (pm & H1 & H2). exists pm. split; [|done].
      by exists p1.
    + intros (pm & (p1 & Hx & H1) & H2). exists p1. split; [done|]. apply IH. by exists pm.
Qed.

Lemma Qlt_bool_true (a b : Q) : (a < b)%Q -> Qlt_bool a b = true.
Proof.
  intros Hab. unfold Qlt_bool. destruct (Qle_bool b a) eqn:E; [|done].
  apply Qle_bool_iff in E. lra.
Qed.

(** The stamped batch, in the order of the log, has strictly
    increasing timestamps. *)
Lemma stamped_increasing (T0 T1 : Q) (xs : list DFMessage) (g : DFMessage) :
  (T0 < T1)%Q ->
  StronglySorted (fun a b => py_lt (sort_key a) (sort_key b) = true)
    (imap (fun j x => set_timestamp x (VFloat (slot_time T0 T1 1 (length xs) j))) xs
     ++ [set_timestamp g (VFloat T1)]).
Proof.
  intros HT. apply StronglySorted_app. split; [|split].
  - intros a b Ha Hb. apply list_elem_of_singleton in Hb as ->.
    apply list_elem_of_lookup in Ha as [i Hi]. rewrite list_lookup_imap in Hi.
    destruct (xs !! i) as [x|] eqn:Hx; [|done]. injection Hi as <-.
    cbn. apply Qlt_bool_true, slot_time_below_anchor; [done|].
    by apply lookup_lt_Some in Hx.
  - apply StronglySorted_lookup. intros i j a b Hij Ha Hb.
    rewrite list_lookup_imap in Ha, Hb.
    destruct (xs !! i) as [x|] eqn:Hx; [|done]. injection Ha as <-.
    destruct (xs !! j) as [y|] eqn:Hy; [|done]. injection Hb as <-.
    cbn. apply Qlt_bool_true, slot_time_lt; [done| |done].
    apply lookup_lt_Some in Hx. lia.
  - repeat constructor.
Qed.

Lemma forallb_stamped (f : nat -> Q) (xs : list DFMessage) (g : DFMessage) (v : value) :
  forallb has_timestamp (imap (fun j x => set_timestamp x (VFloat (f j))) xs
                         ++ [set_timestamp g v]) = true.
Proof.
  rewrite forallb_app. apply andb_true_iff. split; [|done].
  apply forallb_forall. intros m Hm. apply list_elem_of_In, list_elem_of_lookup in Hm as [i Hi].
  rewrite list_lookup_imap in Hi. destruct (xs !! i); [|done]. by injection Hi as <-.
Qed.

(** C1, as the code has it: when the anchor at [T0] has been flushed
    with an earlier batch, so that the batch closed by the anchor at
    [T1 > T0] holds [k >= 1] records of one other type and that anchor,
    record [j] gets the timestamp [slot_time T0 T1 1 k j]; these
    timestamps are strictly increasing, [(T1 - T0) / k] apart, and the
    first is [T0 + (T1 - T0) / (2 k)].  The queue then holds the anchor
    and the records in reverse, so that they are delivered first to
    last, the anchor after them. *)
Theorem interpolation_after_first_batch (r : DFReader P) (xs : list DFMessage)
    (g : DFMessage) (p' : P) (tx : string) (T0 T1 : Q) (fuel : nat) :
  queue r = [] ->
  last_gps_time r = VFloat T0 ->
  parses (decoder r) (xs ++ [g]) p' ->
  xs <> [] ->
  Forall (fun x => get_type x = tx /\ contains "T" (_fieldnames x) = false) xs ->
  tx <> "GPS" -> tx <> "GPS2" ->
  get_type g = "GPS" ->
  _get_gps_time g = Ok (VFloat T1) ->
  (T0 < T1)%Q -> ~ (T1 == 0)%Q ->
  (length xs < fuel)%nat ->
  (exists r',
     _fill_msg_queue fuel r = Some (Ok (VInt (Z.of_nat (S (length xs)))), r') /\
     queue r' =
       set_timestamp g (VFloat T1)
       :: rev (imap (fun j x => set_timestamp x (VFloat (slot_time T0 T1 1 (length xs) j))) xs) /\
     last_gps_time r' = VFloat T1) /\
  (slot_time T0 T1 1 (length xs) 0 == claimed_first T0 T1 (length xs))%Q /\
  (forall j,
     (slot_time T0 T1 1 (length xs) (S j) - slot_time T0 T1 1 (length xs) j
      == claimed_spacing T0 T1 (length xs))%Q /\
     (slot_time T0 T1 1 (length xs) j < slot_time T0 T1 1 (length xs) (S j))%Q).
Proof.
  intros Hq Hlast Hp Hne Hxs Htx1 Htx2 Hg HT1 HT Hnz Hfuel.
  assert (Hk : (0 < length xs)%nat) by (destruct xs; [done | cbn; lia]).
  split; [|split].
  2:{ by apply slot_time_first. }
  2:{ intros j. split.
      - rewrite slot_time_step. apply period_one.
      - apply slot_time_lt; [done | done | lia]. }
  apply parses_app in Hp as (pm & Hp & (p1 & Hpg & <-)).
  unfold _fill_msg_queue. rewrite Hq. cbn [length Nat.eqb negb].
  replace fuel with (length xs + S (fuel - S (length xs)))%nat by lia.
  rewrite (fill_loop_accumulate xs _ _ r pm Hp).
  2:{ eapply Forall_impl; [exact Hxs|]. intros x [-> _]. done. }
  rewrite Hq. cbn [app].
  rewrite (count_all_same_type tx xs ∅); [|by eapply Forall_impl; [exact Hxs|]; intros x [? _] | done].
  rewrite lookup_empty. cbn [default]. rewrite Z.add_0_l.
  cbn [fill_loop]. unfold fill_round. reader_simpl. rewrite Hpg.
  cbn beta iota zeta. reader_simpl.
  rewrite length_app, Nat.add_comm. cbn [length Nat.add Nat.eqb].
  rewrite Hg. cbn [String.eqb Ascii.eqb Bool.eqb]. cbn beta iota. rewrite HT1.
  assert (Htr : truthy (VFloat T1) = true).
  { cbn. destruct (Qeq_bool T1 0) eqn:E; [|done]. by apply Qeq_bool_eq in E. }
  rewrite Htr, Hlast. cbn [is_none negb orb].
  rewrite lookup_insert_ne by done. rewrite lookup_empty. cbn [default]. rewrite Z.add_0_l.
  unfold flush. reader_simpl. rewrite Hlast. cbn [py_sub]. rewrite bind_Ok.
  unfold counts_get at 1. rewrite lookup_insert_eq. rewrite bind_Ok. cbn [py_mul].
  rewrite assign_timestamps_app.
  edestruct (assign_timestamps_run T1 ((T1 - T0) * inject_Z 1) 
               (<["GPS" := 1%Z]> (<[tx := Z.of_nat (length xs)]> ∅)) tx (Z.of_nat (length xs)) xs
               (mkFillAcc (msg_periods r) (<["GPS" := 1%Z]> (<[tx := Z.of_nat (length xs)]> ∅)))
               (Z.of_nat (length xs)) Hxs Htx1 Htx2) as (a' & ->).
  { rewrite lookup_insert_ne by done. apply lookup_insert_eq. }
  { lia. }
  { cbn [acc_countdown]. rewrite lookup_insert_ne by done. apply lookup_insert_eq. }
  cbn [assign_timestamps].
  rewrite (assign_timestamp_own_gps_time _ _ _ _ g (VFloat T1)) by (auto).
  fold (period T0 T1 1 (length xs)).
  change (fun (j : nat) (x : DFMessage) =>
            set_timestamp x
              (VFloat (T1 - period T0 T1 1 (length xs) * inject_Z (Z.of_nat (length xs) - Z.of_nat j)
                       + period T0 T1 1 (length xs) * (1 # 2))))
    with (fun (j : nat) (x : DFMessage) =>
            set_timestamp x (VFloat (slot_time T0 T1 1 (length xs) j))).
  cbn beta iota zeta. reader_simpl.
  rewrite forallb_stamped.
  rewrite (sort_desc_increasing _ (stamped_increasing T0 T1 xs g HT)).
  rewrite rev_app_distr. cbn [rev app].
  match goal with |- exists r', Some (_, ?x) = _ /\ _ => exists x end.
  reader_simpl. split; [|split; reflexivity].
  cbn [length]. rewrite length_rev, length_imap. reflexivity.
Qed.
End Interpolation.

(** ** The theorems on the sample logs *)

Lemma gps_time_derivation_witness :
  (exists r,
     _get_gps_time (text_record_at (text_after 2 (text_decoder_of log_gps_week)))
       = Ok (VFloat r) /\
     (r == inject_Z GPS_epoch + 604800 * 1800 + (1 # 1000) * 1000 - 15)%Q) /\
  (exists r,
     _get_gps_time (text_record_at (text_after 3 (text_decoder_of log_first_batch)))
       = Ok (VFloat r) /\
     (r == 10000 * (1 # 1000))%Q).
Proof.
  split.
  - destruct (gps_time_derivation (text_record_at (text_after 2 (text_decoder_of log_gps_week))))
      as (_ & _ & Hweek & _).
    apply (Hweek 1800%Q 1000%Q).
    + vm_compute. reflexivity.
    + vm_compute. reflexivity.
    + vm_compute. reflexivity.
    + vm_compute. intros E. discriminate E.
    + exists (VInt 1000). split; vm_compute; reflexivity.
    + exists (VInt 1800). split; vm_compute; reflexivity.
  - destruct (gps_time_derivation (text_record_at (text_after 3 (text_decoder_of log_first_batch))))
      as (_ & _ & _ & HT).
    apply (HT 10000%Q).
    + vm_compute. reflexivity.
    + exists (VInt 10000). split; vm_compute; reflexivity.
Defined.

Lemma text_sample_registry_wf (ls : list string) (n : nat) :
  is_ok (DFReader_text.init (text_log ls)) = true ->
  text_registry_wf (text_after n (text_decoder_of ls)).
Proof.
  intros Hok. unfold text_decoder_of.
  destruct (DFReader_text.init (text_log ls)) as [p|] eqn:Hinit; [|discriminate Hok].
  apply text_init_registry_wf in Hinit. clear Hok.
  revert p Hinit. induction n as [|n IH]; intros p Hwf; [done|].
  cbn [text_after]. apply IH. by apply (@text_registry_wf_kept SampleRuntime.runtime).
Qed.

Lemma binary_sample_registry_wf (content : string) (n : nat) :
  is_ok (DFReader_binary.init content) = true ->
  binary_registry_wf (binary_after n (binary_decoder_of content)).
Proof.
  intros Hok. unfold binary_decoder_of.
  destruct (DFReader_binary.init content) as [p|] eqn:Hinit; [|discriminate Hok].
  apply binary_init_registry_wf in Hinit. clear Hok.
  revert p Hinit. induction n as [|n IH]; intros p Hwf; [done|].
  cbn [binary_after]. apply IH. by apply (@binary_registry_wf_kept SampleRuntime.runtime).
Qed.

Lemma fixed_point_scaling_witness :
  (exists s x,
     text_fields (snd (@DFReader_text.parse_next SampleRuntime.runtime
                         (text_after 4 (text_decoder_of log_first_batch)))) !! 0%nat = Some s /\
     SampleRuntime.parse_float s = Some x /\
     _d (text_record_at (text_after 4 (text_decoder_of log_first_batch))) !! "Roll"
       = Some (VFloat x)) /\
  (exists elements e x,
     @record_fields SampleRuntime.runtime (binary_after 2 (binary_decoder_of binary_log))
       = Some elements /\
     elements !! 0%nat = Some e /\
     @convert SampleRuntime.runtime TFloat e = Ok (VFloat x) /\
     _d (binary_record_at (binary_after 2 (binary_decoder_of binary_log))) !! "Roll"
       = Some (VFloat (x * (1 # 100)))).
Proof.
  destruct (@fixed_point_scaling SampleRuntime.runtime) as [Htext Hbin]. split.
  - apply (Htext (text_after 4 (text_decoder_of log_first_batch)) _ _ 0%nat "c"%char (1 # 100)%Q).
    + vm_compute. reflexivity.
    + apply text_sample_registry_wf. vm_compute. reflexivity.
    + vm_compute. reflexivity.
    + vm_compute. reflexivity.
    + vm_compute. reflexivity.
    + intros j Hj. destruct j as [|[|[|j]]]; [lia| | |]; vm_compute; intros E; discriminate E.
    + intros E. discriminate E.
  - apply (Hbin (binary_after 2 (binary_decoder_of binary_log))
             (snd (@DFReader_binary.parse_next SampleRuntime.runtime
                     (binary_after 2 (binary_decoder_of binary_log))))
             _ 0%nat "c"%char (1 # 100)%Q).
    + vm_compute. reflexivity.
    + apply binary_sample_registry_wf. vm_compute. reflexivity.
    + vm_compute. reflexivity.
    + vm_compute. reflexivity.
    + vm_compute. reflexivity.
    + intros j Hj. destruct j as [|[|[|j]]]; [lia| | |]; vm_compute; intros E; discriminate E.
Defined.

Lemma declared_columns_roundtrip_witness :
  _fieldnames (binary_record_at (binary_after 2 (binary_decoder_of binary_log)))
    = split "," "Roll,Pitch" /\
  _fieldnames (text_record_at (text_after 4 (text_decoder_of log_first_batch)))
    = split "," "Roll,Pitch" ++ ["line"].
Proof.
  split.
  - eapply (proj1 (@declared_columns_roundtrip SampleRuntime.runtime)
              (binary_after 1 (binary_decoder_of binary_log))
              (binary_after 2 (binary_decoder_of binary_log))
              (binary_record_at (binary_after 1 (binary_decoder_of binary_log)))
              129%Z "Roll,Pitch").
    + vm_compute. reflexivity.
    + vm_compute. reflexivity.
    + vm_compute. reflexivity.
    + vm_compute. reflexivity.
    + eexists. vm_compute. reflexivity.
    + apply rtc_refl.
    + vm_compute. reflexivity.
    + vm_compute. reflexivity.
  - apply (proj2 (@declared_columns_roundtrip SampleRuntime.runtime)
             (text_after 2 (text_decoder_of log_first_batch))
             (text_after 3 (text_decoder_of log_first_batch))
             (text_record_at (text_after 2 (text_decoder_of log_first_batch)))
             "ATT" "Roll,Pitch")
      with (p2 := text_after 4 (text_decoder_of log_first_batch))
           (p3 := text_after 5 (text_decoder_of log_first_batch)).
    + vm_compute. reflexivity.
    + vm_compute. reflexivity.
    + vm_compute. reflexivity.
    + vm_compute. reflexivity.
    + vm_compute. reflexivity.
    + vm_compute. reflexivity.
    + vm_compute. reflexivity.
Defined.

(** C8, as the claim states it, fails on the text decoder: the line
    [FMT, 131, 10, ATT, cc, Roll,Pitch] declares the columns [Roll] and
    [Pitch], and the record decoded from [ATT, 1, 2] has the field names
    [Roll], [Pitch], [line]. *)
Lemma text_record_has_line_field :
  ~ @text_columns_roundtrip SampleRuntime.runtime
      (text_after 2 (text_decoder_of log_first_batch)).
Proof.
  intros Hc.
  assert (Hm : _fieldnames (text_record_at (text_after 4 (text_decoder_of log_first_batch)))
               = ["Roll"; "Pitch"; "line"]).
  { vm_compute. reflexivity. }
  rewrite (Hc (text_record_at (text_after 2 (text_decoder_of log_first_batch)))
              (text_after 3 (text_decoder_of log_first_batch))
              "ATT" "Roll,Pitch") with
      (p2 := text_after 4 (text_decoder_of log_first_batch))
      (p3 := text_after 5 (text_decoder_of log_first_batch)) in Hm.
  - vm_compute in Hm. discriminate Hm.
  - vm_compute. reflexivity.
  - vm_compute. reflexivity.
  - vm_compute. reflexivity.
  - vm_compute. reflexivity.
  - vm_compute. reflexivity.
  - eexists. vm_compute. reflexivity.
  - apply rtc_once. vm_compute. reflexivity.
  - vm_compute. reflexivity.
  - vm_compute. reflexivity.
Qed.


Lemma text_records_length (n : nat) (p : DFReader_text.t) :
  (length (text_records n p) <= n)%nat.
Proof.
  revert p. induction n as [|n IH]; intros p; cbn [text_records]; [done|].
  destruct (DFReader_text.parse_next p) as [[[m|]|e] p']; cbn [length];
    specialize (IH p'); lia.
Qed.

(** When each of [n] calls returns a record, the calls are a run of
    [_parse_next] in the sense of [parses]. *)
Lemma text_records_parses (n : nat) (p : DFReader_text.t) :
  length (text_records n p) = n ->
  @parses _ (@DFReader_text.decoder SampleRuntime.runtime) p (text_records n p) (text_after n p).
Proof.
  revert p. induction n as [|n IH]; intros p; cbn [text_records text_after]; [done|].
  destruct (DFReader_text.parse_next p) as [[[m|]|e] p'] eqn:E; cbn [length snd].
  - intros [= Hn]. cbn [parses]. exists p'. split; [exact E | by apply IH].
  - intros Hn. pose proof (text_records_length n p'). lia.
  - intros Hn. pose proof (text_records_length n p'). lia.
Qed.

Lemma interpolation_after_first_batch_witness :
  exists r',
    @_fill_msg_queue _ (@DFReader_text.decoder SampleRuntime.runtime) 3
      (text_received 5 (text_reader_of log_later_batch))
      = Some (Ok (VInt 3), r') /\
    last_gps_time r' = VFloat (20000 # 1000) /\
    (Qred <$> (timestamp_Q <$> queue r')) = [20; 35 # 2; 25 # 2]%Q.
Proof.
  assert (Hlen : length (text_records 2 (decoder (text_received 5 (text_reader_of log_later_batch))))
                 = 2%nat) by (vm_compute; reflexivity).
  destruct (@interpolation_after_first_batch _ (@DFReader_text.decoder SampleRuntime.runtime)
              (text_received 5 (text_reader_of log_later_batch))
              (text_records 2 (decoder (text_received 5 (text_reader_of log_later_batch))))
              (text_record_at (text_after 2 (decoder (text_received 5 (text_reader_of log_later_batch)))))
              (text_after 3 (decoder (text_received 5 (text_reader_of log_later_batch))))
              "ATT" (10000 # 1000)%Q (20000 # 1000)%Q 3)
    as ((r' & Hfill & Hqueue & Hlast) & _ & _).
  - vm_compute. reflexivity.
  - vm_compute. reflexivity.
  - refine (proj2 (@parses_app _ (@DFReader_text.decoder SampleRuntime.runtime)
                     (text_records 2 (decoder (text_received 5 (text_reader_of log_later_batch))))
                     [text_record_at (text_after 2 (decoder (text_received 5 (text_reader_of log_later_batch))))]
                     (decoder (text_received 5 (text_reader_of log_later_batch)))
                     (text_after 3 (decoder (text_received 5 (text_reader_of log_later_batch))))) _).
    exists (text_after 2 (decoder (text_received 5 (text_reader_of log_later_batch)))).
    split; [apply text_records_parses, Hlen|].
    exists (text_after 3 (decoder (text_received 5 (text_reader_of log_later_batch)))).
    split; vm_compute; reflexivity.
  - vm_compute. intros E. discriminate E.
  - vm_compute. repeat constructor.
  - intros E. discriminate E.
  - intros E. discriminate E.
  - vm_compute. reflexivity.
  - vm_compute. reflexivity.
  - vm_compute. reflexivity.
  - intros E. vm_compute in E. discriminate E.
  - rewrite Hlen. lia.
  - rewrite Hlen in Hfill. exists r'. split; [exact Hfill|]. split; [exact Hlast|].
    rewrite Hqueue. vm_compute. reflexivity.
Defined.

(** C1, as the claim states it, fails on the first batch after a rewind:
    in [log_first_batch] the GPS fixes at 10 s and 20 s bracket two ATT
    records and nothing else; both fixes are in the batch, the interval is
    counted twice, and the ATT records are stamped 5 s and 15 s, not
    12.5 s and 17.5 s. *)
Lemma first_batch_not_centred :
  exists r' t1 t2,
    @_fill_msg_queue _ (@DFReader_text.decoder SampleRuntime.runtime) 10
      (text_reader_of log_first_batch) = Some (Ok (VInt 7), r') /\
    timestamps_of "ATT" (rev (queue r')) = [Some (VFloat t1); Some (VFloat t2)] /\
    (t1 == 5)%Q /\ (t2 == 15)%Q /\
    ~ (t1 == claimed_first 10 20 2)%Q /\
    ~ (t2 - t1 == claimed_spacing 10 20 2)%Q.
Proof.
  do 3 eexists. split; [vm_compute; reflexivity|].
  split; [vm_compute; reflexivity|].
  split; [reflexivity|]. split; [reflexivity|].
  split; intros E; vm_compute in E; discriminate E.
Qed.

(** * Further properties of the code *)

Lemma append_nil_l (s : string) : (EmptyString ++ s)%string = s.
Proof. reflexivity. Qed.

Lemma append_cons (c : ascii) (a b : string) :
  (String c a ++ b)%string = String c (a ++ b)%string.
Proof. reflexivity. Qed.

(** ** [null_term] *)

Lemma null_term_split (s : string) :
  exists rest,
    s = (null_term s ++ rest)%string /\
    (NUL ∉ chars (null_term s)) /\
    (rest = EmptyString \/ exists rest', rest = String NUL rest').
Proof.
  induction s as [|c s (rest & Hs & Hno & Hrest)]; cbn [null_term].
  - exists EmptyString. split; [done|]. split; [apply not_elem_of_nil | by left].
  - destruct (Ascii.eqb c NUL) eqn:E.
    + apply Ascii.eqb_eq in E as ->. exists (String NUL s).
      split; [done|]. split; [apply not_elem_of_nil | right; by exists s].
    + exists rest. split; [change (String c s = String c (null_term s ++ rest)%string); f_equal; exact Hs|].
      split; [|done].
      change (chars (String c (null_term s))) with (c :: chars (null_term s)).
      rewrite not_elem_of_cons. split; [|done].
      intros Heq. rewrite <- Heq, Ascii.eqb_refl in E. discriminate E.
Qed.

Lemma null_term_no_NUL (s : string) : NUL ∉ chars s -> null_term s = s.
Proof.
  induction s as [|c s IH]; [done|].
  change (chars (String c s)) with (c :: chars s). cbn [null_term].
  rewrite not_elem_of_cons. intros [Hc Hs].
  destruct (Ascii.eqb c NUL) eqn:E; [apply Ascii.eqb_eq in E; by subst c|]. by rewrite IH.
Qed.

(** [null_term] cuts a string at its first NUL: the result has no NUL,
    it is a prefix of the string, and what is cut off is empty or starts
    with NUL; a string without NUL is returned as it is, so cutting twice
    is cutting once. *)
Theorem null_term_cuts_at_first_NUL (s : string) :
  (exists rest,
     s = (null_term s ++ rest)%string /\
     (NUL ∉ chars (null_term s)) /\
     (rest = EmptyString \/ exists rest', rest = String NUL rest')) /\
  null_term (null_term s) = null_term s.
Proof.
  split; [apply null_term_split|].
  destruct (null_term_split s) as (rest & _ & Hno & _).
  by apply null_term_no_NUL.
Qed.

(** ** [DFFormat.__init__] *)

Lemma split_aux_nonempty (sep s : string) (n : nat) (cur : string) :
  split_aux sep s n cur <> [].
Proof.
  revert n cur. induction s as [|c s IH]; intros n cur; cbn [split_aux]; [done|].
  destruct n as [|n]; [|apply IH]. destruct (String.prefix sep (String c s)); [done | apply IH].
Qed.

Lemma split_nonempty (sep s : string) : split sep s <> [].
Proof. apply split_aux_nonempty. Qed.

Lemma scan_format_lengths nm fm st mults types st' mults' types' :
  scan_format nm fm (st, mults, types) = Ok (st', mults', types') ->
  length mults' = (length mults + String.length (null_term fm))%nat /\
  length types' = (length types + String.length (null_term fm))%nat.
Proof.
  revert st mults types. induction fm as [|c fm IH]; intros st mults types;
    cbn [scan_format null_term String.length].
  - intros [= <- <- <-]. lia.
  - assert (Hc : (ord c =? 0)%Z = Ascii.eqb c NUL).
    { unfold ord, NUL. destruct (Ascii.eqb_spec c (ascii_of_nat 0)) as [->|Hne].
      - reflexivity.
      - apply Z.eqb_neq. intros Hz. apply Hne.
        rewrite <- (ascii_nat_embedding c). f_equal. lia. }
    rewrite Hc. destruct (Ascii.eqb c NUL).
    { intros [= <- <- <-]. cbn. lia. }
    destruct (FORMAT_TO_STRUCT c) as [[[s mul] ty]|]; [|done].
    intros Hs. apply IH in Hs. rewrite !length_app in Hs. cbn [length String.length] in *. lia.
Qed.

(** A layout that is constructed has one multiplier and one type for
    each character of the format before its first NUL, each the row of
    the codec table for that character; its struct format starts with
    the little-endian mark; it has at least one column. *)
Theorem DFFormat_init_derived nm ln fm cols (f : DFFormat) :
  DFFormat_init nm ln fm cols = Ok f ->
  length (msg_mults f) = String.length (null_term fm) /\
  length (msg_types f) = String.length (null_term fm) /\
  (forall i mul, msg_mults f !! i = Some mul ->
     exists c s ty, String.get i fm = Some c /\ FORMAT_TO_STRUCT c = Some (s, mul, ty) /\
                    msg_types f !! i = Some ty) /\
  (exists codes, msg_struct f = String "<" codes) /\
  columns f <> [].
Proof.
  intros Hf. pose proof (DFFormat_init_fields _ _ _ _ _ Hf) as (Hwf & Hnm & _ & Hfm & Hcols).
  unfold wf_format in Hwf. rewrite Hfm in Hwf.
  destruct (scan_format_lengths _ _ _ _ _ _ _ _ Hwf) as [H1 H2].
  split; [exact H1|]. split; [exact H2|]. split; [|split].
  - intros i mul Hi. rewrite <- Hfm. apply wf_format_codec; [|done].
    unfold wf_format. by rewrite Hfm.
  - clear -Hwf. assert (Hgen : forall fm0 st mults types st' mults' types',
      scan_format (name f) fm0 (st, mults, types) = Ok (st', mults', types') ->
      (exists codes, st = String "<" codes) -> exists codes, st' = String "<" codes).
    { induction fm0 as [|c fm0 IH]; intros st mults types st' mults' types'; cbn [scan_format].
      - by intros [= <- _ _].
      - destruct (ord c =? 0)%Z; [by intros [= <- _ _]|].
        destruct (FORMAT_TO_STRUCT c) as [[[s mul] ty]|]; [|done].
        intros Hs [codes ->]. eapply IH; [exact Hs|]. by exists (codes ++ s)%string. }
    apply (Hgen _ _ _ _ _ _ _ Hwf). by exists EmptyString.
  - rewrite Hcols. apply split_nonempty.
Qed.

Lemma DFFormat_init_derived_witness :
  length (msg_mults FMT_layout) = 5%nat /\ length (msg_types FMT_layout) = 5%nat.
Proof.
  destruct (DFFormat_init_derived "FMT" (VInt 89) "BBnNZ" "Type,Length,Name,Format,Columns"
              FMT_layout) as (H1 & H2 & _).
  - vm_compute. reflexivity.
  - split; [exact H1 | exact H2].
Defined.

(** A format character that is not in the codec table makes the
    construction fail with an exception that names the character and the
    message. *)
Theorem DFFormat_init_unsupported nm ln (pre : string) (c : ascii) (post cols : string) :
  (forall d, d ∈ chars pre -> d <> NUL /\ is_Some (FORMAT_TO_STRUCT d)) ->
  c <> NUL ->
  FORMAT_TO_STRUCT c = None ->
  DFFormat_init nm ln (pre ++ String c post) cols =
    Raise (Exception ("Unsupported format char: '" ++ String c EmptyString
                      ++ "' in message " ++ nm)%string).
Proof.
  intros Hpre Hc Htab. unfold DFFormat_init.
  assert (Hscan : forall acc, scan_format nm (pre ++ String c post) acc =
    Raise (Exception ("Unsupported format char: '" ++ String c EmptyString
                      ++ "' in message " ++ nm)%string)).
  { induction pre as [|d pre IH]; intros acc;
      rewrite ?append_nil_l, ?append_cons; cbn [scan_format].
    - assert ((ord c =? 0)%Z = false) as ->.
      { apply Z.eqb_neq. intros Hz. apply Hc. unfold NUL.
        rewrite <- (ascii_nat_embedding c). f_equal. unfold ord in Hz. lia. }
      by rewrite Htab.
    - destruct (Hpre d) as [Hd [[[s mul] ty] Hs]]; [cbn; apply elem_of_cons; by left|].
      assert ((ord d =? 0)%Z = false) as ->.
      { apply Z.eqb_neq. intros Hz. apply Hd. unfold NUL.
        rewrite <- (ascii_nat_embedding d). f_equal. unfold ord in Hz. lia. }
      rewrite Hs. destruct acc as [[st mults] types]. apply IH.
      intros d' Hd'. apply Hpre. cbn. apply elem_of_cons. by right. }
  by rewrite Hscan.
Qed.

Lemma DFFormat_init_unsupported_witness :
  DFFormat_init "ATT" (VInt 7) "cx" "Roll,Pitch" =
    Raise (Exception "Unsupported format char: 'x' in message ATT").
Proof.
  apply (DFFormat_init_unsupported "ATT" (VInt 7) "c" "x"%char "" "Roll,Pitch").
  - intros d Hd. cbn in Hd. apply list_elem_of_singleton in Hd as ->.
    split; [intros E; discriminate E | eexists; reflexivity].
  - intros E. discriminate E.
  - reflexivity.
Defined.

(** ** [DFMessage.__init__], [add_value], [__str__] *)

Section RecordConstruction.
Context `{PyRuntime}.

Lemma field_value_bounds f elements b i v :
field_value f elements b i = Ok v ->
(i < length elements)%nat /\ (i < length (msg_mults f))%nat /\
(i < length (msg_types f))%nat /\ (i < String.length (format f))%nat.
Proof.
unfold field_value. intros Hv.
apply bind_Ok_inv in Hv as (mul & Hmul & Hv). apply bind_Ok_inv in Hv as (e & He & Hv).
apply bind_Ok_inv in Hv as (c & Hc & Hv). apply bind_Ok_inv in Hv as (ty & Hty & _).
unfold index in Hmul, He, Hty. unfold str_index in Hc.
destruct (msg_mults f !! i) eqn:E1; [|discriminate Hmul].
destruct (elements !! i) eqn:E2; [|discriminate He].
destruct (msg_types f !! i) eqn:E3; [|discriminate Hty].
destruct (String.get i (format f)) eqn:E4; [|discriminate Hc].
apply lookup_lt_Some in E1, E2, E3.
repeat split; try done.
clear -E4. revert i E4. induction (format f) as [|ch s IH]; intros i; [by destruct i|].
destruct i as [|i]; cbn [String.get String.length]; [lia|]. intros Hi. apply IH in Hi. lia.
Qed.

Lemma foldM_init_field_dom f elements b (l : list nat) d d' :
(forall j, j ∈ l -> is_Some (columns f !! j)) ->
foldM (init_field f elements b) l d = Ok d' ->
(forall j, j ∈ l -> is_ok (field_value f elements b j) = true) /\
(forall nm, is_Some (d' !! nm) <->
   is_Some (d !! nm) \/ exists j, j ∈ l /\ columns f !! j = Some nm).
Proof.
revert d. induction l as [|i l IH]; intros d Hin; cbn [foldM].
- intros [= <-]. split; [intros j Hj; by apply elem_of_nil in Hj|].
  intros nm. split; [by left|]. intros [?|(j & Hj & _)]; [done | by apply elem_of_nil in Hj].
- intros Hf. apply bind_Ok_inv in Hf as (d1 & H1 & Hf).
  destruct (Hin i) as [col Hcol]; [apply elem_of_cons; by left|].
  rewrite (init_field_value _ _ _ _ _ _ Hcol) in H1.
  apply bind_Ok_inv in H1 as (v & Hv & [= <-]).
  destruct (IH (<[col := v]> d)) as [IH1 IH2]; [|exact Hf|].
  { intros j Hj. apply Hin. apply elem_of_cons. by right. }
  split.
  + intros j Hj. apply elem_of_cons in Hj as [->|Hj]; [by rewrite Hv | by apply IH1].
  + intros nm. rewrite IH2. rewrite lookup_insert. split.
    * intros [Hd | (j & Hj & Hnm)].
      -- case_match; [|by left]. subst nm. right. exists i. split; [apply elem_of_cons; by left | done].
      -- right. exists j. split; [apply elem_of_cons; by right | done].
    * intros [Hd | (j & Hj & Hnm)].
      -- left. case_match; [eauto | done].
      -- apply elem_of_cons in Hj as [->|Hj].
         ++ left. rewrite Hcol in Hnm. injection Hnm as ->. case_match; [eauto | done].
         ++ right. by exists j.
Qed.

(** A record is constructed only when there is an element and a format
  code for every column; its field names are the columns of the layout,
  in order, its fields are exactly the columns, and it has no timestamp
  yet. *)
Theorem DFMessage_init_shape (f : DFFormat) (elements : list value) (b : bool) (m : DFMessage) :
DFMessage_init f elements b = Ok m ->
(length (columns f) <= length elements)%nat /\
(length (columns f) <= length (msg_mults f))%nat /\
(length (columns f) <= String.length (format f))%nat /\
fmt m = f /\ _fieldnames m = columns f /\ _timestamp m = None /\
(forall nm, is_Some (_d m !! nm) <-> nm ∈ columns f).
Proof.
intros Hm. pose proof (DFMessage_init_fieldnames _ _ _ _ Hm) as (Hfmt & Hnames & Hts).
unfold DFMessage_init in Hm. apply bind_Ok_inv in Hm as (d & Hd & [= <-]).
apply foldM_init_field_dom in Hd as [Hok Hdom].
2:{ intros j Hj. apply elem_of_seq in Hj. apply lookup_lt_is_Some. lia. }
assert (Hall : forall j, (j < length (columns f))%nat ->
          (j < length elements)%nat /\ (j < length (msg_mults f))%nat /\
          (j < String.length (format f))%nat).
{ intros j Hj. specialize (Hok j).
  destruct (field_value f elements b j) as [v|] eqn:Hv.
  - apply field_value_bounds in Hv. tauto.
  - exfalso. assert (is_ok (@Raise value e) = true) as Hc; [|discriminate Hc].
    apply Hok. apply elem_of_seq. lia. }
assert (Hle : forall n, (forall j, (j < length (columns f))%nat -> (j < n)%nat) ->
                        (length (columns f) <= n)%nat).
{ intros n Hn. destruct (length (columns f)) as [|k] eqn:E; [lia|].
  specialize (Hn k). lia. }
split; [apply Hle; intros j Hj; by apply Hall|].
split; [apply Hle; intros j Hj; by apply Hall|].
split; [apply Hle; intros j Hj; by apply Hall|].
split; [done|]. split; [done|]. split; [done|].
intros nm. cbn [_d]. rewrite Hdom, lookup_empty. split.
- intros [[? Hx] | (j & _ & Hj)]; [discriminate Hx|]. apply list_elem_of_lookup. by exists j.
- intros Hnm. apply list_elem_of_lookup in Hnm as [j Hj]. right. exists j. split; [|done].
  apply elem_of_seq. apply lookup_lt_Some in Hj. lia.
Qed.

(** [add_value] appends the name to the field names and makes the value
  the one looked up under that name; other fields are kept. *)
Theorem add_value_lookup (m : DFMessage) (nm : string) (v : value) :
getattr (add_value m nm v) nm = Ok v /\
_fieldnames (add_value m nm v) = _fieldnames m ++ [nm] /\
get_type (add_value m nm v) = get_type m /\
(forall x, x <> nm -> getattr (add_value m nm v) x = getattr m x).
Proof.
unfold getattr, add_value, get_type. cbn [_d _fieldnames fmt].
rewrite lookup_insert_eq. repeat split; try done.
intros x Hx. by rewrite lookup_insert_ne.
Qed.
End RecordConstruction.

Lemma DFMessage_init_shape_witness :
  (length (columns FMT_layout) <= 5)%nat /\
  _fieldnames (binary_record_at (binary_decoder_of binary_log)) = columns FMT_layout.
Proof.
  destruct (@DFMessage_init_shape SampleRuntime.runtime FMT_layout
              [VInt 128; VInt 89; VStr "FMT"; VStr "BBnNZ"; VStr "Type,Length,Name,Format,Columns"]
              true (binary_record_at (binary_decoder_of binary_log)))
    as (H1 & _ & _ & _ & H5 & _).
  - vm_compute. reflexivity.
  - split; [exact H1 | exact H5].
Defined.

(** ** The binary decoder *)

Section BinaryDecoder.
Context `{PyRuntime}.
Import DFReader_binary.

Lemma register_cursor f elements p o p1 :
register f elements p = (o, p1) ->
offset p1 = offset p /\ remaining p1 = remaining p /\ data p1 = data p.
Proof.
unfold register. repeat case_match; intros; simplify_eq; done.
Qed.

Lemma advance_int (n o rm : Z) (p : t) :
offset p = VInt o -> remaining p = VInt rm ->
advance (VInt n) p =
  (Ok tt, set_remaining (VInt (rm - n)) (set_offset (VInt (o + n)) p)).
Proof.
intros Ho Hr. unfold advance. rewrite Ho. cbn [py_add].
cbn [remaining set_offset]. rewrite Hr. reflexivity.
Qed.

(** With fewer than three bytes left, [_parse_next] returns [None] and
  changes nothing: the end of the stream is reported again by every
  later call. *)
Theorem binary_end_of_data (p : t) (o : Z) :
offset p = VInt o ->
(Z.of_nat (String.length (data p)) - o < 3)%Z ->
parse_next p = (Ok None, p) /\
parse_next (snd (parse_next p)) = (Ok None, p).
Proof.
intros Ho Hlt.
assert (Hp : parse_next p = (Ok None, p)).
{ unfold parse_next, read_header, strlen. rewrite Ho. cbn [py_sub]. rewrite bind_Ok.
  cbn [py_lt]. apply Z.ltb_lt in Hlt. by rewrite Hlt. }
split; [exact Hp|]. rewrite Hp. exact Hp.
Qed.

(** A record whose type identifier is not in the registry makes
  [_parse_next] raise, with the cursor already moved past the three
  header bytes. *)
Theorem binary_unknown_type_raises (p : t) (ty o rm : Z) :
record_type p = Some ty ->
vdict_get (formats p) (VInt ty) = None ->
offset p = VInt o ->
remaining p = VInt rm ->
parse_next p =
  (Raise (Exception ("Unknown message type " ++ hex2 ty)%string),
   set_remaining (VInt (rm - 3)) (set_offset (VInt (o + 3)) p)).
Proof.
intros Hty Hnone Ho Hr. unfold parse_next. unfold record_type in Hty.
destruct (read_header p) as [[ty'|]|]; try discriminate Hty. injection Hty as ->.
rewrite (advance_int 3 o rm p Ho Hr). unfold parse_body.
cbn [formats set_remaining set_offset]. by rewrite Hnone.
Qed.

(** When the log ends inside the body of a record, [_parse_next]
  returns [None], but the cursor has moved past the header. *)
Theorem binary_truncated_record (p : t) (ty o rm L : Z) (f : DFFormat) :
record_type p = Some ty ->
vdict_get (formats p) (VInt ty) = Some f ->
len f = VInt L ->
offset p = VInt o ->
remaining p = VInt rm ->
(rm - 3 < L - 3)%Z ->
parse_next p = (Ok None, set_remaining (VInt (rm - 3)) (set_offset (VInt (o + 3)) p)).
Proof.
intros Hty Hf HL Ho Hr Hlt. unfold parse_next. unfold record_type in Hty.
destruct (read_header p) as [[ty'|]|]; try discriminate Hty. injection Hty as ->.
rewrite (advance_int 3 o rm p Ho Hr). unfold parse_body.
cbn [formats set_remaining set_offset]. rewrite Hf.
unfold read_elements. rewrite HL. cbn [py_sub]. rewrite bind_Ok.
cbn [remaining set_remaining py_lt]. apply Z.ltb_lt in Hlt. by rewrite Hlt.
Qed.

(** A record that is decoded moves the cursor by the length its layout
  declares, whatever the size of the fields: a layout with declared
  length 0 leaves the cursor where it was. *)
Theorem binary_cursor_advance (p p' : t) (m : DFMessage) (o rm L : Z) :
parse_next p = (Ok (Some m), p') ->
offset p = VInt o ->
remaining p = VInt rm ->
len (fmt m) = VInt L ->
offset p' = VInt (o + L) /\ remaining p' = VInt (rm - L) /\ data p' = data p.
Proof.
intros Hp Ho Hr HL. unfold parse_next in Hp.
destruct (read_header p) as [[ty|]|]; try discriminate Hp.
rewrite (advance_int 3 o rm p Ho Hr) in Hp. unfold parse_body in Hp.
cbn [formats set_remaining set_offset] in Hp.
destruct (vdict_get (formats p) (VInt ty)) as [f|]; [|discriminate Hp].
destruct (read_elements f _) as [[[body_len elements]|]|] eqn:He; try discriminate Hp.
destruct (register f elements _) as [[u|e] p1] eqn:Hreg; [|discriminate Hp].
apply register_cursor in Hreg as (Ho1 & Hr1 & Hd1).
cbn [offset remaining data set_remaining set_offset] in Ho1, Hr1, Hd1.
destruct (DFMessage_init f elements true) as [m0|] eqn:Hm.
2:{ destruct (advance body_len p1) as [[?|?] ?]; discriminate Hp. }
destruct (DFMessage_init_fieldnames _ _ _ _ Hm) as (Hfmt & _ & _).
unfold read_elements in He. apply bind_Ok_inv in He as (bl & Hbl & He).
destruct (py_lt _ bl); [discriminate He|].
apply bind_Ok_inv in He as (stop & _ & He). apply bind_Ok_inv in He as (body & _ & He).
destruct (struct_unpack _ _); [|discriminate He]. injection He as <- _.
destruct (advance bl p1) as [[u2|e2] p2] eqn:Ha; [|discriminate Hp].
destruct (py_div _ _ ≫= _) as [pc|]; [|discriminate Hp].
injection Hp as <- <-. rewrite Hfmt in HL. rewrite HL in Hbl. cbn [py_sub] in Hbl.
injection Hbl as <-.
rewrite (advance_int (L - 3) (o + 3) (rm - 3) p1 Ho1 Hr1) in Ha. injection Ha as Ha.
subst p2. cbn [offset remaining data set_percent set_remaining set_offset].
split; [f_equal; lia|]. split; [f_equal; lia | exact Hd1].
Qed.

(** However many records are decoded, the binary decoder keeps every
  registry entry as it is and keeps every layout consistent with the
  codec table. *)
Theorem binary_registry_stable (p p' : t) :
later p p' ->
(forall k f, vdict_get (formats p) k = Some f -> vdict_get (formats p') k = Some f) /\
(binary_registry_wf p -> binary_registry_wf p').
Proof.
intros Hlater. split.
- intros k f. by apply binary_registry_entries_kept_later.
- induction Hlater as [|p p1 p2 -> _ IH]; [done|].
  intros Hwf. by apply IH, binary_registry_wf_kept.
Qed.
End BinaryDecoder.

Lemma binary_end_of_data_witness :
  @DFReader_binary.parse_next SampleRuntime.runtime
     (binary_after 4 (binary_decoder_of binary_log))
  = (Ok None, binary_after 4 (binary_decoder_of binary_log)).
Proof.
  apply (@binary_end_of_data SampleRuntime.runtime
           (binary_after 4 (binary_decoder_of binary_log)) 192).
  - vm_compute. reflexivity.
  - vm_compute. reflexivity.
Defined.

Lemma binary_unknown_type_raises_witness :
  fst (@DFReader_binary.parse_next SampleRuntime.runtime
         (binary_after 1 (binary_decoder_of binary_log_unknown)))
  = Raise (Exception "Unknown message type 07").
Proof.
  rewrite (@binary_unknown_type_raises SampleRuntime.runtime
             (binary_after 1 (binary_decoder_of binary_log_unknown)) 7 89 6).
  - reflexivity.
  - vm_compute. reflexivity.
  - vm_compute. reflexivity.
  - vm_compute. reflexivity.
  - vm_compute. reflexivity.
Defined.

Lemma binary_truncated_record_witness :
  fst (@DFReader_binary.parse_next SampleRuntime.runtime
         (binary_after 2 (binary_decoder_of binary_log_truncated))) = Ok None /\
  DFReader_binary.offset
    (snd (@DFReader_binary.parse_next SampleRuntime.runtime
            (binary_after 2 (binary_decoder_of binary_log_truncated)))) = VInt 181.
Proof.
  rewrite (@binary_truncated_record SampleRuntime.runtime
             (binary_after 2 (binary_decoder_of binary_log_truncated)) 129 178 5 7
             (default FMT_layout
                (vdict_get (DFReader_binary.formats
                              (binary_after 2 (binary_decoder_of binary_log_truncated)))
                           (VInt 129)))).
  - split; reflexivity.
  - vm_compute. reflexivity.
  - vm_compute. reflexivity.
  - vm_compute. reflexivity.
  - vm_compute. reflexivity.
  - vm_compute. reflexivity.
  - vm_compute. reflexivity.
Defined.

Lemma binary_cursor_advance_witness :
  DFReader_binary.offset
    (snd (@DFReader_binary.parse_next SampleRuntime.runtime
            (binary_after 2 (binary_decoder_of binary_log)))) = VInt (178 + 7).
Proof.
  eapply (@binary_cursor_advance SampleRuntime.runtime
            (binary_after 2 (binary_decoder_of binary_log))
            (snd (@DFReader_binary.parse_next SampleRuntime.runtime
                    (binary_after 2 (binary_decoder_of binary_log))))
            (binary_record_at (binary_after 2 (binary_decoder_of binary_log)))
            178 14 7).
  - vm_compute. reflexivity.
  - vm_compute. reflexivity.
  - vm_compute. reflexivity.
  - vm_compute. reflexivity.
Defined.

Lemma binary_registry_stable_witness :
  vdict_get (DFReader_binary.formats
               (snd (@DFReader_binary.parse_next SampleRuntime.runtime
                       (binary_after 1 (binary_decoder_of binary_log))))) (VInt 128)
  = Some FMT_layout.
Proof.
  apply (@binary_registry_stable SampleRuntime.runtime
           (binary_after 1 (binary_decoder_of binary_log))
           (snd (@DFReader_binary.parse_next SampleRuntime.runtime
                   (binary_after 1 (binary_decoder_of binary_log))))).
  - apply rtc_once. reflexivity.
  - vm_compute. reflexivity.
Defined.

(** ** The text decoder *)

Section TextDecoderMore.
Context `{PyRuntime}.
Import DFReader_text.

Lemma set_line_id (p : t) : set_line (line p) p = p.
Proof. by destruct p. Qed.

(** Called with the cursor at or past the last line, [_parse_next]
  raises: the loop is not entered and [elements] is unbound. *)
Theorem text_exhausted_raises (p : t) :
(length (lines p) <= line p)%nat ->
parse_next p = (Raise UnboundLocalError, p).
Proof.
intros Hge. unfold parse_next. rewrite drop_ge by done.
cbn [scan]. cbn beta iota zeta. by rewrite set_line_id.
Qed.

Lemma scan_advances s rest ln e found ln' :
scan (s :: rest) ln e = (found, ln') -> (ln < ln')%nat.
Proof.
cbn [scan]. cbn zeta. destruct (Nat.leb _ _).
- intros [= _ <-]. lia.
- intros Hs. apply scan_bounds in Hs. lia.
Qed.

Lemma text_cursor_forward (p : t) :
(line p < length (lines p))%nat ->
(line p < line (snd (parse_next p)) <= length (lines p))%nat.
Proof.
intros Hlt. destruct (parse_next_cursor p) as [Hcur Hlines]. rewrite Hcur.
destruct (drop (line p) (lines p)) as [|s rest] eqn:Hdrop.
{ apply (f_equal length) in Hdrop. rewrite length_drop in Hdrop. cbn in Hdrop. lia. }
destruct (scan (s :: rest) (line p) None) as [found ln'] eqn:Hs. cbn [snd].
pose proof (scan_advances _ _ _ _ _ _ Hs). pose proof (scan_bounds _ _ _ _ _ Hs) as Hb.
apply (f_equal length) in Hdrop. rewrite length_drop in Hdrop. lia.
Qed.

(** Every call with lines left moves the cursor forward, never past the
  end, leaves the lines as they are and removes no registry entry. *)
Theorem text_cursor_progress (p : t) :
(line p < length (lines p))%nat ->
(line p < line (snd (parse_next p)) <= length (lines p))%nat /\
lines (snd (parse_next p)) = lines p /\
(forall k, is_Some (formats p !! k) -> is_Some (formats (snd (parse_next p)) !! k)).
Proof.
intros Hlt. split; [by apply text_cursor_forward|].
destruct (parse_next_cursor p) as [_ Hlines].
split; [done | apply text_registry_never_removes].
Qed.

Lemma text_record_position (p p' : t) (m : DFMessage) :
parse_next p = (Ok (Some m), p') ->
(line p < line p' < length (lines p))%nat.
Proof.
intros Hp.
pose proof (parse_next_cursor p) as [Hcur Hlines]. rewrite Hp in Hcur, Hlines.
cbn [snd] in Hcur, Hlines.
assert (Hend : (line p' < length (lines p))%nat).
{ unfold parse_next in Hp. destruct (scan _ _ _) as [found ln]. cbn [snd] in Hcur. subst ln.
  destruct found as [els|]; [|discriminate Hp]. cbn beta iota zeta in Hp.
  destruct (py_div _ _ ≫= _) as [pc|]; [|discriminate Hp].
  cbn [lines line set_percent set_line] in Hp.
  destruct (Nat.leb_spec (length (lines p)) (line p')); [discriminate Hp | done]. }
assert (Hstart : (line p < length (lines p))%nat).
{ pose proof (scan_bounds (drop (line p) (lines p)) (line p) None) as Hb.
  destruct (scan _ _ _) as [found ln]. cbn [snd] in Hcur. subst ln.
  specialize (Hb _ _ eq_refl). lia. }
pose proof (text_cursor_forward p Hstart) as Hprog. rewrite Hp in Hprog. cbn [snd] in Hprog.
lia.
Qed.

(** A record of the text decoder carries the number of its line,
  counted from 1, in the field [line], appended after the declared
  columns; it is never the record of the last line; its layout is in
  the registry the call started with. *)
Theorem text_record_line (p p' : t) (m : DFMessage) :
parse_next p = (Ok (Some m), p') ->
getattr m "line" = Ok (VInt (Z.of_nat (line p'))) /\
_fieldnames m = columns (fmt m) ++ ["line"] /\
(line p < line p' < length (lines p))%nat /\
exists ty, formats p !! ty = Some (fmt m).
Proof.
intros Hp. pose proof (text_record_fieldnames p p' m Hp) as Hnames.
pose proof (text_record_position p p' m Hp) as Hpos.
apply text_parse_next_record in Hp as (ty & f & m0 & Hf & Hm0 & ->).
split; [|split; [done|split; [done|]]].
- unfold getattr, add_value. cbn [_d]. by rewrite lookup_insert_eq.
- destruct (DFMessage_init_fieldnames _ _ _ _ Hm0) as (Hfmt & _ & _).
  cbn [fmt add_value]. rewrite Hfmt. eauto.
Qed.

Lemma find_fmt_spec (ls : list string) (ln : nat) :
(ln <= find_fmt ls ln <= ln + length ls)%nat /\
(forall j s, (j < find_fmt ls ln - ln)%nat -> ls !! j = Some s -> startswith s "FMT, " = false) /\
((find_fmt ls ln < ln + length ls)%nat ->
 exists s, ls !! (find_fmt ls ln - ln)%nat = Some s /\ startswith s "FMT, " = true).
Proof.
revert ln. induction ls as [|s ls IH]; intros ln; cbn [find_fmt length].
- split; [lia|]. split; [intros j s Hj; lia | lia].
- destruct (startswith s "FMT, ") eqn:E.
  + split; [lia|]. split; [intros j s0 Hj; lia|]. intros _. exists s.
    by rewrite Nat.sub_diag.
  + destruct (IH (S ln)) as (Hb & Hbefore & Hat). split; [lia|]. split.
    * intros j s0 Hj Hs0. destruct j as [|j]; [by injection Hs0 as <-|].
      apply (Hbefore j s0); [lia | done].
    * intros Hlt. destruct Hat as (s0 & Hs0 & Ht); [lia|]. exists s0. split; [|done].
      replace (find_fmt ls (S ln) - ln)%nat with (S (find_fmt ls (S ln) - S ln)) by lia.
      done.
Qed.

(** [_rewind] puts the cursor on the first line that starts with
  ["FMT, "], or past the last line when there is none; it resets
  [percent] and keeps the lines and the registry. *)
Theorem text_rewind_position (p : t) :
(line (rewind p) <= length (lines p))%nat /\
(forall j s, (j < line (rewind p))%nat -> lines p !! j = Some s ->
             startswith s "FMT, " = false) /\
((line (rewind p) < length (lines p))%nat ->
 exists s, lines p !! line (rewind p) = Some s /\ startswith s "FMT, " = true) /\
lines (rewind p) = lines p /\ formats (rewind p) = formats p /\
percent (rewind p) = VInt 0.
Proof.
cbn [rewind line lines formats percent].
destruct (find_fmt_spec (lines p) 0) as (Hb & Hbefore & Hat).
rewrite Nat.sub_0_r in Hbefore, Hat. cbn [Nat.add] in Hb, Hat.
repeat split; try done. lia.
Qed.
End TextDecoderMore.

Lemma text_exhausted_raises_witness :
  @DFReader_text.parse_next SampleRuntime.runtime
     (text_after 8 (text_decoder_of log_unknown_type))
  = (Raise UnboundLocalError, text_after 8 (text_decoder_of log_unknown_type)).
Proof.
  apply (@text_exhausted_raises SampleRuntime.runtime
           (text_after 8 (text_decoder_of log_unknown_type))).
  vm_compute. reflexivity.
Defined.

Lemma text_cursor_progress_witness :
  (DFReader_text.line (text_decoder_of log_preamble)
   < DFReader_text.line
       (snd (@DFReader_text.parse_next SampleRuntime.runtime (text_decoder_of log_preamble)))
   <= length (DFReader_text.lines (text_decoder_of log_preamble)))%nat.
Proof.
  apply (@text_cursor_progress SampleRuntime.runtime (text_decoder_of log_preamble)).
  vm_compute. lia.
Defined.

Lemma text_record_line_witness :
  getattr (text_record_at (text_after 3 (text_decoder_of log_unknown_type))) "line"
  = Ok (VInt (Z.of_nat (DFReader_text.line (text_after 4 (text_decoder_of log_unknown_type))))).
Proof.
  apply (@text_record_line SampleRuntime.runtime
           (text_after 3 (text_decoder_of log_unknown_type))
           (text_after 4 (text_decoder_of log_unknown_type))
           (text_record_at (text_after 3 (text_decoder_of log_unknown_type)))).
  vm_compute. reflexivity.
Defined.

(** ** More on the queue fill *)

Ltac reader_simpl_in H :=
  cbn [queue last_gps_time decoder msg_periods params messages flightmode timestamp
       set_queue set_last_gps_time set_decoder set_msg_periods set_messages
       set_params set_flightmode] in H.

Lemma drop_through_GPS_none (l : list DFMessage) :
  Forall (fun m => get_type m <> "GPS") l -> drop_through_GPS l = [].
Proof.
  induction 1 as [|m l Hm _ IH]; cbn [drop_through_GPS]; [done|].
  apply String.eqb_neq in Hm. by rewrite Hm.
Qed.

Lemma drop_through_GPS_app (l1 l2 : list DFMessage) (g : DFMessage) :
  Forall (fun m => get_type m <> "GPS") l1 -> get_type g = "GPS" ->
  drop_through_GPS (l1 ++ g :: l2) = l2.
Proof.
  intros Hl Hg. induction Hl as [|m l Hm _ IH]; cbn [drop_through_GPS app].
  - by rewrite Hg.
  - apply String.eqb_neq in Hm. by rewrite Hm.
Qed.

Lemma pop_through_GPS_none (q : list DFMessage) :
  Forall (fun m => get_type m <> "GPS") q -> pop_through_GPS q = [].
Proof.
  intros Hq. unfold pop_through_GPS. rewrite drop_through_GPS_none; [done|].
  by apply List.Forall_rev.
Qed.

(** At the end of the log, the records read after the last GPS record
    are dropped, and that GPS record with them: what stays is the part of
    the queue before it. *)
Theorem pop_through_GPS_last_fix (a b : list DFMessage) (g : DFMessage) :
  get_type g = "GPS" ->
  Forall (fun m => get_type m <> "GPS") b ->
  pop_through_GPS (a ++ g :: b) = a.
Proof.
  intros Hg Hb. unfold pop_through_GPS. rewrite rev_app_distr. cbn [rev].
  rewrite <- app_assoc. cbn [app]. rewrite drop_through_GPS_app.
  - apply rev_involutive.
  - by apply List.Forall_rev.
  - done.
Qed.

Lemma set_timestamp_erase (m : DFMessage) (v : value) :
  erase_timestamp (set_timestamp m v) = erase_timestamp m.
Proof. reflexivity. Qed.

Lemma assign_timestamp_erase gt gtd counts a (i i' : DFMessage) o a' :
  assign_timestamp gt gtd counts a i = (o, i', a') ->
  erase_timestamp i' = erase_timestamp i.
Proof.
  unfold assign_timestamp. intros Ha.
  repeat (case_match; simplify_eq; try done).
Qed.

Lemma assign_timestamps_erase gt gtd counts (q : list DFMessage) : forall a q' o a',
  assign_timestamps gt gtd counts a q = (o, q', a') ->
  erase_timestamp <$> q' = erase_timestamp <$> q.
Proof.
  induction q as [|i q IH]; intros a q' o a'; cbn [assign_timestamps].
  - by intros [= _ <- _].
  - destruct (assign_timestamp gt gtd counts a i) as [[[u|e] i1] a1] eqn:Hi;
      apply assign_timestamp_erase in Hi.
    + destruct (assign_timestamps gt gtd counts a1 q) as [[o2 q2] a2] eqn:Hq.
      intros [= _ <- _]. apply IH in Hq. cbn [fmap list_fmap]. by rewrite Hi, Hq.
    + intros [= _ <- _]. cbn [fmap list_fmap]. by rewrite Hi.
Qed.

Section FillMore.
Context {P : Type} `{Decoder P}.

(** The block that closes a batch changes nothing of a record but its
  timestamp, and loses or repeats none; it leaves the decoder alone. *)
Lemma flush_keeps_records gt mt counts (r r' : DFReader P) o :
flush gt mt counts r = (o, r') ->
erase_timestamp <$> queue r' ≡ₚ erase_timestamp <$> queue r /\
decoder r' = decoder r.
Proof.
unfold flush. destruct (_ ≫= _) as [delta|]; [|by intros [= _ <-]].
destruct (assign_timestamps _ _ _ _ _) as [[o1 q] a] eqn:Ha. reader_simpl.
apply assign_timestamps_erase in Ha. cbn [queue set_last_gps_time] in Ha.
destruct o1 as [u|e].
- destruct (forallb has_timestamp q).
  + intros [= _ <-]. reader_simpl. split; [|done].
    rewrite <- Ha. apply fmap_Permutation, sort_desc_perm.
  + intros [= _ <-]. reader_simpl. by rewrite Ha.
- intros [= _ <-]. reader_simpl. by rewrite Ha.
Qed.

Lemma flush_None_raises mt counts (r : DFReader P) :
flush VNone mt counts r = (Raise TypeError, r).
Proof. reflexivity. Qed.

(** How a round of the loop can end without raising. *)
Lemma fill_round_cases counts (r r' : DFReader P) counts' (c : ctl) :
fill_round counts r = (Ok c, counts', r') ->
match c with
| Continue => exists m, _parse_next (decoder r) = (Ok (Some m), decoder r') /\
                        queue r' = queue r ++ [m]
| Break => exists m, _parse_next (decoder r) = (Ok (Some m), decoder r') /\
                     erase_timestamp <$> queue r' ≡ₚ erase_timestamp <$> (queue r ++ [m])
| Return _ => queue r' = []
end.
Proof.
intros Hr. pose proof (fill_round_outcome _ _ _ _ _ Hr) as Hout.
unfold fill_round in Hr. destruct (_parse_next (decoder r)) as [[m|] p]; [|done].
assert (Hflush : forall gt (m0 : DFMessage) cs,
  (let '(o, r1) := flush gt (Some (get_type m0)) cs
                     (set_queue (queue r ++ [m0]) (set_decoder p r)) in (o, cs, r1))
    = (Ok c, counts', r') ->
  c = Break /\ decoder r' = p /\
  erase_timestamp <$> queue r' ≡ₚ erase_timestamp <$> (queue r ++ [m0])).
{ intros gt m0 cs. destruct (flush _ _ _ _) as [o r1] eqn:Hf. intros [= -> <- <-].
  pose proof (flush_keeps_records _ _ _ _ _ _ Hf) as [Hperm Hdec].
  apply flush_sorted in Hf as [-> _]. done. }
assert (Hdone : forall (m0 : DFMessage) gt cs,
  (let '(o, r1) := flush gt (Some (get_type m0)) cs
                     (set_queue (queue r ++ [m0]) (set_decoder p r)) in (o, cs, r1))
    = (Ok c, counts', r') ->
  match c with
  | Continue => exists m, (Ok (Some m0), p) = (Ok (Some m), decoder r') /\
                          queue r' = queue r ++ [m]
  | Break => exists m, (Ok (Some m0), p) = (Ok (Some m), decoder r') /\
                       erase_timestamp <$> queue r' ≡ₚ erase_timestamp <$> (queue r ++ [m])
  | Return _ => queue r' = []
  end).
{ intros m0 gt cs Hf. apply Hflush in Hf as (-> & <- & Hperm). by exists m0. }
destruct m as [m|]; cbn beta iota zeta in Hr; reader_simpl_in Hr.
- rewrite length_app, Nat.add_comm in Hr. cbn [length Nat.add Nat.eqb] in Hr.
  destruct (String.eqb (get_type m) "GPS").
  + destruct (_get_gps_time m) as [t|]; [|done].
    destruct (truthy t).
    * destruct (is_none (last_gps_time r)).
      { injection Hr as <- _ <-. by exists m. }
      destruct (negb (is_none t) || m_is_none (Some m)).
      -- by apply (Hdone m t _ Hr).
      -- injection Hr as <- _ <-. by exists m.
    * cbn [is_none negb m_is_none orb] in Hr. injection Hr as <- _ <-. by exists m.
  + cbn [is_none negb m_is_none orb] in Hr. injection Hr as <- _ <-. by exists m.
- destruct (length (pop_through_GPS (queue r)) =? 0)%nat eqn:E.
  + injection Hr as <- _ <-. reader_simpl.
    apply Nat.eqb_eq in E. by destruct (pop_through_GPS (queue r)).
  + cbn [is_none negb m_is_none orb] in Hr. rewrite flush_None_raises in Hr. done.
Qed.

Lemma fill_loop_reads fuel : forall counts (r r' : DFReader P) (v : value),
fill_loop fuel counts r = Some (Ok v, r') ->
exists xs p1,
  parses (decoder r) xs p1 /\
  (queue r' = [] \/
   (p1 = decoder r' /\
    erase_timestamp <$> queue r' ≡ₚ erase_timestamp <$> (queue r ++ xs))).
Proof.
induction fuel as [|fuel IH]; intros counts r r' v; cbn [fill_loop]; [done|].
destruct (fill_round counts r) as [[[c|e] counts'] r1] eqn:Hr; [|done].
apply fill_round_cases in Hr. destruct c as [| |v0].
- destruct Hr as (m & Hm & Hq). intros Hl.
  apply IH in Hl as (xs & p1 & Hxs & Hres). exists (m :: xs), p1. split.
  + cbn [parses]. by exists (decoder r1).
  + destruct Hres as [? | [? Hperm]]; [by left | right]. split; [done|].
    rewrite Hq, <- app_assoc in Hperm. done.
- destruct Hr as (m & Hm & Hq). intros [= _ <-]. exists [m], (decoder r1). split.
  + cbn [parses]. by exists (decoder r1).
  + by right.
- intros [= _ <-]. exists [], (decoder r). split; [done | by left].
Qed.

(** A fill that completes from an empty queue leaves in the queue the
  records the decoder returned during the fill, each once and changed in
  nothing but the timestamp -- or no record at all. *)
Theorem fill_queue_holds_records_read (fuel : nat) (r r' : DFReader P) (v : value) :
queue r = [] ->
_fill_msg_queue fuel r = Some (Ok v, r') ->
queue r' = [] \/
exists xs,
  parses (decoder r) xs (decoder r') /\
  erase_timestamp <$> queue r' ≡ₚ erase_timestamp <$> xs.
Proof.
intros Hq. unfold _fill_msg_queue. rewrite Hq. cbn [length Nat.eqb negb]. cbn iota.
intros Hl. apply fill_loop_reads in Hl as (xs & p1 & Hxs & Hres).
destruct Hres as [? | [-> Hperm]]; [by left | right]. exists xs.
rewrite Hq in Hperm. done.
Qed.

(** The first GPS fix with a time, after a rewind, only seeds the clock:
  it is queued without a timestamp and the loop reads on. *)
Theorem first_fix_seeds_clock (counts : gmap string Z) (r : DFReader P) (m : DFMessage)
  (p' : P) (t : value) :
_parse_next (decoder r) = (Ok (Some m), p') ->
get_type m = "GPS" ->
_get_gps_time m = Ok t ->
truthy t = true ->
last_gps_time r = VNone ->
fill_round counts r =
  (Ok Continue,
   <["GPS" := (default 0%Z (counts !! "GPS") + 1)%Z]> counts,
   set_last_gps_time t (set_queue (queue r ++ [m]) (set_decoder p' r))).
Proof.
intros Hp Hty Ht Htr Hlast. unfold fill_round. rewrite Hp. cbn beta iota zeta.
reader_simpl. rewrite length_app, Nat.add_comm. cbn [length Nat.add Nat.eqb].
rewrite Hty. cbn [String.eqb Ascii.eqb Bool.eqb]. cbn beta iota.
rewrite Ht, Htr, Hlast. reflexivity.
Qed.

(** A GPS record whose derived time is zero or [None] is no anchor: it
  joins the batch like a record of any other type, whatever the clock. *)
Theorem fix_without_time_joins_batch (counts : gmap string Z) (r : DFReader P)
  (m : DFMessage) (p' : P) (t : value) :
_parse_next (decoder r) = (Ok (Some m), p') ->
get_type m = "GPS" ->
_get_gps_time m = Ok t ->
truthy t = false ->
fill_round counts r =
  (Ok Continue,
   <["GPS" := (default 0%Z (counts !! "GPS") + 1)%Z]> counts,
   set_queue (queue r ++ [m]) (set_decoder p' r)).
Proof.
intros Hp Hty Ht Htr. unfold fill_round. rewrite Hp. cbn beta iota zeta.
reader_simpl. rewrite length_app, Nat.add_comm. cbn [length Nat.add Nat.eqb].
rewrite Hty. cbn [String.eqb Ascii.eqb Bool.eqb]. cbn beta iota.
rewrite Ht, Htr. reflexivity.
Qed.

(** A log in which no record of type GPS precedes the end delivers
  nothing: every record read is dropped and [recv_msg] returns [None]. *)
Theorem log_without_fix_delivers_nothing `{Mavutil} (r : DFReader P)
  (xs : list DFMessage) (p' p'' : P) :
queue r = [] ->
parses (decoder r) xs p' ->
_parse_next p' = (Ok None, p'') ->
Forall (fun x => get_type x <> "GPS") xs ->
recv_msg (S (length xs)) r = Some (Ok None, set_decoder p'' r).
Proof.
intros Hq Hxs Hend Hty. unfold recv_msg, _fill_msg_queue. rewrite Hq.
cbn [length Nat.eqb negb]. cbn iota.
replace (S (length xs)) with (length xs + 1)%nat by lia.
rewrite (fill_loop_accumulate xs 1 _ r p' Hxs Hty). rewrite Hq. cbn [app fill_loop].
rewrite (fill_round_end_of_log_empty _ _ p'').
- cbn [mbind option_bind]. reader_simpl. cbn [pop rev]. destruct r. cbn in Hq. by subst.
- exact Hend.
- reader_simpl. by apply pop_through_GPS_none.
Qed.
End FillMore.

Section TextFill.
Context `{PyRuntime}.

Lemma text_fill_loop_terminates (fuel : nat) :
forall counts (r : DFReader DFReader_text.t),
(length (DFReader_text.lines (decoder r)) - DFReader_text.line (decoder r) < fuel)%nat ->
is_Some (fill_loop fuel counts r).
Proof.
induction fuel as [|fuel IH]; intros counts r Hfuel; [lia|]. cbn [fill_loop].
destruct (fill_round counts r) as [[[c|e] counts'] r1] eqn:Hr; [|done].
apply fill_round_cases in Hr. destruct c as [| |v0]; [|done|done].
destruct Hr as (m & Hm & _). apply IH.
cbn [_parse_next DFReader_text.decoder] in Hm.
pose proof (parse_next_cursor (decoder r)) as [_ Hlines].
apply text_record_position in Hm as Hpos. rewrite Hm in Hlines. cbn [snd] in Hlines.
rewrite Hlines. lia.
Qed.

(** On a text log the fill always ends: one round more than there are
  lines left is enough. *)
Theorem text_fill_terminates (fuel : nat) (r : DFReader DFReader_text.t) :
(length (DFReader_text.lines (decoder r)) - DFReader_text.line (decoder r) < fuel)%nat ->
is_Some (_fill_msg_queue fuel r).
Proof.
intros Hfuel. unfold _fill_msg_queue. destruct (negb _); [done|].
by apply text_fill_loop_terminates.
Qed.
End TextFill.

Lemma pop_through_GPS_last_fix_witness :
  pop_through_GPS
    ([text_record_at (text_after 2 (text_decoder_of log_first_batch))]
     ++ text_record_at (text_after 3 (text_decoder_of log_first_batch))
        :: [text_record_at (text_after 4 (text_decoder_of log_first_batch))])
  = [text_record_at (text_after 2 (text_decoder_of log_first_batch))].
Proof.
  apply pop_through_GPS_last_fix.
  - vm_compute. reflexivity.
  - constructor; [|constructor]. vm_compute. discriminate 1.
Defined.

Lemma fill_queue_holds_records_read_witness :
  queue (text_filled 9 (text_reader_of log_first_batch)) = [] \/
  exists xs,
    @parses _ (@DFReader_text.decoder SampleRuntime.runtime)
       (decoder (text_reader_of log_first_batch)) xs
       (decoder (text_filled 9 (text_reader_of log_first_batch))) /\
    erase_timestamp <$> queue (text_filled 9 (text_reader_of log_first_batch))
      ≡ₚ erase_timestamp <$> xs.
Proof.
  apply (@fill_queue_holds_records_read _ (@DFReader_text.decoder SampleRuntime.runtime)
           9 (text_reader_of log_first_batch)
           (text_filled 9 (text_reader_of log_first_batch)) (VInt 7)).
  - vm_compute. reflexivity.
  - vm_compute. reflexivity.
Defined.

Lemma first_fix_seeds_clock_witness :
  fst (fst (@fill_round _ (@DFReader_text.decoder SampleRuntime.runtime) ∅
              (snd (@rounds _ (@DFReader_text.decoder SampleRuntime.runtime) 3 ∅
                      (text_reader_of log_first_batch)))))
  = Ok Continue.
Proof.
  rewrite (@first_fix_seeds_clock _ (@DFReader_text.decoder SampleRuntime.runtime) ∅
             (snd (@rounds _ (@DFReader_text.decoder SampleRuntime.runtime) 3 ∅
                     (text_reader_of log_first_batch)))
             (text_record_at (text_after 3 (text_decoder_of log_first_batch)))
             (text_after 4 (text_decoder_of log_first_batch))
             (VFloat (10000 # 1000))).
  - reflexivity.
  - vm_compute. reflexivity.
  - vm_compute. reflexivity.
  - vm_compute. reflexivity.
  - vm_compute. reflexivity.
  - vm_compute. reflexivity.
Defined.

Lemma fix_without_time_joins_batch_witness :
  fst (fst (@fill_round _ (@DFReader_text.decoder SampleRuntime.runtime) ∅
              (snd (@rounds _ (@DFReader_text.decoder SampleRuntime.runtime) 2 ∅
                      (text_reader_of log_zero_fix)))))
  = Ok Continue.
Proof.
  rewrite (@fix_without_time_joins_batch _ (@DFReader_text.decoder SampleRuntime.runtime) ∅
             (snd (@rounds _ (@DFReader_text.decoder SampleRuntime.runtime) 2 ∅
                     (text_reader_of log_zero_fix)))
             (text_record_at (text_after 2 (text_decoder_of log_zero_fix)))
             (text_after 3 (text_decoder_of log_zero_fix))
             (VFloat (0 # 1000))).
  - reflexivity.
  - vm_compute. reflexivity.
  - vm_compute. reflexivity.
  - vm_compute. reflexivity.
  - vm_compute. reflexivity.
Defined.

Lemma log_without_fix_delivers_nothing_witness :
  @recv_msg _ (@DFReader_text.decoder SampleRuntime.runtime) SampleRuntime.mavutil
     5 (text_reader_of log_redeclared)
  = Some (Ok None, set_decoder (text_after 5 (text_decoder_of log_redeclared))
                     (text_reader_of log_redeclared)).
Proof.
  apply (@log_without_fix_delivers_nothing _ (@DFReader_text.decoder SampleRuntime.runtime)
           SampleRuntime.mavutil (text_reader_of log_redeclared)
           (text_records 4 (text_decoder_of log_redeclared))
           (text_after 4 (text_decoder_of log_redeclared))
           (text_after 5 (text_decoder_of log_redeclared))).
  - vm_compute. reflexivity.
  - apply (text_records_parses 4). vm_compute. reflexivity.
  - vm_compute. reflexivity.
  - vm_compute. repeat constructor; discriminate 1.
Defined.

Lemma text_fill_terminates_witness :
  is_Some (@_fill_msg_queue _ (@DFReader_text.decoder SampleRuntime.runtime) 9
             (text_reader_of log_first_batch)).
Proof.
  apply (@text_fill_terminates SampleRuntime.runtime 9 (text_reader_of log_first_batch)).
  vm_compute. lia.
Defined.

(** ** Session state, parameters and matching *)

Lemma py_eq_refl (k : value) : py_eq k k = true.
Proof.
  destruct k as [|z|q|s]; cbn [py_eq]; [done| | |].
  - apply Z.eqb_refl.
  - apply Qeq_bool_refl.
  - apply String.eqb_refl.
Qed.

Lemma vdict_set_get_same {V} (d : vdict V) (k : value) (v : V) :
  vdict_get (vdict_set d k v) k = Some v.
Proof.
  induction d as [|[k0 v0] d IH]; cbn [vdict_set vdict_get].
  - by rewrite py_eq_refl.
  - destruct (py_eq k0 k) eqn:E; cbn [vdict_get]; by rewrite E.
Qed.

Section SessionMore.
Context {P : Type} `{Decoder P} `{Mavutil}.

Lemma _update_state_messages (m : DFMessage) (r : DFReader P) :
messages (snd (_update_state m r)) = <[get_type m := MsgRef m]> (messages r) /\
decoder (snd (_update_state m r)) = decoder r.
Proof.
unfold _update_state. repeat (case_match; simplify_eq; reader_simpl; cbn [snd]; try done).
Qed.

Lemma _update_state_PARM (m : DFMessage) (r : DFReader P) (k v : value) :
get_type m = "PARM" ->
getattr m "Name" = Ok k ->
getattr m "Value" = Ok v ->
_update_state m r =
  (Ok tt, set_params (vdict_set (params r) k v)
            (set_messages (<["PARM" := MsgRef m]> (messages r)) r)).
Proof.
intros Hty Hk Hv. unfold _update_state. rewrite Hty.
cbn [String.eqb Ascii.eqb Bool.eqb]. cbn beta iota. rewrite Hv, Hk. reflexivity.
Qed.

Lemma recv_msg_messages (fuel : nat) (r r' : DFReader P) (m : DFMessage) :
recv_msg fuel r = Some (Ok (Some m), r') ->
messages r' !! get_type m = Some (MsgRef m).
Proof.
unfold recv_msg. destruct (if (length (queue r) =? 0)%nat then _ else _) as [[[v|e] r1]|];
  cbn [mbind option_bind]; [|done|done].
destruct (pop (queue r1)) as [[m1 q]|]; [|done].
pose proof (_update_state_messages m1 (set_queue q r1)) as [Hm _].
destruct (_update_state m1 (set_queue q r1)) as [[u|e] r2]; [|done].
intros [= -> ->]. cbn [snd] in Hm. rewrite Hm. apply lookup_insert_eq.
Qed.

(** Whatever record [recv_msg] returns is from then on the entry of its
  type in [messages]. *)
Theorem recv_msg_latest_record (fuel : nat) (r r' : DFReader P) (m : DFMessage) :
recv_msg fuel r = Some (Ok (Some m), r') ->
messages r' !! get_type m = Some (MsgRef m).
Proof. apply recv_msg_messages. Qed.

(** After [recv_msg] has returned a PARM record, [param] gives the
  record's [Value] under its [Name], whatever the default. *)
Theorem recv_msg_sets_parameter (fuel : nat) (r r' : DFReader P) (m : DFMessage)
  (k v dflt : value) :
recv_msg fuel r = Some (Ok (Some m), r') ->
get_type m = "PARM" ->
getattr m "Name" = Ok k ->
getattr m "Value" = Ok v ->
param r' k dflt = v.
Proof.
unfold recv_msg. destruct (if (length (queue r) =? 0)%nat then _ else _) as [[[v0|e] r1]|];
  cbn [mbind option_bind]; [|done|done].
destruct (pop (queue r1)) as [[m1 q]|]; [|done].
destruct (_update_state m1 (set_queue q r1)) as [[u|e] r2] eqn:Hu; [|done].
intros [= -> ->] Hty Hk Hv. rewrite (_update_state_PARM _ _ k v Hty Hk Hv) in Hu.
injection Hu as Hr'. subst r'. unfold param, vdict_mem. reader_simpl.
by rewrite vdict_set_get_same.
Qed.

(** A MODE record whose [Mode] is a string sets the flight mode to it in
  upper case and cannot fail: [mavutil] is not consulted, also when the
  record has a [ModeNum]; the parameters stay as they are. *)
Theorem mode_record_with_name (m : DFMessage) (r : DFReader P) (s : string) :
get_type m = "MODE" ->
getattr m "Mode" = Ok (VStr s) ->
fst (_update_state m r) = Ok tt /\
flightmode (snd (_update_state m r)) = VStr (upper s) /\
params (snd (_update_state m r)) = params r.
Proof.
intros Hty Hmode. unfold _update_state. rewrite Hty.
cbn [String.eqb Ascii.eqb Bool.eqb]. cbn beta iota. rewrite Hmode.
reader_simpl. cbn [fst snd]. reader_simpl. done.
Qed.
End SessionMore.

Section MatchingMore.
Context {P : Type} `{Decoder P} `{Mavutil} `{ConditionEvaluator}.

(** A record [recv_match] returns has one of the types asked for, the
  condition holds on the session state it leaves, and the record is the
  entry of its type there. *)
Theorem recv_match_sound (fuel fill_fuel : nat) (condition : value) (ty : type_filter)
  (r r' : DFReader P) (m : DFMessage) :
recv_match fuel fill_fuel condition ty r = Some (Ok (Some m), r') ->
match ty with
| AnyType => True
| OneType s => get_type m = s
| TypeList l => get_type m ∈ l
end /\
evaluate_condition condition (messages r') = Ok true /\
messages r' !! get_type m = Some (MsgRef m).
Proof.
revert r. induction fuel as [|fuel IH]; intros r; cbn [recv_match]; [done|].
destruct (recv_msg fill_fuel r) as [[[[m1|]|e] r1]|] eqn:Hrecv; [|done|done|done].
destruct (match type_list ty with Some l => negb (contains (get_type m1) l) | None => false end)
  eqn:Hskip; [apply IH|].
destruct (evaluate_condition condition (messages r1)) as [[|]|e] eqn:Hc; [|apply IH|done].
intros [= -> ->]. split; [|split; [done|]].
- destruct ty as [|s|l]; cbn [type_list] in Hskip; [done| |].
  + apply negb_false_iff in Hskip. unfold contains in Hskip. cbn in Hskip.
    rewrite orb_false_r in Hskip. by apply String.eqb_eq in Hskip.
  + apply negb_false_iff in Hskip. unfold contains in Hskip.
    apply existsb_exists in Hskip as (x & Hx & Heq). apply String.eqb_eq in Heq. subst x.
    by apply list_elem_of_In.
- by apply (recv_msg_messages fill_fuel r).
Qed.
End MatchingMore.

Lemma recv_msg_latest_record_witness :
  messages (text_received 4 (text_reader_of log_session))
    !! get_type (text_recv_record (text_received 3 (text_reader_of log_session)))
  = Some (MsgRef (text_recv_record (text_received 3 (text_reader_of log_session)))).
Proof.
  apply (@recv_msg_latest_record _ (@DFReader_text.decoder SampleRuntime.runtime)
           SampleRuntime.mavutil 10
           (text_received 3 (text_reader_of log_session))
           (text_received 4 (text_reader_of log_session))
           (text_recv_record (text_received 3 (text_reader_of log_session)))).
  vm_compute. reflexivity.
Defined.

Lemma recv_msg_sets_parameter_witness :
  param (text_received 4 (text_reader_of log_session)) (VStr "X") VNone = VFloat (35 # 10).
Proof.
  apply (@recv_msg_sets_parameter _ (@DFReader_text.decoder SampleRuntime.runtime)
           SampleRuntime.mavutil 10
           (text_received 3 (text_reader_of log_session))
           (text_received 4 (text_reader_of log_session))
           (text_recv_record (text_received 3 (text_reader_of log_session)))
           (VStr "X") (VFloat (35 # 10)) VNone).
  - vm_compute. reflexivity.
  - vm_compute. reflexivity.
  - vm_compute. reflexivity.
  - vm_compute. reflexivity.
Defined.

Lemma mode_record_with_name_witness :
  flightmode
    (snd (@_update_state _ SampleRuntime.mavutil
            (text_recv_record (text_received 2 (text_reader_of log_session)))
            (text_reader_of log_session)))
  = VStr (upper "auto").
Proof.
  apply (@mode_record_with_name _ SampleRuntime.mavutil
           (text_recv_record (text_received 2 (text_reader_of log_session)))
           (text_reader_of log_session) "auto").
  - vm_compute. reflexivity.
  - vm_compute. reflexivity.
Defined.

Lemma recv_match_sound_witness :
  get_type (fst (text_match (OneType "PARM") (text_reader_of log_session))) = "PARM".
Proof.
  apply (@recv_match_sound _ (@DFReader_text.decoder SampleRuntime.runtime)
           SampleRuntime.mavutil always_true 10 10 VNone (OneType "PARM")
           (text_reader_of log_session)
           (snd (text_match (OneType "PARM") (text_reader_of log_session)))
           (fst (text_match (OneType "PARM") (text_reader_of log_session)))).
  vm_compute. reflexivity.
Defined.

(** ** GPS records without a time of the week *)

Section WeekOnly.
Context {P : Type} `{Decoder P}.

(** A GPS record with a [Week] and none of [T], [Time], [TimeMS] has no
  derivable time: [_get_gps_time] raises [TypeError] on adding [None],
  and so does the round of the queue fill that reads the record. *)
Theorem gps_week_without_time_raises (counts : gmap string Z) (r : DFReader P)
  (gps : DFMessage) (p' : P) (w : Z) :
_parse_next (decoder r) = (Ok (Some gps), p') ->
get_type gps = "GPS" ->
contains "T" (_fieldnames gps) = false ->
contains "Time" (_fieldnames gps) = false ->
contains "TimeMS" (_fieldnames gps) = false ->
contains "Week" (_fieldnames gps) = true ->
getattr gps "Week" = Ok (VInt w) ->
_get_gps_time gps = Raise TypeError /\
fst (fst (fill_round counts r)) = Raise TypeError.
Proof.
intros Hp Hty HT HTime HTimeMS HWeek Hw.
assert (Hg : _get_gps_time gps = Raise TypeError).
{ unfold _get_gps_time. rewrite HT, HTime, HTimeMS, HWeek, Hw. reflexivity. }
split; [done|]. unfold fill_round. rewrite Hp. cbn beta iota zeta.
reader_simpl. rewrite length_app, Nat.add_comm. cbn [length Nat.add Nat.eqb].
rewrite Hty. cbn [String.eqb Ascii.eqb Bool.eqb]. cbn beta iota.
rewrite Hg. reflexivity.
Qed.
End WeekOnly.

(** ** Rewinding the text decoder *)

Section TextRewind.
Context `{PyRuntime}.

(** A call of [_parse_next] does not change where [_rewind] goes back
  to, and rewinding forgets no layout learnt so far. *)
Theorem text_rewind_replay (p : DFReader_text.t) :
DFReader_text.line (DFReader_text.rewind (snd (DFReader_text.parse_next p)))
  = DFReader_text.line (DFReader_text.rewind p) /\
(forall k, is_Some (DFReader_text.formats p !! k) ->
   is_Some (DFReader_text.formats
              (DFReader_text.rewind (snd (DFReader_text.parse_next p))) !! k)).
Proof.
destruct (parse_next_cursor p) as [_ Hlines]. split.
- cbn [DFReader_text.rewind DFReader_text.line]. by rewrite Hlines.
- intros k Hk. cbn [DFReader_text.rewind DFReader_text.formats].
  by apply text_registry_never_removes.
Qed.
End TextRewind.

(** ** Recognising a text log *)

Lemma substring_window (c : string) : forall (N m k : nat),
  (m + k <= N)%nat ->
  String.substring m k (String.substring 0 N c) = String.substring m k c.
Proof.
  induction c as [|ch c IH]; intros N m k Hle.
  - by destruct N.
  - destruct N as [|N].
    + assert (m = 0%nat) as -> by lia. assert (k = 0%nat) as -> by lia. reflexivity.
    + change (String.substring 0 (S N) (String ch c))
        with (String ch (String.substring 0 N c)).
      destruct m as [|m].
      * destruct k as [|k]; [reflexivity|].
        change (String ch (String.substring 0 k (String.substring 0 N c))
                = String ch (String.substring 0 k c)).
        f_equal. apply IH. lia.
      * change (String.substring m k (String.substring 0 N c) = String.substring m k c).
        apply IH. lia.
Qed.

Lemma substring_length_le (s : string) : forall (m k : nat),
  (String.length (String.substring m k s) <= String.length s - m)%nat.
Proof.
  induction s as [|ch s IH]; intros m k.
  - by destruct m, k.
  - destruct m as [|m].
    + destruct k as [|k]; [cbn [String.substring String.length]; lia|].
      change (S (String.length (String.substring 0 k s)) <= S (String.length s) - 0)%nat.
      specialize (IH 0%nat k). lia.
    + change (String.length (String.substring m k s) <= String.length s - m)%nat.
      apply IH.
Qed.

Lemma substring_prefix_length (c : string) : forall (N : nat),
  (String.length (String.substring 0 N c) <= N)%nat.
Proof.
  induction c as [|ch c IH]; intros N.
  - destruct N; cbn [String.substring String.length]; lia.
  - destruct N as [|N]; [cbn [String.substring String.length]; lia|].
    change (S (String.length (String.substring 0 N c)) <= S N)%nat.
    specialize (IH N). lia.
Qed.

Lemma find_in_prefix (mark content : string) (N : nat) :
  mark <> EmptyString ->
  (exists i, String.index 0 mark (String.substring 0 N content) = Some i) <->
  (exists m, (m + String.length mark <= N)%nat /\
             String.substring m (String.length mark) content = mark).
Proof.
  intros Hne. split.
  - intros [i Hi]. apply String.index_correct1 in Hi. exists i.
    assert (Hle : (i + String.length mark <= N)%nat).
    { pose proof (substring_length_le (String.substring 0 N content) i (String.length mark)) as H1.
      pose proof (substring_prefix_length content N) as H2. rewrite Hi in H1.
      destruct mark; [done|]. cbn [String.length] in *. lia. }
    split; [done|]. by rewrite substring_window in Hi.
  - intros (m & Hle & Hm).
    destruct (String.index 0 mark (String.substring 0 N content)) as [i|] eqn:E; [by exists i|].
    exfalso. apply (String.index_correct3 0 m) in E; [|done|lia].
    apply E. by rewrite substring_window.
Qed.

(** A file counts as a text log exactly when ["FMT, "] occurs in full
    within its first 8000 characters. *)
Theorem is_text_log_iff (content : string) :
  DFReader_is_text_log content = true <->
  exists m, (m + 5 <= 8 * 1000)%nat /\ String.substring m 5 content = "FMT, ".
Proof.
  unfold DFReader_is_text_log.
  pose proof (find_in_prefix "FMT, " content (8 * 1000)) as Hf.
  change (String.length "FMT, ") with 5%nat in Hf. rewrite <- Hf by discriminate 1.
  destruct (String.index 0 "FMT, " _) as [i|]; split; try done.
  - by exists i.
  - by intros [i Hi].
Qed.

Lemma gps_week_without_time_raises_witness :
  _get_gps_time (text_record_at (text_after 2 (text_decoder_of log_week_only)))
  = Raise TypeError.
Proof.
  apply (@gps_week_without_time_raises _ (@DFReader_text.decoder SampleRuntime.runtime) ∅
           (snd (@rounds _ (@DFReader_text.decoder SampleRuntime.runtime) 2 ∅
                   (text_reader_of log_week_only)))
           (text_record_at (text_after 2 (text_decoder_of log_week_only)))
           (text_after 3 (text_decoder_of log_week_only)) 1800).
  - vm_compute. reflexivity.
  - vm_compute. reflexivity.
  - vm_compute. reflexivity.
  - vm_compute. reflexivity.
  - vm_compute. reflexivity.
  - vm_compute. reflexivity.
  - vm_compute. reflexivity.
Defined.
